(** * ndphc-backend: the metric derivation engine

    A shallow embedding of the daily-report calculation code of the
    repository and the properties checked against it.

    The repository holds two versions of [CalculationService]:

    - [app/services/calculation_service.py], the one the endpoints import
      ([from app.services.calculation_service import CalculationService]);
      it is embedded in module [Service];
    - [app/api/v1/endpoints/calculations.py], a second version of the same
      class with the hourly-first totals and the zero defaults, which no
      endpoint imports; it is embedded in module [Calculations].

    The endpoints that mutate turbine data ([update_daily_report],
    [update_hourly_readings]) are embedded in module [Endpoints].
    [get_hourly_readings] is in module [HourlyReadings], the queries of
    [calculation_service.py] are in module [ServiceQueries], and
    [create_daily_report] and [read_daily_report_by_plant_and_date] are in
    module [DailyReports].

    Numbers.  The columns are [Numeric(10, 2)] and the code computes on
    [Decimal] values.  Every such value is modelled as a canonical rational [Qc]:
    arithmetic is exact, division by zero is an exception ([pdiv]), and the
    rounding of the storage layer is not part of the model.  The reads of
    an attribute that no class declares and the product of a [Decimal] and
    a float, which Python refuses, are exceptions too. *)

From Stdlib Require Import ZArith NArith QArith Qcanon List Bool Lia.
From Stdlib Require Import Permutation Sorted.
From Stdlib Require String.
Import ListNotations.
Import String.StringSyntax.
Delimit Scope string_scope with string.

Set Primitive Projections.

(** ** Decimal values *)

Definition decimal := Qc.

Declare Scope decimal_scope.
Delimit Scope decimal_scope with decimal.
Bind Scope decimal_scope with decimal.

(** [dec n d] is the literal [n / d]; [of_Z z] an integer literal. *)
Definition dec (n : Z) (d : positive) : decimal := Q2Qc (n # d).
Definition of_Z (z : Z) : decimal := Q2Qc (inject_Z z).

Definition dzero : decimal := of_Z 0.

Definition dadd (x y : decimal) : decimal := Qcplus x y.
Definition dsub (x y : decimal) : decimal := Qcminus x y.
Definition dmul (x y : decimal) : decimal := Qcmult x y.
(** Quotient of a division whose divisor is known not to be zero. *)
Definition dquot (x y : decimal) : decimal := Qcdiv x y.

Definition deqb (x y : decimal) : bool := Qeq_bool x y.
Definition dltb (x y : decimal) : bool :=
  match Qccompare x y with Lt => true | _ => false end.

(** [x > 0] on decimals. *)
Definition gt0 (x : decimal) : bool := dltb dzero x.

(** Python truthiness of a number: zero is false. *)
Definition truthy (x : decimal) : bool := negb (deqb x dzero).

(** Truthiness of a nullable column: [None] and zero are false. *)
Definition truthy_opt (o : option decimal) : bool :=
  match o with
  | Some x => truthy x
  | None => false
  end.

Definition is_some {A} (o : option A) : bool :=
  match o with Some _ => true | None => false end.

(** [sum(...)] of Python over an iterable of decimals, and SQL's
    [func.sum(...).scalar() or 0]: both are zero on no rows. *)
Definition dsum (l : list decimal) : decimal := fold_right dadd dzero l.

Infix "+" := dadd : decimal_scope.
Infix "-" := dsub : decimal_scope.
Infix "*" := dmul : decimal_scope.

(** ** Exceptions and results *)

Inductive exn : Type :=
| DivisionByZero
| AttributeError
| TypeError
| HTTPException (status_code : nat).

Inductive result (A : Type) : Type :=
| Ok (a : A)
| Raise (e : exn).

Arguments Ok {A} a.
Arguments Raise {A} e.

Definition bind {A B} (m : result A) (k : A -> result B) : result B :=
  match m with
  | Ok a => k a
  | Raise e => Raise e
  end.

Notation "x <- m ;; k" := (bind m (fun x => k))
  (at level 61, m at next level, right associativity).

Definition raises {A} (m : result A) : Prop :=
  match m with Ok _ => False | Raise _ => True end.

(** The division of [Decimal]: raises on a zero divisor. *)
Definition pdiv (x y : decimal) : result decimal :=
  if deqb y dzero then Raise DivisionByZero else Ok (dquot x y).

(** ** The data model ([app/models]) *)

Definition uuid := N.
Definition Date := Z.
Definition DateTime := Z.

Module PowerPlant.
Record t : Type := {
    id : Z;
    total_capacity : decimal
  }.
End PowerPlant.

Module Turbine.
Record t : Type := {
    id : Z;
    power_plant_id : Z
  }.
End Turbine.

Module MorningReading.
Record t : Type := {
    date : Date;
    power_plant_id : Z;
    declaration_total : decimal;
    availability_capacity : decimal
  }.
End MorningReading.

Module TurbineDailyStats.
Record t : Type := {
    daily_report_id : uuid;
    turbine_id : Z;
    energy_generated : decimal;
    energy_exported : decimal;
    operating_hours : decimal;
    startup_count : Z;
    shutdown_count : Z;
    trips : Z
  }.

Definition with_energy (s : t) (g e : decimal) : t :=
    {| daily_report_id := daily_report_id s;
       turbine_id := turbine_id s;
       energy_generated := g;
       energy_exported := e;
       operating_hours := operating_hours s;
       startup_count := startup_count s;
       shutdown_count := shutdown_count s;
       trips := trips s |}.
End TurbineDailyStats.

Module TurbineHourlyGeneration.
Record t : Type := {
    daily_report_id : uuid;
    turbine_id : Z;
    hour : Z;
    energy_generated : decimal
  }.
End TurbineHourlyGeneration.

Module UserRole.
Inductive t : Type := ADMIN | OPERATOR | EDITOR | VIEWER.

Definition eqb (a b : t) : bool :=
    match a, b with
    | ADMIN, ADMIN | OPERATOR, OPERATOR | EDITOR, EDITOR | VIEWER, VIEWER => true
    | _, _ => false
    end.
End UserRole.

Module User.
Record t : Type := {
    id : Z;
    role : UserRole.t;
    power_plant_id : option Z
  }.
End User.

Module DailyReport.
Record t : Type := {
    id : uuid;
    date : Date;
    power_plant_id : Z;
    (* base measurements *)
    gas_loss : decimal;
    ncc_loss : decimal;
    internal_loss : decimal;
    gas_consumed : decimal;
    (* values that may be copied from the morning reading *)
    declaration_total : option decimal;
    availability_capacity : option decimal;
    (* derived calculations (stored) *)
    availability_factor : option decimal;
    plant_heat_rate : option decimal;
    thermal_efficiency : option decimal;
    energy_generated : option decimal;
    total_energy_exported : option decimal;
    energy_consumed : option decimal;
    availability_forecast : option decimal;
    dependability_index : option decimal;
    avg_energy_sent_out : option decimal;
    gas_utilization : option decimal;
    load_factor : option decimal;
    (* audit fields *)
    updated_at : option DateTime;
    submission_deadline : option DateTime;
    is_late_submission : bool;
    last_modified_by_id : option Z
  }.

(** Attribute assignment [report.f = v], one setter per assigned column. *)

Definition set_gas_loss (r : t) (v : decimal) : t :=
  {| id := id r; date := date r; power_plant_id := power_plant_id r;
     gas_loss := v; ncc_loss := ncc_loss r; internal_loss := internal_loss r;
     gas_consumed := gas_consumed r;
     declaration_total := declaration_total r;
     availability_capacity := availability_capacity r;
     availability_factor := availability_factor r;
     plant_heat_rate := plant_heat_rate r;
     thermal_efficiency := thermal_efficiency r;
     energy_generated := energy_generated r;
     total_energy_exported := total_energy_exported r;
     energy_consumed := energy_consumed r;
     availability_forecast := availability_forecast r;
     dependability_index := dependability_index r;
     avg_energy_sent_out := avg_energy_sent_out r;
     gas_utilization := gas_utilization r; load_factor := load_factor r;
     updated_at := updated_at r;
     submission_deadline := submission_deadline r;
     is_late_submission := is_late_submission r;
     last_modified_by_id := last_modified_by_id r |}.

Definition set_ncc_loss (r : t) (v : decimal) : t :=
  {| id := id r; date := date r; power_plant_id := power_plant_id r;
     gas_loss := gas_loss r; ncc_loss := v; internal_loss := internal_loss r;
     gas_consumed := gas_consumed r;
     declaration_total := declaration_total r;
     availability_capacity := availability_capacity r;
     availability_factor := availability_factor r;
     plant_heat_rate := plant_heat_rate r;
     thermal_efficiency := thermal_efficiency r;
     energy_generated := energy_generated r;
     total_energy_exported := total_energy_exported r;
     energy_consumed := energy_consumed r;
     availability_forecast := availability_forecast r;
     dependability_index := dependability_index r;
     avg_energy_sent_out := avg_energy_sent_out r;
     gas_utilization := gas_utilization r; load_factor := load_factor r;
     updated_at := updated_at r;
     submission_deadline := submission_deadline r;
     is_late_submission := is_late_submission r;
     last_modified_by_id := last_modified_by_id r |}.

Definition set_internal_loss (r : t) (v : decimal) : t :=
  {| id := id r; date := date r; power_plant_id := power_plant_id r;
     gas_loss := gas_loss r; ncc_loss := ncc_loss r; internal_loss := v;
     gas_consumed := gas_consumed r;
     declaration_total := declaration_total r;
     availability_capacity := availability_capacity r;
     availability_factor := availability_factor r;
     plant_heat_rate := plant_heat_rate r;
     thermal_efficiency := thermal_efficiency r;
     energy_generated := energy_generated r;
     total_energy_exported := total_energy_exported r;
     energy_consumed := energy_consumed r;
     availability_forecast := availability_forecast r;
     dependability_index := dependability_index r;
     avg_energy_sent_out := avg_energy_sent_out r;
     gas_utilization := gas_utilization r; load_factor := load_factor r;
     updated_at := updated_at r;
     submission_deadline := submission_deadline r;
     is_late_submission := is_late_submission r;
     last_modified_by_id := last_modified_by_id r |}.

Definition set_gas_consumed (r : t) (v : decimal) : t :=
  {| id := id r; date := date r; power_plant_id := power_plant_id r;
     gas_loss := gas_loss r; ncc_loss := ncc_loss r;
     internal_loss := internal_loss r; gas_consumed := v;
     declaration_total := declaration_total r;
     availability_capacity := availability_capacity r;
     availability_factor := availability_factor r;
     plant_heat_rate := plant_heat_rate r;
     thermal_efficiency := thermal_efficiency r;
     energy_generated := energy_generated r;
     total_energy_exported := total_energy_exported r;
     energy_consumed := energy_consumed r;
     availability_forecast := availability_forecast r;
     dependability_index := dependability_index r;
     avg_energy_sent_out := avg_energy_sent_out r;
     gas_utilization := gas_utilization r; load_factor := load_factor r;
     updated_at := updated_at r;
     submission_deadline := submission_deadline r;
     is_late_submission := is_late_submission r;
     last_modified_by_id := last_modified_by_id r |}.

Definition set_declaration_total (r : t) (v : option decimal) : t :=
  {| id := id r; date := date r; power_plant_id := power_plant_id r;
     gas_loss := gas_loss r; ncc_loss := ncc_loss r;
     internal_loss := internal_loss r; gas_consumed := gas_consumed r;
     declaration_total := v;
     availability_capacity := availability_capacity r;
     availability_factor := availability_factor r;
     plant_heat_rate := plant_heat_rate r;
     thermal_efficiency := thermal_efficiency r;
     energy_generated := energy_generated r;
     total_energy_exported := total_energy_exported r;
     energy_consumed := energy_consumed r;
     availability_forecast := availability_forecast r;
     dependability_index := dependability_index r;
     avg_energy_sent_out := avg_energy_sent_out r;
     gas_utilization := gas_utilization r; load_factor := load_factor r;
     updated_at := updated_at r;
     submission_deadline := submission_deadline r;
     is_late_submission := is_late_submission r;
     last_modified_by_id := last_modified_by_id r |}.

Definition set_availability_capacity (r : t) (v : option decimal) : t :=
  {| id := id r; date := date r; power_plant_id := power_plant_id r;
     gas_loss := gas_loss r; ncc_loss := ncc_loss r;
     internal_loss := internal_loss r; gas_consumed := gas_consumed r;
     declaration_total := declaration_total r; availability_capacity := v;
     availability_factor := availability_factor r;
     plant_heat_rate := plant_heat_rate r;
     thermal_efficiency := thermal_efficiency r;
     energy_generated := energy_generated r;
     total_energy_exported := total_energy_exported r;
     energy_consumed := energy_consumed r;
     availability_forecast := availability_forecast r;
     dependability_index := dependability_index r;
     avg_energy_sent_out := avg_energy_sent_out r;
     gas_utilization := gas_utilization r; load_factor := load_factor r;
     updated_at := updated_at r;
     submission_deadline := submission_deadline r;
     is_late_submission := is_late_submission r;
     last_modified_by_id := last_modified_by_id r |}.

Definition set_availability_factor (r : t) (v : option decimal) : t :=
  {| id := id r; date := date r; power_plant_id := power_plant_id r;
     gas_loss := gas_loss r; ncc_loss := ncc_loss r;
     internal_loss := internal_loss r; gas_consumed := gas_consumed r;
     declaration_total := declaration_total r;
     availability_capacity := availability_capacity r;
     availability_factor := v; plant_heat_rate := plant_heat_rate r;
     thermal_efficiency := thermal_efficiency r;
     energy_generated := energy_generated r;
     total_energy_exported := total_energy_exported r;
     energy_consumed := energy_consumed r;
     availability_forecast := availability_forecast r;
     dependability_index := dependability_index r;
     avg_energy_sent_out := avg_energy_sent_out r;
     gas_utilization := gas_utilization r; load_factor := load_factor r;
     updated_at := updated_at r;
     submission_deadline := submission_deadline r;
     is_late_submission := is_late_submission r;
     last_modified_by_id := last_modified_by_id r |}.

Definition set_plant_heat_rate (r : t) (v : option decimal) : t :=
  {| id := id r; date := date r; power_plant_id := power_plant_id r;
     gas_loss := gas_loss r; ncc_loss := ncc_loss r;
     internal_loss := internal_loss r; gas_consumed := gas_consumed r;
     declaration_total := declaration_total r;
     availability_capacity := availability_capacity r;
     availability_factor := availability_factor r; plant_heat_rate := v;
     thermal_efficiency := thermal_efficiency r;
     energy_generated := energy_generated r;
     total_energy_exported := total_energy_exported r;
     energy_consumed := energy_consumed r;
     availability_forecast := availability_forecast r;
     dependability_index := dependability_index r;
     avg_energy_sent_out := avg_energy_sent_out r;
     gas_utilization := gas_utilization r; load_factor := load_factor r;
     updated_at := updated_at r;
     submission_deadline := submission_deadline r;
     is_late_submission := is_late_submission r;
     last_modified_by_id := last_modified_by_id r |}.

Definition set_thermal_efficiency (r : t) (v : option decimal) : t :=
  {| id := id r; date := date r; power_plant_id := power_plant_id r;
     gas_loss := gas_loss r; ncc_loss := ncc_loss r;
     internal_loss := internal_loss r; gas_consumed := gas_consumed r;
     declaration_total := declaration_total r;
     availability_capacity := availability_capacity r;
     availability_factor := availability_factor r;
     plant_heat_rate := plant_heat_rate r; thermal_efficiency := v;
     energy_generated := energy_generated r;
     total_energy_exported := total_energy_exported r;
     energy_consumed := energy_consumed r;
     availability_forecast := availability_forecast r;
     dependability_index := dependability_index r;
     avg_energy_sent_out := avg_energy_sent_out r;
     gas_utilization := gas_utilization r; load_factor := load_factor r;
     updated_at := updated_at r;
     submission_deadline := submission_deadline r;
     is_late_submission := is_late_submission r;
     last_modified_by_id := last_modified_by_id r |}.

Definition set_energy_generated (r : t) (v : option decimal) : t :=
  {| id := id r; date := date r; power_plant_id := power_plant_id r;
     gas_loss := gas_loss r; ncc_loss := ncc_loss r;
     internal_loss := internal_loss r; gas_consumed := gas_consumed r;
     declaration_total := declaration_total r;
     availability_capacity := availability_capacity r;
     availability_factor := availability_factor r;
     plant_heat_rate := plant_heat_rate r;
     thermal_efficiency := thermal_efficiency r; energy_generated := v;
     total_energy_exported := total_energy_exported r;
     energy_consumed := energy_consumed r;
     availability_forecast := availability_forecast r;
     dependability_index := dependability_index r;
     avg_energy_sent_out := avg_energy_sent_out r;
     gas_utilization := gas_utilization r; load_factor := load_factor r;
     updated_at := updated_at r;
     submission_deadline := submission_deadline r;
     is_late_submission := is_late_submission r;
     last_modified_by_id := last_modified_by_id r |}.

Definition set_total_energy_exported (r : t) (v : option decimal) : t :=
  {| id := id r; date := date r; power_plant_id := power_plant_id r;
     gas_loss := gas_loss r; ncc_loss := ncc_loss r;
     internal_loss := internal_loss r; gas_consumed := gas_consumed r;
     declaration_total := declaration_total r;
     availability_capacity := availability_capacity r;
     availability_factor := availability_factor r;
     plant_heat_rate := plant_heat_rate r;
     thermal_efficiency := thermal_efficiency r;
     energy_generated := energy_generated r; total_energy_exported := v;
     energy_consumed := energy_consumed r;
     availability_forecast := availability_forecast r;
     dependability_index := dependability_index r;
     avg_energy_sent_out := avg_energy_sent_out r;
     gas_utilization := gas_utilization r; load_factor := load_factor r;
     updated_at := updated_at r;
     submission_deadline := submission_deadline r;
     is_late_submission := is_late_submission r;
     last_modified_by_id := last_modified_by_id r |}.

Definition set_energy_consumed (r : t) (v : option decimal) : t :=
  {| id := id r; date := date r; power_plant_id := power_plant_id r;
     gas_loss := gas_loss r; ncc_loss := ncc_loss r;
     internal_loss := internal_loss r; gas_consumed := gas_consumed r;
     declaration_total := declaration_total r;
     availability_capacity := availability_capacity r;
     availability_factor := availability_factor r;
     plant_heat_rate := plant_heat_rate r;
     thermal_efficiency := thermal_efficiency r;
     energy_generated := energy_generated r;
     total_energy_exported := total_energy_exported r; energy_consumed := v;
     availability_forecast := availability_forecast r;
     dependability_index := dependability_index r;
     avg_energy_sent_out := avg_energy_sent_out r;
     gas_utilization := gas_utilization r; load_factor := load_factor r;
     updated_at := updated_at r;
     submission_deadline := submission_deadline r;
     is_late_submission := is_late_submission r;
     last_modified_by_id := last_modified_by_id r |}.

Definition set_availability_forecast (r : t) (v : option decimal) : t :=
  {| id := id r; date := date r; power_plant_id := power_plant_id r;
     gas_loss := gas_loss r; ncc_loss := ncc_loss r;
     internal_loss := internal_loss r; gas_consumed := gas_consumed r;
     declaration_total := declaration_total r;
     availability_capacity := availability_capacity r;
     availability_factor := availability_factor r;
     plant_heat_rate := plant_heat_rate r;
     thermal_efficiency := thermal_efficiency r;
     energy_generated := energy_generated r;
     total_energy_exported := total_energy_exported r;
     energy_consumed := energy_consumed r; availability_forecast := v;
     dependability_index := dependability_index r;
     avg_energy_sent_out := avg_energy_sent_out r;
     gas_utilization := gas_utilization r; load_factor := load_factor r;
     updated_at := updated_at r;
     submission_deadline := submission_deadline r;
     is_late_submission := is_late_submission r;
     last_modified_by_id := last_modified_by_id r |}.

Definition set_dependability_index (r : t) (v : option decimal) : t :=
  {| id := id r; date := date r; power_plant_id := power_plant_id r;
     gas_loss := gas_loss r; ncc_loss := ncc_loss r;
     internal_loss := internal_loss r; gas_consumed := gas_consumed r;
     declaration_total := declaration_total r;
     availability_capacity := availability_capacity r;
     availability_factor := availability_factor r;
     plant_heat_rate := plant_heat_rate r;
     thermal_efficiency := thermal_efficiency r;
     energy_generated := energy_generated r;
     total_energy_exported := total_energy_exported r;
     energy_consumed := energy_consumed r;
     availability_forecast := availability_forecast r;
     dependability_index := v; avg_energy_sent_out := avg_energy_sent_out r;
     gas_utilization := gas_utilization r; load_factor := load_factor r;
     updated_at := updated_at r;
     submission_deadline := submission_deadline r;
     is_late_submission := is_late_submission r;
     last_modified_by_id := last_modified_by_id r |}.

Definition set_avg_energy_sent_out (r : t) (v : option decimal) : t :=
  {| id := id r; date := date r; power_plant_id := power_plant_id r;
     gas_loss := gas_loss r; ncc_loss := ncc_loss r;
     internal_loss := internal_loss r; gas_consumed := gas_consumed r;
     declaration_total := declaration_total r;
     availability_capacity := availability_capacity r;
     availability_factor := availability_factor r;
     plant_heat_rate := plant_heat_rate r;
     thermal_efficiency := thermal_efficiency r;
     energy_generated := energy_generated r;
     total_energy_exported := total_energy_exported r;
     energy_consumed := energy_consumed r;
     availability_forecast := availability_forecast r;
     dependability_index := dependability_index r; avg_energy_sent_out := v;
     gas_utilization := gas_utilization r; load_factor := load_factor r;
     updated_at := updated_at r;
     submission_deadline := submission_deadline r;
     is_late_submission := is_late_submission r;
     last_modified_by_id := last_modified_by_id r |}.

Definition set_gas_utilization (r : t) (v : option decimal) : t :=
  {| id := id r; date := date r; power_plant_id := power_plant_id r;
     gas_loss := gas_loss r; ncc_loss := ncc_loss r;
     internal_loss := internal_loss r; gas_consumed := gas_consumed r;
     declaration_total := declaration_total r;
     availability_capacity := availability_capacity r;
     availability_factor := availability_factor r;
     plant_heat_rate := plant_heat_rate r;
     thermal_efficiency := thermal_efficiency r;
     energy_generated := energy_generated r;
     total_energy_exported := total_energy_exported r;
     energy_consumed := energy_consumed r;
     availability_forecast := availability_forecast r;
     dependability_index := dependability_index r;
     avg_energy_sent_out := avg_energy_sent_out r; gas_utilization := v;
     load_factor := load_factor r; updated_at := updated_at r;
     submission_deadline := submission_deadline r;
     is_late_submission := is_late_submission r;
     last_modified_by_id := last_modified_by_id r |}.

Definition set_load_factor (r : t) (v : option decimal) : t :=
  {| id := id r; date := date r; power_plant_id := power_plant_id r;
     gas_loss := gas_loss r; ncc_loss := ncc_loss r;
     internal_loss := internal_loss r; gas_consumed := gas_consumed r;
     declaration_total := declaration_total r;
     availability_capacity := availability_capacity r;
     availability_factor := availability_factor r;
     plant_heat_rate := plant_heat_rate r;
     thermal_efficiency := thermal_efficiency r;
     energy_generated := energy_generated r;
     total_energy_exported := total_energy_exported r;
     energy_consumed := energy_consumed r;
     availability_forecast := availability_forecast r;
     dependability_index := dependability_index r;
     avg_energy_sent_out := avg_energy_sent_out r;
     gas_utilization := gas_utilization r; load_factor := v;
     updated_at := updated_at r;
     submission_deadline := submission_deadline r;
     is_late_submission := is_late_submission r;
     last_modified_by_id := last_modified_by_id r |}.

Definition set_updated_at (r : t) (v : option DateTime) : t :=
  {| id := id r; date := date r; power_plant_id := power_plant_id r;
     gas_loss := gas_loss r; ncc_loss := ncc_loss r;
     internal_loss := internal_loss r; gas_consumed := gas_consumed r;
     declaration_total := declaration_total r;
     availability_capacity := availability_capacity r;
     availability_factor := availability_factor r;
     plant_heat_rate := plant_heat_rate r;
     thermal_efficiency := thermal_efficiency r;
     energy_generated := energy_generated r;
     total_energy_exported := total_energy_exported r;
     energy_consumed := energy_consumed r;
     availability_forecast := availability_forecast r;
     dependability_index := dependability_index r;
     avg_energy_sent_out := avg_energy_sent_out r;
     gas_utilization := gas_utilization r; load_factor := load_factor r;
     updated_at := v; submission_deadline := submission_deadline r;
     is_late_submission := is_late_submission r;
     last_modified_by_id := last_modified_by_id r |}.

Definition set_is_late_submission (r : t) (v : bool) : t :=
  {| id := id r; date := date r; power_plant_id := power_plant_id r;
     gas_loss := gas_loss r; ncc_loss := ncc_loss r;
     internal_loss := internal_loss r; gas_consumed := gas_consumed r;
     declaration_total := declaration_total r;
     availability_capacity := availability_capacity r;
     availability_factor := availability_factor r;
     plant_heat_rate := plant_heat_rate r;
     thermal_efficiency := thermal_efficiency r;
     energy_generated := energy_generated r;
     total_energy_exported := total_energy_exported r;
     energy_consumed := energy_consumed r;
     availability_forecast := availability_forecast r;
     dependability_index := dependability_index r;
     avg_energy_sent_out := avg_energy_sent_out r;
     gas_utilization := gas_utilization r; load_factor := load_factor r;
     updated_at := updated_at r;
     submission_deadline := submission_deadline r; is_late_submission := v;
     last_modified_by_id := last_modified_by_id r |}.

Definition set_last_modified_by_id (r : t) (v : option Z) : t :=
  {| id := id r; date := date r; power_plant_id := power_plant_id r;
     gas_loss := gas_loss r; ncc_loss := ncc_loss r;
     internal_loss := internal_loss r; gas_consumed := gas_consumed r;
     declaration_total := declaration_total r;
     availability_capacity := availability_capacity r;
     availability_factor := availability_factor r;
     plant_heat_rate := plant_heat_rate r;
     thermal_efficiency := thermal_efficiency r;
     energy_generated := energy_generated r;
     total_energy_exported := total_energy_exported r;
     energy_consumed := energy_consumed r;
     availability_forecast := availability_forecast r;
     dependability_index := dependability_index r;
     avg_energy_sent_out := avg_energy_sent_out r;
     gas_utilization := gas_utilization r; load_factor := load_factor r;
     updated_at := updated_at r;
     submission_deadline := submission_deadline r;
     is_late_submission := is_late_submission r; last_modified_by_id := v |}.
End DailyReport.

(** ** The database session

    Each table is the list of its rows in storage order; [first] is
    [Query.first()] and [filter] is [Query.filter(...).all()]. *)

Record Session : Type := {
  daily_reports : list DailyReport.t;
  power_plants : list PowerPlant.t;
  morning_readings : list MorningReading.t;
  turbine_daily_stats : list TurbineDailyStats.t;
  turbine_hourly_generations : list TurbineHourlyGeneration.t;
  turbines : list Turbine.t
}.

Definition first {A} (p : A -> bool) (rows : list A) : option A := find p rows.

(** Writing back the object a [first] query returned: the first row that
    satisfies [p] is replaced. *)
Fixpoint update_first {A} (p : A -> bool) (new : A) (rows : list A) : list A :=
  match rows with
  | [] => []
  | x :: rest => if p x then new :: rest else x :: update_first p new rest
  end.

Definition with_daily_reports (db : Session) (l : list DailyReport.t) : Session :=
  {| daily_reports := l;
     power_plants := power_plants db;
     morning_readings := morning_readings db;
     turbine_daily_stats := turbine_daily_stats db;
     turbine_hourly_generations := turbine_hourly_generations db;
     turbines := turbines db |}.

Definition with_turbine_daily_stats (db : Session) (l : list TurbineDailyStats.t) : Session :=
  {| daily_reports := daily_reports db;
     power_plants := power_plants db;
     morning_readings := morning_readings db;
     turbine_daily_stats := l;
     turbine_hourly_generations := turbine_hourly_generations db;
     turbines := turbines db |}.

Definition with_turbine_hourly_generations (db : Session)
  (l : list TurbineHourlyGeneration.t) : Session :=
  {| daily_reports := daily_reports db;
     power_plants := power_plants db;
     morning_readings := morning_readings db;
     turbine_daily_stats := turbine_daily_stats db;
     turbine_hourly_generations := l;
     turbines := turbines db |}.

Definition has_report_id (report_id : uuid) (r : DailyReport.t) : bool :=
  N.eqb (DailyReport.id r) report_id.

Definition has_plant_id (plant_id : Z) (p : PowerPlant.t) : bool :=
  Z.eqb (PowerPlant.id p) plant_id.

(** [db.add(report); db.commit()]: the row of the report is written back. *)
Definition commit_report (db : Session) (report : DailyReport.t) : Session :=
  with_daily_reports db
    (update_first (has_report_id (DailyReport.id report)) report (daily_reports db)).

(** ** [app/services/calculation_service.py]

    The [CalculationService] the endpoints import. *)

Module Service.
Import DailyReport.

Definition same_day_reading (daily_report : DailyReport.t) (m : MorningReading.t) : bool :=
  Z.eqb (MorningReading.date m) (DailyReport.date daily_report)
  && Z.eqb (MorningReading.power_plant_id m) (DailyReport.power_plant_id daily_report).

Definition stats_of_report (daily_report_id : uuid) (s : TurbineDailyStats.t) : bool :=
  N.eqb (TurbineDailyStats.daily_report_id s) daily_report_id.

(** Lines 61-66: declaration values not provided directly are taken from
    the morning reading. *)
Definition fill_declaration_total (morning_reading : option MorningReading.t)
  (daily_report : DailyReport.t) : DailyReport.t :=
  match morning_reading with
  | Some m =>
      if negb (truthy_opt (declaration_total daily_report))
      then set_declaration_total daily_report (Some (MorningReading.declaration_total m))
      else daily_report
  | None => daily_report
  end.

Definition fill_availability_capacity (morning_reading : option MorningReading.t)
  (daily_report : DailyReport.t) : DailyReport.t :=
  match morning_reading with
  | Some m =>
      if negb (truthy_opt (availability_capacity daily_report))
      then set_availability_capacity daily_report
             (Some (MorningReading.availability_capacity m))
      else daily_report
  | None => daily_report
  end.

(** Lines 68-71. *)
Definition calc_availability_factor (power_plant : PowerPlant.t)
  (daily_report : DailyReport.t) : result DailyReport.t :=
  match availability_capacity daily_report with
  | Some ac =>
      if truthy ac && gt0 (PowerPlant.total_capacity power_plant)
      then q <- pdiv ac (PowerPlant.total_capacity power_plant) ;;
           Ok (set_availability_factor daily_report (Some (q * of_Z 100)%decimal))
      else Ok daily_report
  | None => Ok daily_report
  end.

(** Lines 73-75. *)
Definition calc_availability_forecast (daily_report : DailyReport.t) : DailyReport.t :=
  match declaration_total daily_report with
  | Some dt =>
      if truthy dt
      then set_availability_forecast daily_report (Some (dt * of_Z 24)%decimal)
      else daily_report
  | None => daily_report
  end.

(** Lines 77-80. *)
Definition calc_dependability_index (total_energy_generated : decimal)
  (daily_report : DailyReport.t) : result DailyReport.t :=
  match availability_forecast daily_report with
  | Some af =>
      if truthy af && gt0 af
      then q <- pdiv total_energy_generated af ;;
           Ok (set_dependability_index daily_report (Some (q * of_Z 100)%decimal))
      else Ok daily_report
  | None => Ok daily_report
  end.

(** Lines 82-83. *)
Definition calc_avg_energy_sent_out (total_energy_exported : decimal)
  (daily_report : DailyReport.t) : result DailyReport.t :=
  q <- pdiv total_energy_exported (of_Z 24) ;;
  Ok (set_avg_energy_sent_out daily_report (Some q)).

(** Lines 85-87. *)
Definition calc_gas_utilization (total_energy_generated : decimal)
  (daily_report : DailyReport.t) : result DailyReport.t :=
  if gt0 (gas_consumed daily_report)
  then q <- pdiv total_energy_generated (gas_consumed daily_report) ;;
       Ok (set_gas_utilization daily_report (Some q))
  else Ok daily_report.

(** Lines 92-94. *)
Definition calc_plant_heat_rate (daily_report : DailyReport.t) : result DailyReport.t :=
  match gas_utilization daily_report with
  | Some gu =>
      if truthy gu && gt0 gu
      then q <- pdiv (dec 4365 100 * of_Z 1000 * of_Z 24)%decimal gu ;;
           Ok (set_plant_heat_rate daily_report (Some q))
      else Ok daily_report
  | None => Ok daily_report
  end.

(** Lines 96-98. *)
Definition calc_thermal_efficiency (daily_report : DailyReport.t) : result DailyReport.t :=
  match plant_heat_rate daily_report with
  | Some phr =>
      if truthy phr && gt0 phr
      then q <- pdiv (of_Z 3600) phr ;;
           Ok (set_thermal_efficiency daily_report (Some (q * of_Z 100)%decimal))
      else Ok daily_report
  | None => Ok daily_report
  end.

(** Lines 100-102. *)
Definition calc_load_factor (power_plant : PowerPlant.t) (total_energy_generated : decimal)
  (daily_report : DailyReport.t) : result DailyReport.t :=
  if truthy (PowerPlant.total_capacity power_plant) && truthy total_energy_generated
  then h <- pdiv total_energy_generated (of_Z 24) ;;
       q <- pdiv h (PowerPlant.total_capacity power_plant) ;;
       Ok (set_load_factor daily_report (Some (q * of_Z 100)%decimal))
  else Ok daily_report.

(** Lines 50-102: the assignments made on the loaded report. *)
Definition compute_metrics (power_plant : PowerPlant.t)
  (morning_reading : option MorningReading.t)
  (turbine_stats : list TurbineDailyStats.t)
  (daily_report : DailyReport.t) : result DailyReport.t :=
  let total_energy_generated :=
    dsum (map TurbineDailyStats.energy_generated turbine_stats) in
  let daily_report := set_energy_generated daily_report (Some total_energy_generated) in
  let total_energy_exported :=
    dsum (map TurbineDailyStats.energy_exported turbine_stats) in
  let daily_report := set_total_energy_exported daily_report (Some total_energy_exported) in
  let daily_report :=
    set_energy_consumed daily_report
      (Some (total_energy_generated - total_energy_exported)%decimal) in
  let daily_report := fill_declaration_total morning_reading daily_report in
  let daily_report := fill_availability_capacity morning_reading daily_report in
  daily_report <- calc_availability_factor power_plant daily_report ;;
  let daily_report := calc_availability_forecast daily_report in
  daily_report <- calc_dependability_index total_energy_generated daily_report ;;
  daily_report <- calc_avg_energy_sent_out total_energy_exported daily_report ;;
  daily_report <- calc_gas_utilization total_energy_generated daily_report ;;
  let total_operating_hours :=
    dsum (map TurbineDailyStats.operating_hours turbine_stats) in
  daily_report <- calc_plant_heat_rate daily_report ;;
  daily_report <- calc_thermal_efficiency daily_report ;;
  daily_report <- calc_load_factor power_plant total_energy_generated daily_report ;;
  Ok daily_report.

(** [CalculationService.calculate_and_update_all_metrics(db, daily_report_id)].
    The Python function returns [None]; the result is the committed
    session, or the exception raised. *)
Definition calculate_and_update_all_metrics (db : Session) (daily_report_id : uuid)
  : result Session :=
  match first (has_report_id daily_report_id) (daily_reports db) with
  | None => Ok db
  | Some daily_report =>
      match first (has_plant_id (power_plant_id daily_report)) (power_plants db) with
      | None => Ok db
      | Some power_plant =>
          let morning_reading :=
            first (same_day_reading daily_report) (morning_readings db) in
          let turbine_stats :=
            filter (stats_of_report daily_report_id) (turbine_daily_stats db) in
          daily_report <-
            compute_metrics power_plant morning_reading turbine_stats daily_report ;;
          Ok (commit_report db daily_report)
      end
  end.

End Service.

(** ** [app/api/v1/endpoints/calculations.py]

    The second [CalculationService]: totals from the hourly readings first,
    zero defaults for the derived columns.  No endpoint imports it.

    This version reads two attributes that the classes of [app/models] do
    not declare, [power_plant.installed_capacity] ([PowerPlant] has
    [total_capacity]) and [TurbineHourlyGeneration.energy_exported] (the
    hourly rows carry [energy_generated] only), and it multiplies a
    [Decimal] column by a float literal.  Python raises at each of these
    places ([AttributeError], [TypeError]), and so does the embedding.  A
    function that commits yields the committed session together with its
    outcome. *)

Module Calculations.
Import DailyReport.

(** [power_plant.installed_capacity]. *)
Definition installed_capacity (power_plant : PowerPlant.t) : result (option decimal) :=
  Raise AttributeError.

(** [TurbineHourlyGeneration.energy_exported], the column a query is to sum. *)
Definition hourly_energy_exported : result (TurbineHourlyGeneration.t -> decimal) :=
  Raise AttributeError.

(** The product of a [Decimal] and a float. *)
Definition decimal_times_float (d f : decimal) : result decimal :=
  Raise TypeError.

Definition hourly_of_report (report_id : uuid) (h : TurbineHourlyGeneration.t) : bool :=
  N.eqb (TurbineHourlyGeneration.daily_report_id h) report_id.

Definition hourly_of_turbine (report_id : uuid) (turbine_id : Z)
  (h : TurbineHourlyGeneration.t) : bool :=
  N.eqb (TurbineHourlyGeneration.daily_report_id h) report_id
  && Z.eqb (TurbineHourlyGeneration.turbine_id h) turbine_id.

Definition stats_of_report (report_id : uuid) (s : TurbineDailyStats.t) : bool :=
  N.eqb (TurbineDailyStats.daily_report_id s) report_id.

Definition stats_of_turbine (report_id : uuid) (turbine_id : Z)
  (s : TurbineDailyStats.t) : bool :=
  N.eqb (TurbineDailyStats.daily_report_id s) report_id
  && Z.eqb (TurbineDailyStats.turbine_id s) turbine_id.

(** Lines 151-172: one turn of the loop over the turbines of the report,
    on the pending rows. *)
Definition sync_turbine (report_id : uuid) (db : Session) (turbine_id : Z)
  : result Session :=
  let rows :=
    filter (hourly_of_turbine report_id turbine_id) (turbine_hourly_generations db) in
  let energy_generated := dsum (map TurbineHourlyGeneration.energy_generated rows) in
  column <- hourly_energy_exported ;;
  let energy_exported := dsum (map column rows) in
  match first (stats_of_turbine report_id turbine_id) (turbine_daily_stats db) with
  | Some turbine_stats =>
      Ok (with_turbine_daily_stats db
            (update_first (stats_of_turbine report_id turbine_id)
               (TurbineDailyStats.with_energy turbine_stats energy_generated
                  energy_exported)
               (turbine_daily_stats db)))
  | None => Ok db
  end.

Fixpoint sync_turbines (report_id : uuid) (db : Session) (turbine_ids : list Z)
  : result Session :=
  match turbine_ids with
  | [] => Ok db
  | turbine_id :: rest =>
      db <- sync_turbine report_id db turbine_id ;;
      sync_turbines report_id db rest
  end.

(** [CalculationService._update_turbine_stats_from_hourly(db, report_id)].
    Its one [db.commit()] is the last statement (line 174): an exception in
    the loop leaves the session as it was. *)
Definition _update_turbine_stats_from_hourly (db : Session) (report_id : uuid)
  : Session * result unit :=
  let turbine_ids :=
    nodup Z.eq_dec
      (map TurbineDailyStats.turbine_id
         (filter (stats_of_report report_id) (turbine_daily_stats db))) in
  match sync_turbines report_id db turbine_ids with
  | Ok db => (db, Ok tt)
  | Raise e => (db, Raise e)
  end.

(** [CalculationService._update_energy_totals(db, report)]: the committed
    session, and the report object after the call.  The [db.commit()] at
    the end of [_update_turbine_stats_from_hourly] flushes the pending
    report too. *)
Definition _update_energy_totals (db : Session) (report : DailyReport.t)
  : Session * result DailyReport.t :=
  let report := set_energy_generated report (Some dzero) in
  let report := set_total_energy_exported report (Some dzero) in
  let hourly := filter (hourly_of_report (id report)) (turbine_hourly_generations db) in
  let hourly_readings_exist := Nat.ltb 0 (length hourly) in
  if hourly_readings_exist then
    let energy_generated := dsum (map TurbineHourlyGeneration.energy_generated hourly) in
    match hourly_energy_exported with
    | Raise e => (db, Raise e)
    | Ok column =>
        let energy_exported := dsum (map column hourly) in
        let report := set_energy_generated report (Some energy_generated) in
        let report := set_total_energy_exported report (Some energy_exported) in
        match _update_turbine_stats_from_hourly db (id report) with
        | (db, Raise e) => (db, Raise e)
        | (db, Ok _) => (commit_report db report, Ok report)
        end
    end
  else
    let stats := filter (stats_of_report (id report)) (turbine_daily_stats db) in
    let energy_generated := dsum (map TurbineDailyStats.energy_generated stats) in
    let energy_exported := dsum (map TurbineDailyStats.energy_exported stats) in
    let report := set_energy_generated report (Some energy_generated) in
    let report := set_total_energy_exported report (Some energy_exported) in
    (db, Ok report).

(** Lines 40-49. *)
Definition set_defaults (report : DailyReport.t) : DailyReport.t :=
  let report := set_energy_consumed report (Some dzero) in
  let report := set_availability_factor report (Some dzero) in
  let report := set_plant_heat_rate report (Some dzero) in
  let report := set_thermal_efficiency report (Some dzero) in
  let report := set_availability_forecast report (Some dzero) in
  let report := set_dependability_index report (Some dzero) in
  let report := set_avg_energy_sent_out report (Some dzero) in
  let report := set_gas_utilization report (Some dzero) in
  set_load_factor report (Some dzero).

(** Lines 51-53. *)
Definition calc_energy_consumed (report : DailyReport.t) : DailyReport.t :=
  match energy_generated report, total_energy_exported report with
  | Some eg, Some tee => set_energy_consumed report (Some (eg - tee)%decimal)
  | _, _ => report
  end.

(** Lines 55-57: the attribute is read only when [availability_capacity]
    is not [None]. *)
Definition calc_availability_factor (power_plant : PowerPlant.t)
  (report : DailyReport.t) : result DailyReport.t :=
  match availability_capacity report with
  | Some ac =>
      capacity <- installed_capacity power_plant ;;
      match capacity with
      | Some ic =>
          if truthy ic && gt0 ic
          then q <- pdiv ac ic ;;
               Ok (set_availability_factor report (Some (q * of_Z 100)%decimal))
          else Ok report
      | None => Ok report
      end
  | None => Ok report
  end.

(** Lines 59-63: [report.gas_consumed * 35.314]. *)
Definition calc_plant_heat_rate (report : DailyReport.t) : result DailyReport.t :=
  match energy_generated report with
  | Some eg =>
      if truthy eg && truthy (gas_consumed report) && gt0 eg
      then gas_mmBtu <- decimal_times_float (gas_consumed report) (dec 35314 1000) ;;
           k <- pdiv eg (of_Z 1000) ;;
           q <- pdiv gas_mmBtu k ;;
           Ok (set_plant_heat_rate report (Some q))
      else Ok report
  | None => Ok report
  end.

(** Lines 65-67. *)
Definition calc_thermal_efficiency (report : DailyReport.t) : result DailyReport.t :=
  match plant_heat_rate report with
  | Some phr =>
      if truthy phr && gt0 phr
      then q <- pdiv (of_Z 3412) phr ;;
           Ok (set_thermal_efficiency report (Some (q * of_Z 100)%decimal))
      else Ok report
  | None => Ok report
  end.

(** Lines 69-71. *)
Definition calc_availability_forecast (report : DailyReport.t) : DailyReport.t :=
  match availability_capacity report with
  | Some ac => set_availability_forecast report (Some (ac * of_Z 24)%decimal)
  | None => report
  end.

(** Lines 73-75. *)
Definition calc_dependability_index (report : DailyReport.t) : result DailyReport.t :=
  match availability_forecast report, energy_generated report with
  | Some af, Some eg =>
      if truthy af && gt0 af
      then q <- pdiv eg af ;;
           Ok (set_dependability_index report (Some (q * of_Z 100)%decimal))
      else Ok report
  | _, _ => Ok report
  end.

(** Lines 77-79. *)
Definition calc_avg_energy_sent_out (report : DailyReport.t) : result DailyReport.t :=
  match total_energy_exported report with
  | Some tee =>
      if truthy tee
      then q <- pdiv tee (of_Z 24) ;;
           Ok (set_avg_energy_sent_out report (Some q))
      else Ok report
  | None => Ok report
  end.

(** Lines 81-83. *)
Definition calc_gas_utilization (report : DailyReport.t) : result DailyReport.t :=
  match energy_generated report with
  | Some eg =>
      if truthy (gas_consumed report) && gt0 (gas_consumed report)
      then q <- pdiv eg (gas_consumed report) ;;
           Ok (set_gas_utilization report (Some q))
      else Ok report
  | None => Ok report
  end.

(** Lines 85-88: the attribute is the first operand of the test, read on
    every run that gets here. *)
Definition calc_load_factor (power_plant : PowerPlant.t)
  (report : DailyReport.t) : result DailyReport.t :=
  capacity <- installed_capacity power_plant ;;
  match capacity, total_energy_exported report with
  | Some ic, Some tee =>
      if truthy ic && gt0 ic
      then let full_potential := (ic * of_Z 24)%decimal in
           q <- pdiv tee full_potential ;;
           Ok (set_load_factor report (Some (q * of_Z 100)%decimal))
      else Ok report
  | _, _ => Ok report
  end.

(** Lines 40-88: the assignments made on the report after the totals. *)
Definition compute_metrics (power_plant : PowerPlant.t) (report : DailyReport.t)
  : result DailyReport.t :=
  let report := set_defaults report in
  let report := calc_energy_consumed report in
  report <- calc_availability_factor power_plant report ;;
  report <- calc_plant_heat_rate report ;;
  report <- calc_thermal_efficiency report ;;
  let report := calc_availability_forecast report in
  report <- calc_dependability_index report ;;
  report <- calc_avg_energy_sent_out report ;;
  report <- calc_gas_utilization report ;;
  report <- calc_load_factor power_plant report ;;
  Ok report.

(** [CalculationService.calculate_and_update_all_metrics(db, report_id)]:
    the committed session and the outcome.  Its [db.commit()] is the last
    statement (line 91). *)
Definition calculate_and_update_all_metrics (db : Session) (report_id : uuid)
  : Session * result unit :=
  match first (has_report_id report_id) (daily_reports db) with
  | None => (db, Ok tt)
  | Some report =>
      match first (has_plant_id (power_plant_id report)) (power_plants db) with
      | None => (db, Ok tt)
      | Some power_plant =>
          match _update_energy_totals db report with
          | (db, Raise e) => (db, Raise e)
          | (db, Ok report) =>
              match compute_metrics power_plant report with
              | Raise e => (db, Raise e)
              | Ok report => (commit_report db report, Ok tt)
              end
          end
      end
  end.

End Calculations.

(** ** The update endpoints ([app/api/v1/endpoints])

    Both endpoints import [CalculationService] from
    [app.services.calculation_service], module [Service] above.  An endpoint
    yields the committed session together with its response or the
    [HTTPException] it raised. *)

Module Endpoints.
Import DailyReport.

(** [schemas/hourly_reading.py]: [HourlyReadingUpdate]. *)
Record HourlyReadingUpdate : Type := {
  hr_turbine_id : Z;
  hr_hour : Z;
  hr_energy_generated : decimal
}.

(** [schemas/daily_report.py]: [TurbineStatsUpdate]. *)
Record TurbineStatsUpdate : Type := {
  ts_turbine_id : Z;
  ts_operating_hours : option decimal;
  ts_startup_count : option Z;
  ts_shutdown_count : option Z;
  ts_trips : option Z;
  ts_energy_generated : option decimal;
  ts_energy_exported : option decimal
}.

(** [schemas/daily_report.py]: [DailyReportUpdate]. *)
Record DailyReportUpdate : Type := {
  in_gas_loss : option decimal;
  in_ncc_loss : option decimal;
  in_internal_loss : option decimal;
  in_gas_consumed : option decimal;
  in_declaration_total : option decimal;
  in_availability_capacity : option decimal;
  in_turbine_stats : option (list TurbineStatsUpdate)
}.

Definition HTTP_403_FORBIDDEN : nat := 403.
Definition HTTP_404_NOT_FOUND : nat := 404.

(** Dates count days and datetimes count seconds of the plant's local time;
    [midday_after d] is 12:00 of the day after [d]. *)
Definition midday_after (d : Date) : DateTime := ((d + 1) * 86400 + 43200)%Z.

Definition turbine_of_plant (turbine_id plant_id : Z) (t : Turbine.t) : bool :=
  Z.eqb (Turbine.id t) turbine_id && Z.eqb (Turbine.power_plant_id t) plant_id.

Definition reading_at (report_id : uuid) (turbine_id hour : Z)
  (h : TurbineHourlyGeneration.t) : bool :=
  N.eqb (TurbineHourlyGeneration.daily_report_id h) report_id
  && Z.eqb (TurbineHourlyGeneration.turbine_id h) turbine_id
  && Z.eqb (TurbineHourlyGeneration.hour h) hour.

Definition stats_at (report_id : uuid) (turbine_id : Z) (s : TurbineDailyStats.t) : bool :=
  N.eqb (TurbineDailyStats.daily_report_id s) report_id
  && Z.eqb (TurbineDailyStats.turbine_id s) turbine_id.

(** The permission and deadline checks shared by the two endpoints. *)
Definition check_permission (current_user : User.t) (plant_id : Z) (past_deadline : bool)
  : result unit :=
  if negb (UserRole.eqb (User.role current_user) UserRole.EDITOR) then
    if negb (match User.power_plant_id current_user with
             | Some p => Z.eqb p plant_id
             | None => false
             end)
    then Raise (HTTPException HTTP_403_FORBIDDEN)
    else if past_deadline
         then Raise (HTTPException HTTP_403_FORBIDDEN)
         else Ok tt
  else Ok tt.

Definition track_late (past_deadline : bool) (report : DailyReport.t) : DailyReport.t :=
  if past_deadline && negb (is_late_submission report)
  then set_is_late_submission report true
  else report.

Definition touch (current_user : User.t) (now : DateTime) (report : DailyReport.t)
  : DailyReport.t :=
  set_updated_at (set_last_modified_by_id report (Some (User.id current_user))) (Some now).

Section HourlyReadings.

(** The session factory is in [app/db/database.py], which is not among the
    sources: whether a query flushes the pending rows first is a parameter. *)
Variable autoflush : bool.

(** [hourly_readings.py], lines 79-113: one turn of the loop.  [committed]
    is the stored table, [pending] the table with the changes made so far. *)
Definition apply_reading (report_id : uuid) (plant_id : Z) (db : Session)
  (committed pending : list TurbineHourlyGeneration.t) (reading : HourlyReadingUpdate)
  : result (list TurbineHourlyGeneration.t) :=
  match first (turbine_of_plant (hr_turbine_id reading) plant_id) (turbines db) with
  | None => Raise (HTTPException HTTP_404_NOT_FOUND)
  | Some _ =>
      let key := reading_at report_id (hr_turbine_id reading) (hr_hour reading) in
      match first key (if autoflush then pending else committed) with
      | Some existing_reading =>
          Ok (update_first key
                {| TurbineHourlyGeneration.daily_report_id :=
                     TurbineHourlyGeneration.daily_report_id existing_reading;
                   TurbineHourlyGeneration.turbine_id :=
                     TurbineHourlyGeneration.turbine_id existing_reading;
                   TurbineHourlyGeneration.hour :=
                     TurbineHourlyGeneration.hour existing_reading;
                   TurbineHourlyGeneration.energy_generated :=
                     hr_energy_generated reading |}
                pending)
      | None =>
          Ok (pending ++
              [ {| TurbineHourlyGeneration.daily_report_id := report_id;
                   TurbineHourlyGeneration.turbine_id := hr_turbine_id reading;
                   TurbineHourlyGeneration.hour := hr_hour reading;
                   TurbineHourlyGeneration.energy_generated :=
                     hr_energy_generated reading |} ])
      end
  end.

Fixpoint apply_readings (report_id : uuid) (plant_id : Z) (db : Session)
  (committed pending : list TurbineHourlyGeneration.t)
  (readings : list HourlyReadingUpdate) : result (list TurbineHourlyGeneration.t) :=
  match readings with
  | [] => Ok pending
  | reading :: rest =>
      pending <- apply_reading report_id plant_id db committed pending reading ;;
      apply_readings report_id plant_id db committed pending rest
  end.

(** [update_hourly_readings]: the response is the list of the keys
    (turbine, hour) of the updated readings.  Nothing is committed before
    line 121, so an exception leaves the session as it was.  The endpoint
    does not call [CalculationService]. *)
Definition update_hourly_readings (db : Session) (report_id : uuid)
  (readings : list HourlyReadingUpdate) (current_user : User.t) (now : DateTime)
  : Session * result (list (Z * Z)) :=
  match first (has_report_id report_id) (daily_reports db) with
  | None => (db, Raise (HTTPException HTTP_404_NOT_FOUND))
  | Some daily_report =>
      let deadline := midday_after (date daily_report) in
      let past_deadline := Z.ltb deadline now in
      match check_permission current_user (power_plant_id daily_report) past_deadline with
      | Raise e => (db, Raise e)
      | Ok _ =>
          let daily_report := track_late past_deadline daily_report in
          match apply_readings report_id (power_plant_id daily_report) db
                  (turbine_hourly_generations db) (turbine_hourly_generations db)
                  readings with
          | Raise e => (db, Raise e)
          | Ok rows =>
              let daily_report := touch current_user now daily_report in
              (commit_report (with_turbine_hourly_generations db rows) daily_report,
               Ok (map (fun r => (hr_turbine_id r, hr_hour r)) readings))
          end
      end
  end.

End HourlyReadings.

Definition or_else {A} (o : option A) (d : A) : A :=
  match o with Some v => v | None => d end.

(** [daily_reports.py], lines 189-205. *)
Definition update_basic_fields (report_in : DailyReportUpdate) (report : DailyReport.t)
  : DailyReport.t :=
  let report := match in_gas_loss report_in with
                | Some v => set_gas_loss report v | None => report end in
  let report := match in_ncc_loss report_in with
                | Some v => set_ncc_loss report v | None => report end in
  let report := match in_internal_loss report_in with
                | Some v => set_internal_loss report v | None => report end in
  let report := match in_gas_consumed report_in with
                | Some v => set_gas_consumed report v | None => report end in
  let report := match in_declaration_total report_in with
                | Some v => set_declaration_total report (Some v) | None => report end in
  match in_availability_capacity report_in with
  | Some v => set_availability_capacity report (Some v)
  | None => report
  end.

(** Lines 229-249: the columns of an existing row that the request gives. *)
Definition update_existing_stat (u : TurbineStatsUpdate) (s : TurbineDailyStats.t)
  : TurbineDailyStats.t :=
  {| TurbineDailyStats.daily_report_id := TurbineDailyStats.daily_report_id s;
     TurbineDailyStats.turbine_id := TurbineDailyStats.turbine_id s;
     TurbineDailyStats.energy_generated :=
       or_else (ts_energy_generated u) (TurbineDailyStats.energy_generated s);
     TurbineDailyStats.energy_exported :=
       or_else (ts_energy_exported u) (TurbineDailyStats.energy_exported s);
     TurbineDailyStats.operating_hours :=
       or_else (ts_operating_hours u) (TurbineDailyStats.operating_hours s);
     TurbineDailyStats.startup_count :=
       or_else (ts_startup_count u) (TurbineDailyStats.startup_count s);
     TurbineDailyStats.shutdown_count :=
       or_else (ts_shutdown_count u) (TurbineDailyStats.shutdown_count s);
     TurbineDailyStats.trips := or_else (ts_trips u) (TurbineDailyStats.trips s) |}.

(** Lines 251-262. *)
Definition new_stat (report_id : uuid) (u : TurbineStatsUpdate) : TurbineDailyStats.t :=
  {| TurbineDailyStats.daily_report_id := report_id;
     TurbineDailyStats.turbine_id := ts_turbine_id u;
     TurbineDailyStats.energy_generated := or_else (ts_energy_generated u) dzero;
     TurbineDailyStats.energy_exported := or_else (ts_energy_exported u) dzero;
     TurbineDailyStats.operating_hours := or_else (ts_operating_hours u) dzero;
     TurbineDailyStats.startup_count := or_else (ts_startup_count u) 0%Z;
     TurbineDailyStats.shutdown_count := or_else (ts_shutdown_count u) 0%Z;
     TurbineDailyStats.trips := or_else (ts_trips u) 0%Z |}.

(** Lines 209-264: the loop over the turbine stats of the request.  Every
    turn ends with [db.commit()], which also flushes the pending report;
    an exception leaves the turns before it committed. *)
Fixpoint apply_turbine_stats (report_id : uuid) (report : DailyReport.t) (db : Session)
  (turbine_stats : list TurbineStatsUpdate) : Session * result unit :=
  match turbine_stats with
  | [] => (db, Ok tt)
  | turbine_stat :: rest =>
      match first (turbine_of_plant (ts_turbine_id turbine_stat) (power_plant_id report))
              (turbines db) with
      | None => (db, Raise (HTTPException HTTP_404_NOT_FOUND))
      | Some _ =>
          let key := stats_at report_id (ts_turbine_id turbine_stat) in
          let rows :=
            match first key (turbine_daily_stats db) with
            | Some existing_stat =>
                update_first key (update_existing_stat turbine_stat existing_stat)
                  (turbine_daily_stats db)
            | None => turbine_daily_stats db ++ [new_stat report_id turbine_stat]
            end in
          let db := commit_report (with_turbine_daily_stats db rows) report in
          apply_turbine_stats report_id report db rest
      end
  end.

(** [update_daily_report]: the response is the refreshed report, the row
    of the report in the committed session. *)
Definition update_daily_report (db : Session) (report_id : uuid)
  (report_in : DailyReportUpdate) (current_user : User.t) (now : DateTime)
  : Session * result DailyReport.t :=
  match first (has_report_id report_id) (daily_reports db) with
  | None => (db, Raise (HTTPException HTTP_404_NOT_FOUND))
  | Some report =>
      let past_deadline :=
        match submission_deadline report with
        | Some deadline => Z.ltb deadline now
        | None => false
        end in
      match check_permission current_user (power_plant_id report) past_deadline with
      | Raise e => (db, Raise e)
      | Ok _ =>
          let report := track_late past_deadline report in
          let report := update_basic_fields report_in report in
          match apply_turbine_stats report_id report db
                  (or_else (in_turbine_stats report_in) []) with
          | (db, Raise e) => (db, Raise e)
          | (db, Ok _) =>
              let report := touch current_user now report in
              let db := commit_report db report in
              match Service.calculate_and_update_all_metrics db (id report) with
              | Raise e => (db, Raise e)
              | Ok db =>
                  (db, Ok (or_else (first (has_report_id (id report)) (daily_reports db))
                             report))
              end
          end
      end
  end.

End Endpoints.

(** ** Vocabulary of the statements *)

(** The report and the plant a call resolves. *)
Definition report_of (db : Session) (report_id : uuid) : option DailyReport.t :=
  first (has_report_id report_id) (daily_reports db).

Definition plant_of (db : Session) (report : DailyReport.t) : option PowerPlant.t :=
  first (has_plant_id (DailyReport.power_plant_id report)) (power_plants db).

Definition morning_reading_of (db : Session) (report : DailyReport.t)
  : option MorningReading.t :=
  first (Service.same_day_reading report) (morning_readings db).

(** The daily-stat rows and the hourly records of a report, and their sums. *)
Definition daily_rows (db : Session) (report_id : uuid) : list TurbineDailyStats.t :=
  filter (fun s => N.eqb (TurbineDailyStats.daily_report_id s) report_id)
    (turbine_daily_stats db).

Definition hourly_rows (db : Session) (report_id : uuid)
  : list TurbineHourlyGeneration.t :=
  filter (fun h => N.eqb (TurbineHourlyGeneration.daily_report_id h) report_id)
    (turbine_hourly_generations db).

Definition daily_generated (db : Session) (report_id : uuid) : decimal :=
  dsum (map TurbineDailyStats.energy_generated (daily_rows db report_id)).

Definition daily_exported (db : Session) (report_id : uuid) : decimal :=
  dsum (map TurbineDailyStats.energy_exported (daily_rows db report_id)).

Definition hourly_generated (db : Session) (report_id : uuid) : decimal :=
  dsum (map TurbineHourlyGeneration.energy_generated (hourly_rows db report_id)).



(** The eleven derived columns of a report. *)
Definition derived_fields (r : DailyReport.t) : list (option decimal) :=
  [ DailyReport.availability_factor r; DailyReport.plant_heat_rate r;
    DailyReport.thermal_efficiency r; DailyReport.energy_generated r;
    DailyReport.total_energy_exported r; DailyReport.energy_consumed r;
    DailyReport.availability_forecast r; DailyReport.dependability_index r;
    DailyReport.avg_energy_sent_out r; DailyReport.gas_utilization r;
    DailyReport.load_factor r ].

(** A column holds the number [v]. *)
Definition holds (o : option decimal) (v : decimal) : bool :=
  match o with
  | Some x => deqb x v
  | None => false
  end.

(** The columns that neither version of the engine assigns. *)
Definition same_inputs (r r1 : DailyReport.t) : Prop :=
  DailyReport.id r1 = DailyReport.id r /\
  DailyReport.date r1 = DailyReport.date r /\
  DailyReport.power_plant_id r1 = DailyReport.power_plant_id r /\
  DailyReport.gas_loss r1 = DailyReport.gas_loss r /\
  DailyReport.ncc_loss r1 = DailyReport.ncc_loss r /\
  DailyReport.internal_loss r1 = DailyReport.internal_loss r /\
  DailyReport.gas_consumed r1 = DailyReport.gas_consumed r /\
  DailyReport.updated_at r1 = DailyReport.updated_at r /\
  DailyReport.submission_deadline r1 = DailyReport.submission_deadline r /\
  DailyReport.is_late_submission r1 = DailyReport.is_late_submission r /\
  DailyReport.last_modified_by_id r1 = DailyReport.last_modified_by_id r.

(** What [Service.compute_metrics] leaves in the report [r1] it returns for
    the loaded report [r]: each assigned column by its formula over the
    columns of [r1] computed before it, or the value [r] had. *)
Definition service_post (power_plant : PowerPlant.t)
  (morning_reading : option MorningReading.t) (turbine_stats : list TurbineDailyStats.t)
  (r r1 : DailyReport.t) : Prop :=
  let capacity := PowerPlant.total_capacity power_plant in
  let g := dsum (map TurbineDailyStats.energy_generated turbine_stats) in
  let e := dsum (map TurbineDailyStats.energy_exported turbine_stats) in
  same_inputs r r1 /\
  DailyReport.energy_generated r1 = Some g /\
  DailyReport.total_energy_exported r1 = Some e /\
  DailyReport.energy_consumed r1 = Some (g - e)%decimal /\
  DailyReport.declaration_total r1 =
    match morning_reading with
    | Some m =>
        if negb (truthy_opt (DailyReport.declaration_total r))
        then Some (MorningReading.declaration_total m)
        else DailyReport.declaration_total r
    | None => DailyReport.declaration_total r
    end /\
  DailyReport.availability_capacity r1 =
    match morning_reading with
    | Some m =>
        if negb (truthy_opt (DailyReport.availability_capacity r))
        then Some (MorningReading.availability_capacity m)
        else DailyReport.availability_capacity r
    | None => DailyReport.availability_capacity r
    end /\
  DailyReport.availability_factor r1 =
    match DailyReport.availability_capacity r1 with
    | Some ac =>
        if truthy ac && gt0 capacity
        then Some (dquot ac capacity * of_Z 100)%decimal
        else DailyReport.availability_factor r
    | None => DailyReport.availability_factor r
    end /\
  DailyReport.availability_forecast r1 =
    match DailyReport.declaration_total r1 with
    | Some dt =>
        if truthy dt then Some (dt * of_Z 24)%decimal
        else DailyReport.availability_forecast r
    | None => DailyReport.availability_forecast r
    end /\
  DailyReport.dependability_index r1 =
    match DailyReport.availability_forecast r1 with
    | Some af =>
        if truthy af && gt0 af
        then Some (dquot g af * of_Z 100)%decimal
        else DailyReport.dependability_index r
    | None => DailyReport.dependability_index r
    end /\
  DailyReport.avg_energy_sent_out r1 = Some (dquot e (of_Z 24)) /\
  DailyReport.gas_utilization r1 =
    (if gt0 (DailyReport.gas_consumed r)
     then Some (dquot g (DailyReport.gas_consumed r))
     else DailyReport.gas_utilization r) /\
  DailyReport.plant_heat_rate r1 =
    match DailyReport.gas_utilization r1 with
    | Some gu =>
        if truthy gu && gt0 gu
        then Some (dquot (dec 4365 100 * of_Z 1000 * of_Z 24)%decimal gu)
        else DailyReport.plant_heat_rate r
    | None => DailyReport.plant_heat_rate r
    end /\
  DailyReport.thermal_efficiency r1 =
    match DailyReport.plant_heat_rate r1 with
    | Some phr =>
        if truthy phr && gt0 phr
        then Some (dquot (of_Z 3600) phr * of_Z 100)%decimal
        else DailyReport.thermal_efficiency r
    | None => DailyReport.thermal_efficiency r
    end /\
  DailyReport.load_factor r1 =
    (if truthy capacity && truthy g
     then Some (dquot (dquot g (of_Z 24)) capacity * of_Z 100)%decimal
     else DailyReport.load_factor r).

(** The exception [Calculations] ends with on a resolvable report: at line
    117 when the report has an hourly record, else at line 56 when
    [availability_capacity] is set, else at line 62 when the energy
    generated (the sum over the daily rows) is positive and the gas figure
    is not zero, else at line 86. *)
Definition raised_by_calculations (db : Session) (report_id : uuid) (r : DailyReport.t)
  : exn :=
  match hourly_rows db report_id with
  | _ :: _ => AttributeError
  | [] =>
      match DailyReport.availability_capacity r with
      | Some _ => AttributeError
      | None =>
          if truthy (daily_generated db report_id) && truthy (DailyReport.gas_consumed r)
             && gt0 (daily_generated db report_id)
          then TypeError
          else AttributeError
      end
  end.


(** ** Concrete sessions

    One plant (id 1) with two turbines and one report (id 1, day 0). *)

Module Scenario.
Local Open Scope Z_scope.

Definition plant (capacity : decimal) : PowerPlant.t :=
  {| PowerPlant.id := 1; PowerPlant.total_capacity := capacity |}.

(** A report as [create_daily_report] stores it: no derived column yet. *)
Definition report (gas_consumed : decimal) (declaration_total availability_capacity : option decimal)
  : DailyReport.t :=
  {| DailyReport.id := 1%N;
     DailyReport.date := 0;
     DailyReport.power_plant_id := 1;
     DailyReport.gas_loss := dzero;
     DailyReport.ncc_loss := dzero;
     DailyReport.internal_loss := dzero;
     DailyReport.gas_consumed := gas_consumed;
     DailyReport.declaration_total := declaration_total;
     DailyReport.availability_capacity := availability_capacity;
     DailyReport.availability_factor := None;
     DailyReport.plant_heat_rate := None;
     DailyReport.thermal_efficiency := None;
     DailyReport.energy_generated := None;
     DailyReport.total_energy_exported := None;
     DailyReport.energy_consumed := None;
     DailyReport.availability_forecast := None;
     DailyReport.dependability_index := None;
     DailyReport.avg_energy_sent_out := None;
     DailyReport.gas_utilization := None;
     DailyReport.load_factor := None;
     DailyReport.updated_at := None;
     DailyReport.submission_deadline := Some (Endpoints.midday_after 0);
     DailyReport.is_late_submission := false;
     DailyReport.last_modified_by_id := None |}.

Definition stat (turbine_id : Z) (generated exported : decimal) : TurbineDailyStats.t :=
  {| TurbineDailyStats.daily_report_id := 1%N;
     TurbineDailyStats.turbine_id := turbine_id;
     TurbineDailyStats.energy_generated := generated;
     TurbineDailyStats.energy_exported := exported;
     TurbineDailyStats.operating_hours := of_Z 24;
     TurbineDailyStats.startup_count := 0;
     TurbineDailyStats.shutdown_count := 0;
     TurbineDailyStats.trips := 0 |}.

Definition hourly (turbine_id hour : Z) (generated : decimal) : TurbineHourlyGeneration.t :=
  {| TurbineHourlyGeneration.daily_report_id := 1%N;
     TurbineHourlyGeneration.turbine_id := turbine_id;
     TurbineHourlyGeneration.hour := hour;
     TurbineHourlyGeneration.energy_generated := generated |}.

Definition morning (declaration_total availability_capacity : decimal) : MorningReading.t :=
  {| MorningReading.date := 0;
     MorningReading.power_plant_id := 1;
     MorningReading.declaration_total := declaration_total;
     MorningReading.availability_capacity := availability_capacity |}.

Definition session (p : PowerPlant.t) (r : DailyReport.t)
  (mornings : list MorningReading.t) (stats : list TurbineDailyStats.t)
  (hours : list TurbineHourlyGeneration.t) : Session :=
  {| daily_reports := [r];
     power_plants := [p];
     morning_readings := mornings;
     turbine_daily_stats := stats;
     turbine_hourly_generations := hours;
     turbines := [ {| Turbine.id := 1; Turbine.power_plant_id := 1 |};
                   {| Turbine.id := 2; Turbine.power_plant_id := 1 |} ] |}.

(** No session at all, and a report whose plant is gone. *)
Definition empty : Session :=
  {| daily_reports := []; power_plants := []; morning_readings := [];
     turbine_daily_stats := []; turbine_hourly_generations := []; turbines := [] |}.

Definition orphan : Session :=
  {| daily_reports := [report dzero None None]; power_plants := [];
     morning_readings := []; turbine_daily_stats := [stat 1 (of_Z 30) (of_Z 20)];
     turbine_hourly_generations := []; turbines := [] |}.

(** The start of a day: the report and the zero rows of its turbines. *)
Definition fresh : Session :=
  session (plant (of_Z 100)) (report dzero None None) []
    [stat 1 dzero dzero; stat 2 dzero dzero] [].

(** Turbine 1 has hourly records summing to 50 and a daily row of 10
    generated, 8 exported; turbine 2 has no hourly record and a daily row of
    30 generated, [exported] exported. *)
Definition two_turbines (exported : decimal) : Session :=
  session (plant (of_Z 100)) (report (of_Z 10) None None) []
    [stat 1 (of_Z 10) (of_Z 8); stat 2 (of_Z 30) exported]
    [hourly 1 1 (of_Z 20); hourly 1 2 (of_Z 30)].


(** 2400 MWh generated and 1200 MWh exported on a plant of [capacity] MW. *)
Definition load (capacity : decimal) : Session :=
  session (plant capacity) (report (of_Z 10) None None) []
    [stat 1 (of_Z 2400) (of_Z 1200)] [].

(** A report without declaration values and the morning reading of its
    plant and day (declared 80 MW, available 90 MW). *)
Definition with_morning (mornings : list MorningReading.t) : Session :=
  session (plant (of_Z 100)) (report (of_Z 10) None None) mornings
    [stat 1 (of_Z 1200) (of_Z 1000)] [].

(** A report computed earlier with 10 MSCM of gas (utilization 120, heat
    rate 8730), whose gas figure was then corrected to zero. *)
Definition stale : Session :=
  session (plant (of_Z 100))
    (DailyReport.set_plant_heat_rate
       (DailyReport.set_gas_utilization (report dzero None None) (Some (of_Z 120)))
       (Some (of_Z 8730)))
    [] [stat 1 (of_Z 1200) (of_Z 1000)] [].

Definition editor : User.t :=
  {| User.id := 7; User.role := UserRole.EDITOR; User.power_plant_id := None |}.

Definition operator : User.t :=
  {| User.id := 8; User.role := UserRole.OPERATOR; User.power_plant_id := Some 1%Z |}.

(** A request to [update_daily_report] that enters the daily rows of the two
    turbines (10 and 30 MWh generated, 8 and 25 MWh exported), and a request
    to [update_hourly_readings] that enters 50 MWh for hour 1 of turbine 1. *)
Definition daily_update : Endpoints.DailyReportUpdate :=
  {| Endpoints.in_gas_loss := None;
     Endpoints.in_ncc_loss := None;
     Endpoints.in_internal_loss := None;
     Endpoints.in_gas_consumed := Some (of_Z 10);
     Endpoints.in_declaration_total := None;
     Endpoints.in_availability_capacity := None;
     Endpoints.in_turbine_stats :=
       Some [ {| Endpoints.ts_turbine_id := 1;
                 Endpoints.ts_operating_hours := Some (of_Z 24);
                 Endpoints.ts_startup_count := None;
                 Endpoints.ts_shutdown_count := None;
                 Endpoints.ts_trips := None;
                 Endpoints.ts_energy_generated := Some (of_Z 10);
                 Endpoints.ts_energy_exported := Some (of_Z 8) |};
              {| Endpoints.ts_turbine_id := 2;
                 Endpoints.ts_operating_hours := Some (of_Z 24);
                 Endpoints.ts_startup_count := None;
                 Endpoints.ts_shutdown_count := None;
                 Endpoints.ts_trips := None;
                 Endpoints.ts_energy_generated := Some (of_Z 30);
                 Endpoints.ts_energy_exported := Some (of_Z 25) |} ] |}.

Definition hourly_update : list Endpoints.HourlyReadingUpdate :=
  [ {| Endpoints.hr_turbine_id := 1;
       Endpoints.hr_hour := 1;
       Endpoints.hr_energy_generated := of_Z 50 |} ].

(** The session after the daily update of the fresh report, at second 3600
    of day 0. *)
Definition after_daily_update : Session :=
  fst (Endpoints.update_daily_report fresh 1%N daily_update operator 3600).

End Scenario.

(** ** Vocabulary of the further properties *)

(** The checks of the update endpoints, as the conditions of success: the
    user may write to the plant ([EDITOR], or a user of the plant before the
    deadline), and every entry names a turbine of the plant. *)
Definition permitted (current_user : User.t) (plant_id : Z) (past_deadline : bool) : bool :=
  UserRole.eqb (User.role current_user) UserRole.EDITOR
  || (match User.power_plant_id current_user with
      | Some p => Z.eqb p plant_id
      | None => false
      end && negb past_deadline).

Definition turbine_known (db : Session) (plant_id turbine_id : Z) : bool :=
  is_some (first (Endpoints.turbine_of_plant turbine_id plant_id) (turbines db)).

(** The deadline tests of the two endpoints. *)
Definition past_hourly_deadline (r : DailyReport.t) (now : DateTime) : bool :=
  Z.ltb (Endpoints.midday_after (DailyReport.date r)) now.

Definition past_report_deadline (r : DailyReport.t) (now : DateTime) : bool :=
  match DailyReport.submission_deadline r with
  | Some deadline => Z.ltb deadline now
  | None => false
  end.

(** The hourly records of the other reports. *)
Definition foreign_hourly_rows (db : Session) (report_id : uuid)
  : list TurbineHourlyGeneration.t :=
  filter (fun h => negb (N.eqb (TurbineHourlyGeneration.daily_report_id h) report_id))
    (turbine_hourly_generations db).





Definition foreign_daily_rows (db : Session) (report_id : uuid)
  : list TurbineDailyStats.t :=
  filter (fun s => negb (N.eqb (TurbineDailyStats.daily_report_id s) report_id))
    (turbine_daily_stats db).

(** Requests for the further properties: one that enters 100 MWh for
    turbine 1 and then names turbine 9, which the plant does not have, and
    one that corrects the gas figure only. *)
Module Requests.
Local Open Scope Z_scope.

Definition stats_of (turbine_id : Z) (generated : decimal) : Endpoints.TurbineStatsUpdate :=
  {| Endpoints.ts_turbine_id := turbine_id;
     Endpoints.ts_operating_hours := None;
     Endpoints.ts_startup_count := None;
     Endpoints.ts_shutdown_count := None;
     Endpoints.ts_trips := None;
     Endpoints.ts_energy_generated := Some generated;
     Endpoints.ts_energy_exported := None |}.

Definition with_stats (gas_consumed : option decimal)
  (stats : option (list Endpoints.TurbineStatsUpdate)) : Endpoints.DailyReportUpdate :=
  {| Endpoints.in_gas_loss := None;
     Endpoints.in_ncc_loss := None;
     Endpoints.in_internal_loss := None;
     Endpoints.in_gas_consumed := gas_consumed;
     Endpoints.in_declaration_total := None;
     Endpoints.in_availability_capacity := None;
     Endpoints.in_turbine_stats := stats |}.

Definition unknown_turbine : Endpoints.DailyReportUpdate :=
  with_stats None (Some [stats_of 1 (of_Z 100); stats_of 9 (of_Z 5)]).


End Requests.

(** ** Ordered queries

    [order_by leb rows] is [Query.order_by(...).all()]: the rows in
    ascending order of the key that [leb] compares.  SQL leaves the order of
    rows with equal keys open; the model keeps them in storage order. *)

Fixpoint insert_by {A} (leb : A -> A -> bool) (x : A) (rows : list A) : list A :=
  match rows with
  | [] => [x]
  | y :: rest => if leb x y then x :: y :: rest else y :: insert_by leb x rest
  end.

Definition order_by {A} (leb : A -> A -> bool) (rows : list A) : list A :=
  fold_right (insert_by leb) [] rows.

(** ** [app/api/v1/endpoints/hourly_readings.py]: [get_hourly_readings] *)

Module HourlyReadings.

(** [order_by(turbine_id, hour)]. *)
Definition by_turbine_and_hour (a b : TurbineHourlyGeneration.t) : bool :=
  Z.ltb (TurbineHourlyGeneration.turbine_id a) (TurbineHourlyGeneration.turbine_id b)
  || (Z.eqb (TurbineHourlyGeneration.turbine_id a) (TurbineHourlyGeneration.turbine_id b)
      && Z.leb (TurbineHourlyGeneration.hour a) (TurbineHourlyGeneration.hour b)).

Definition get_hourly_readings (db : Session) (report_id : uuid) (turbine_id : option Z)
  : result (list TurbineHourlyGeneration.t) :=
  match first (has_report_id report_id) (daily_reports db) with
  | None => Raise (HTTPException Endpoints.HTTP_404_NOT_FOUND)
  | Some _ =>
      let query :=
        filter (fun h => N.eqb (TurbineHourlyGeneration.daily_report_id h) report_id)
          (turbine_hourly_generations db) in
      let query :=
        match turbine_id with
        | Some t => filter (fun h => Z.eqb (TurbineHourlyGeneration.turbine_id h) t) query
        | None => query
        end in
      Ok (order_by by_turbine_and_hour query)
  end.

End HourlyReadings.

(** ** The queries of [app/services/calculation_service.py] *)

(** A Python [dict] with string keys, in insertion order. *)
Definition Dict (V : Type) : Type := list (String.string * V).

Fixpoint dict_get {V} (d : Dict V) (key : String.string) : option V :=
  match d with
  | [] => None
  | (k, v) :: rest => if String.eqb k key then Some v else dict_get rest key
  end.

(** [d[key] = v]: an existing key keeps its place. *)
Fixpoint dict_set {V} (d : Dict V) (key : String.string) (v : V) : Dict V :=
  match d with
  | [] => [(key, v)]
  | (k, w) :: rest =>
      if String.eqb k key then (k, v) :: rest else (k, w) :: dict_set rest key v
  end.

Module ServiceQueries.
Import DailyReport.
Local Open Scope string_scope.

(** Lines 108-144.  [get_decimal_value] keeps [None] and converts a number
    to [Decimal], the identity here. *)
Definition get_decimal_value (value : option decimal) : option decimal :=
  match value with
  | None => None
  | Some v => Some v
  end.

Definition get_calculations_by_id (db : Session) (daily_report_id : uuid)
  : Dict (option decimal) :=
  match first (has_report_id daily_report_id) (daily_reports db) with
  | None => []
  | Some daily_report =>
      [ ("availability_factor", get_decimal_value (availability_factor daily_report));
        ("plant_heat_rate", get_decimal_value (plant_heat_rate daily_report));
        ("thermal_efficiency", get_decimal_value (thermal_efficiency daily_report));
        ("energy_generated", get_decimal_value (energy_generated daily_report));
        ("energy_exported", get_decimal_value (total_energy_exported daily_report));
        ("energy_consumed", get_decimal_value (energy_consumed daily_report));
        ("availability_forecast", get_decimal_value (availability_forecast daily_report));
        ("dependability_index", get_decimal_value (dependability_index daily_report));
        ("avg_energy_sent_out", get_decimal_value (avg_energy_sent_out daily_report));
        ("gas_utilization", get_decimal_value (gas_utilization daily_report));
        ("load_factor", get_decimal_value (load_factor daily_report)) ]
  end.

Definition of_plant_and_date (plant_id : Z) (report_date : Date) (r : DailyReport.t)
  : bool :=
  Z.eqb (power_plant_id r) plant_id && Z.eqb (date r) report_date.

(** Lines 146-164. *)
Definition get_calculations (db : Session) (plant_id : Z) (report_date : Date)
  : Dict (option decimal) :=
  match first (of_plant_and_date plant_id report_date) (daily_reports db) with
  | None => []
  | Some daily_report => get_calculations_by_id db (id daily_report)
  end.

Definition valid_metrics : list String.string :=
  [ "availability_factor"; "plant_heat_rate"; "thermal_efficiency"; "energy_generated";
    "energy_consumed"; "availability_forecast"; "dependability_index";
    "avg_energy_sent_out"; "gas_utilization"; "load_factor" ].

(** [getattr(report, metric_name)] on the names that pass the validation;
    no other name reaches it. *)
Definition getattr (report : DailyReport.t) (metric_name : String.string)
  : option decimal :=
  if String.eqb metric_name "availability_factor" then availability_factor report
  else if String.eqb metric_name "plant_heat_rate" then plant_heat_rate report
  else if String.eqb metric_name "thermal_efficiency" then thermal_efficiency report
  else if String.eqb metric_name "energy_generated" then energy_generated report
  else if String.eqb metric_name "energy_consumed" then energy_consumed report
  else if String.eqb metric_name "availability_forecast" then availability_forecast report
  else if String.eqb metric_name "dependability_index" then dependability_index report
  else if String.eqb metric_name "avg_energy_sent_out" then avg_energy_sent_out report
  else if String.eqb metric_name "gas_utilization" then gas_utilization report
  else if String.eqb metric_name "load_factor" then load_factor report
  else None.

Definition in_date_range (plant_id : Z) (start_date end_date : Date) (r : DailyReport.t)
  : bool :=
  Z.eqb (power_plant_id r) plant_id && Z.leb start_date (date r)
  && Z.leb (date r) end_date.

Definition by_date (a b : DailyReport.t) : bool := Z.leb (date a) (date b).

(** The value the loops of [get_metric_over_time] and
    [compare_plants_by_metric] read off a report. *)
Definition metric_value (report : DailyReport.t) (metric_name : String.string)
  : option decimal :=
  let value := getattr report metric_name in
  if String.eqb metric_name "energy_exported" then total_energy_exported report
  else value.

(** Lines 166-217: the list of the (date, value) entries. *)
Definition get_metric_over_time (db : Session) (plant_id : Z)
  (metric_name : String.string) (start_date end_date : Date) : list (Date * decimal) :=
  if negb (existsb (String.eqb metric_name) valid_metrics) then []
  else
    let reports :=
      order_by by_date
        (filter (in_date_range plant_id start_date end_date) (daily_reports db)) in
    flat_map
      (fun report =>
         match metric_value report metric_name with
         | Some value => [(date report, value)]
         | None => []
         end)
      reports.

End ServiceQueries.

(** ** [daily_reports.py]: [read_daily_report_by_plant_and_date] and
    [create_daily_report] *)

Module DailyReports.
Import DailyReport.
Local Open Scope string_scope.

(** [DailyReportWithDetails]: the columns of the report, the two lists and
    the dictionary of the calculations. *)
Record DailyReportWithDetails : Type := {
  report_dict : DailyReport.t;
  turbine_stats : list TurbineDailyStats.t;
  hourly_readings : list TurbineHourlyGeneration.t;
  calculations : Dict (option decimal)
}.

Definition required_keys : list String.string :=
  [ "availability_factor"; "plant_heat_rate"; "thermal_efficiency";
    "energy_generated"; "energy_exported"; "energy_consumed";
    "availability_forecast"; "dependability_index";
    "avg_energy_sent_out"; "gas_utilization"; "load_factor" ].

(** Lines 344-346: one turn of the loop, and the loop. *)
Definition fill_key (calculations : Dict (option decimal)) (key : String.string)
  : Dict (option decimal) :=
  match dict_get calculations key with
  | Some (Some _) => calculations
  | _ => dict_set calculations key (Some dzero)
  end.

Definition fill_required (calculations : Dict (option decimal)) : Dict (option decimal) :=
  fold_left fill_key required_keys calculations.

Definition zero_if_none (value : option decimal) : option decimal :=
  match value with
  | None => Some dzero
  | Some v => Some v
  end.

(** Lines 349-357: the columns whose name is one of [required_keys] get 0.0
    for [None].  The column [total_energy_exported] is not among these
    names ([energy_exported] is) and is copied as it is. *)
Definition clean_copy (r : DailyReport.t) : DailyReport.t :=
  {| id := id r;
     date := date r;
     power_plant_id := power_plant_id r;
     gas_loss := gas_loss r;
     ncc_loss := ncc_loss r;
     internal_loss := internal_loss r;
     gas_consumed := gas_consumed r;
     declaration_total := declaration_total r;
     availability_capacity := availability_capacity r;
     availability_factor := zero_if_none (availability_factor r);
     plant_heat_rate := zero_if_none (plant_heat_rate r);
     thermal_efficiency := zero_if_none (thermal_efficiency r);
     energy_generated := zero_if_none (energy_generated r);
     total_energy_exported := total_energy_exported r;
     energy_consumed := zero_if_none (energy_consumed r);
     availability_forecast := zero_if_none (availability_forecast r);
     dependability_index := zero_if_none (dependability_index r);
     avg_energy_sent_out := zero_if_none (avg_energy_sent_out r);
     gas_utilization := zero_if_none (gas_utilization r);
     load_factor := zero_if_none (load_factor r);
     updated_at := updated_at r;
     submission_deadline := submission_deadline r;
     is_late_submission := is_late_submission r;
     last_modified_by_id := last_modified_by_id r |}.

(** Lines 283-367.  The call of [get_calculations_by_id] raises nothing, so
    the handler of lines 320-334 is never entered. *)
Definition read_daily_report_by_plant_and_date (db : Session) (plant_id : Z)
  (report_date : Date) : result DailyReportWithDetails :=
  match first (ServiceQueries.of_plant_and_date plant_id report_date)
          (daily_reports db) with
  | None => Raise (HTTPException Endpoints.HTTP_404_NOT_FOUND)
  | Some daily_report =>
      let turbine_stats :=
        filter (fun s => N.eqb (TurbineDailyStats.daily_report_id s) (id daily_report))
          (turbine_daily_stats db) in
      let hourly_readings :=
        order_by HourlyReadings.by_turbine_and_hour
          (filter (fun h => N.eqb (TurbineHourlyGeneration.daily_report_id h)
                              (id daily_report))
             (turbine_hourly_generations db)) in
      let calculations := ServiceQueries.get_calculations_by_id db (id daily_report) in
      let calculations := fill_required calculations in
      Ok {| report_dict := clean_copy daily_report;
            turbine_stats := turbine_stats;
            hourly_readings := hourly_readings;
            calculations := calculations |}
  end.

(** [schemas/daily_report.py]: [InitialTurbineStats] and
    [InitialDailyReportCreate]. *)
Record InitialTurbineStats : Type := {
  its_turbine_id : Z;
  its_energy_generated : decimal;
  its_energy_exported : decimal;
  its_operating_hours : decimal;
  its_startup_count : Z;
  its_shutdown_count : Z;
  its_trips : Z
}.

Record InitialDailyReportCreate : Type := {
  c_date : Date;
  c_power_plant_id : Z;
  c_gas_loss : option decimal;
  c_ncc_loss : option decimal;
  c_internal_loss : option decimal;
  c_gas_consumed : option decimal;
  c_declaration_total : option decimal;
  c_availability_capacity : option decimal;
  c_initial_turbine_stats : option (list InitialTurbineStats)
}.

Definition on_date_and_plant (report_date : Date) (plant_id : Z) (r : DailyReport.t)
  : bool :=
  Z.eqb (date r) report_date && Z.eqb (power_plant_id r) plant_id.

(** Lines 76-89.  The model of [DailyReport] has no column [user_id] or
    [created_at]; [updated_at] is set on updates only. *)
Definition new_report (new_id : uuid) (report_in : InitialDailyReportCreate)
  (current_user : User.t) : DailyReport.t :=
  {| id := new_id;
     date := c_date report_in;
     power_plant_id := c_power_plant_id report_in;
     gas_loss := Endpoints.or_else (c_gas_loss report_in) dzero;
     ncc_loss := Endpoints.or_else (c_ncc_loss report_in) dzero;
     internal_loss := Endpoints.or_else (c_internal_loss report_in) dzero;
     gas_consumed := Endpoints.or_else (c_gas_consumed report_in) dzero;
     declaration_total := c_declaration_total report_in;
     availability_capacity := c_availability_capacity report_in;
     availability_factor := None;
     plant_heat_rate := None;
     thermal_efficiency := None;
     energy_generated := None;
     total_energy_exported := None;
     energy_consumed := None;
     availability_forecast := None;
     dependability_index := None;
     avg_energy_sent_out := None;
     gas_utilization := None;
     load_factor := None;
     updated_at := None;
     submission_deadline := Some (Endpoints.midday_after (c_date report_in));
     is_late_submission := false;
     last_modified_by_id := Some (User.id current_user) |}.

(** Lines 98-101: [user_provided_stats[stat.turbine_id] = stat] in the
    order of the request, so the last entry of a turbine is the one found. *)
Definition user_provided_stats (stats : list InitialTurbineStats) (turbine_id : Z)
  : option InitialTurbineStats :=
  find (fun stat => Z.eqb (its_turbine_id stat) turbine_id) (rev stats).

(** Lines 104-131: the row of one turbine. *)
Definition initial_row (new_id : uuid) (stats : list InitialTurbineStats)
  (turbine : Turbine.t) : TurbineDailyStats.t :=
  match user_provided_stats stats (Turbine.id turbine) with
  | Some stat =>
      {| TurbineDailyStats.daily_report_id := new_id;
         TurbineDailyStats.turbine_id := Turbine.id turbine;
         TurbineDailyStats.energy_generated := its_energy_generated stat;
         TurbineDailyStats.energy_exported := its_energy_exported stat;
         TurbineDailyStats.operating_hours := its_operating_hours stat;
         TurbineDailyStats.startup_count := its_startup_count stat;
         TurbineDailyStats.shutdown_count := its_shutdown_count stat;
         TurbineDailyStats.trips := its_trips stat |}
  | None =>
      {| TurbineDailyStats.daily_report_id := new_id;
         TurbineDailyStats.turbine_id := Turbine.id turbine;
         TurbineDailyStats.energy_generated := dzero;
         TurbineDailyStats.energy_exported := dzero;
         TurbineDailyStats.operating_hours := dzero;
         TurbineDailyStats.startup_count := 0%Z;
         TurbineDailyStats.shutdown_count := 0%Z;
         TurbineDailyStats.trips := 0%Z |}
  end.

(** [create_daily_report], lines 32-139.  [new_id] is the [uuid.uuid4()]
    the new row is given. *)
Definition create_daily_report (new_id : uuid) (db : Session)
  (report_in : InitialDailyReportCreate) (current_user : User.t)
  : Session * result DailyReport.t :=
  if negb (UserRole.eqb (User.role current_user) UserRole.EDITOR)
     && negb (UserRole.eqb (User.role current_user) UserRole.OPERATOR)
     && negb (match User.power_plant_id current_user with
              | Some p => Z.eqb p (c_power_plant_id report_in)
              | None => false
              end)
  then (db, Raise (HTTPException Endpoints.HTTP_403_FORBIDDEN))
  else
    match first (has_plant_id (c_power_plant_id report_in)) (power_plants db) with
    | None => (db, Raise (HTTPException Endpoints.HTTP_404_NOT_FOUND))
    | Some _ =>
        match first (on_date_and_plant (c_date report_in) (c_power_plant_id report_in))
                (daily_reports db) with
        | Some existing_report => (db, Ok existing_report)
        | None =>
            let daily_report := new_report new_id report_in current_user in
            let db := with_daily_reports db (daily_reports db ++ [daily_report]) in
            let turbines :=
              filter (fun t => Z.eqb (Turbine.power_plant_id t)
                                 (c_power_plant_id report_in))
                (turbines db) in
            let stats := Endpoints.or_else (c_initial_turbine_stats report_in) [] in
            let db :=
              with_turbine_daily_stats db
                (turbine_daily_stats db
                 ++ map (initial_row (id daily_report) stats) turbines) in
            match Service.calculate_and_update_all_metrics db (id daily_report) with
            | Raise e => (db, Raise e)
            | Ok db =>
                (db, Ok (Endpoints.or_else
                           (first (has_report_id (id daily_report)) (daily_reports db))
                           daily_report))
            end
        end
    end.

End DailyReports.

(** The report a (plant, date) query finds. *)
Definition report_on (db : Session) (plant_id : Z) (report_date : Date)
  : option DailyReport.t :=
  first (ServiceQueries.of_plant_and_date plant_id report_date) (daily_reports db).

(** The permission test of [create_daily_report]. *)
Definition may_create (current_user : User.t) (plant_id : Z) : bool :=
  UserRole.eqb (User.role current_user) UserRole.EDITOR
  || UserRole.eqb (User.role current_user) UserRole.OPERATOR
  || match User.power_plant_id current_user with
     | Some p => Z.eqb p plant_id
     | None => false
     end.

(** The turbines of a plant, in storage order. *)
Definition turbines_of_plant (db : Session) (plant_id : Z) : list Turbine.t :=
  filter (fun t => Z.eqb (Turbine.power_plant_id t) plant_id) (turbines db).

(** The start of a day, before any report exists: plant 1 with its two
    turbines, and a request for the report of day 0 that gives values for
    turbine 1 only. *)
Module DayStart.
Local Open Scope Z_scope.

Definition session : Session :=
  {| daily_reports := [];
     power_plants := [Scenario.plant (of_Z 100)];
     morning_readings := [];
     turbine_daily_stats := [];
     turbine_hourly_generations := [];
     turbines := [ {| Turbine.id := 1; Turbine.power_plant_id := 1 |};
                   {| Turbine.id := 2; Turbine.power_plant_id := 1 |} ] |}.

Definition request : DailyReports.InitialDailyReportCreate :=
  {| DailyReports.c_date := 0;
     DailyReports.c_power_plant_id := 1;
     DailyReports.c_gas_loss := None;
     DailyReports.c_ncc_loss := None;
     DailyReports.c_internal_loss := None;
     DailyReports.c_gas_consumed := Some (of_Z 10);
     DailyReports.c_declaration_total := None;
     DailyReports.c_availability_capacity := None;
     DailyReports.c_initial_turbine_stats :=
       Some [ {| DailyReports.its_turbine_id := 1;
                 DailyReports.its_energy_generated := of_Z 30;
                 DailyReports.its_energy_exported := of_Z 20;
                 DailyReports.its_operating_hours := of_Z 24;
                 DailyReports.its_startup_count := 0;
                 DailyReports.its_shutdown_count := 0;
                 DailyReports.its_trips := 0 |} ] |}.


Definition viewer : User.t :=
  {| User.id := 10; User.role := UserRole.VIEWER; User.power_plant_id := None |}.

End DayStart.

(** * Facts about decimals *)

Lemma deqb_true_iff (x y : decimal) : deqb x y = true <-> x = y.
Proof.
  unfold deqb. rewrite Qeq_bool_iff. split.
  - apply Qc_is_canon.
  - intros ->. reflexivity.
Qed.

Lemma deqb_false_iff (x y : decimal) : deqb x y = false <-> x <> y.
Proof.
  rewrite <- deqb_true_iff. destruct (deqb x y); split; congruence.
Qed.

Lemma dltb_true_iff (x y : decimal) : dltb x y = true <-> (x < y)%Qc.
Proof.
  unfold dltb. rewrite Qclt_alt. destruct (x ?= y)%Qc; split; congruence.
Qed.

Lemma gt0_nonzero (x : decimal) : gt0 x = true -> deqb x dzero = false.
Proof.
  intros H. apply deqb_false_iff. apply dltb_true_iff in H.
  intros E. exact (Qclt_not_eq _ _ H (eq_sym E)).
Qed.

Lemma truthy_nonzero (x : decimal) : truthy x = true -> deqb x dzero = false.
Proof. unfold truthy. destruct (deqb x dzero); simpl; congruence. Qed.

Lemma gt0_truthy (x : decimal) : gt0 x = true -> truthy x = true.
Proof. intros H. unfold truthy. now rewrite gt0_nonzero. Qed.

Lemma dzero_is_0 : dzero = 0%Qc.
Proof. apply Qc_is_canon. reflexivity. Qed.

Lemma holds_iff (o : option decimal) (v : decimal) : holds o v = true <-> o = Some v.
Proof.
  destruct o as [x|]; simpl.
  - rewrite deqb_true_iff. split; congruence.
  - split; congruence.
Qed.

Lemma pdiv_ok (x y : decimal) : deqb y dzero = false -> pdiv x y = Ok (dquot x y).
Proof. unfold pdiv. intros ->. reflexivity. Qed.

Lemma pdiv_zero (x y : decimal) : deqb y dzero = true -> pdiv x y = Raise DivisionByZero.
Proof. unfold pdiv. intros ->. reflexivity. Qed.

Lemma dquot_nonzero (x y : decimal) :
  deqb x dzero = false -> deqb y dzero = false -> deqb (dquot x y) dzero = false.
Proof.
  rewrite !deqb_false_iff, dzero_is_0. intros Hx Hy E.
  apply Hx. rewrite <- (Qcmult_div_r x y Hy). unfold dquot in E. rewrite E.
  apply Qcmult_0_r.
Qed.

Lemma dmul_nonzero (x y : decimal) :
  deqb x dzero = false -> deqb y dzero = false -> deqb (dmul x y) dzero = false.
Proof.
  rewrite !deqb_false_iff, dzero_is_0. intros Hx Hy E.
  destruct (Qcmult_integral _ _ E); contradiction.
Qed.

Lemma of_Z_24_nonzero : deqb (of_Z 24) dzero = false.
Proof. reflexivity. Qed.

Lemma of_Z_1000_nonzero : deqb (of_Z 1000) dzero = false.
Proof. reflexivity. Qed.

Create HintDb decimal.
#[local] Hint Resolve gt0_nonzero truthy_nonzero dquot_nonzero dmul_nonzero
  of_Z_24_nonzero of_Z_1000_nonzero : decimal.

(** Splits the guards of the goal's hypotheses and discharges the
    divisions they protect. *)
Ltac guards :=
  repeat match goal with
  | H : (_ && _)%bool = true |- _ => apply andb_prop in H; destruct H
  end.

Ltac divide :=
  guards; repeat (rewrite pdiv_ok by auto with decimal; cbn [bind]).

(** * Facts about the tables *)

Section Tables.
Context {A : Type}.
Implicit Types (p q : A -> bool) (l : list A).

Lemma first_holds p l x : first p l = Some x -> p x = true.
Proof. intros H. apply find_some in H. tauto. Qed.

Lemma first_update_first p l x new :
  first p l = Some x -> p new = true -> first p (update_first p new l) = Some new.
Proof.
  unfold first. induction l as [|a l IH]; simpl; [discriminate|].
  destruct (p a) eqn:E; intros H Hn; simpl.
  - now rewrite Hn.
  - rewrite E. auto.
Qed.

Lemma first_update_first_none p l new :
  first p l = None -> update_first p new l = l.
Proof.
  unfold first. induction l as [|a l IH]; simpl; [reflexivity|].
  destruct (p a); [discriminate|]. intros H. now rewrite IH.
Qed.

Lemma first_update_first_other p q l new :
  (forall x, q x = true -> p x = false) -> p new = false ->
  first p (update_first q new l) = first p l.
Proof.
  unfold first. intros Hq Hn. induction l as [|a l IH]; simpl; [reflexivity|].
  destruct (q a) eqn:E; simpl.
  - now rewrite Hn, (Hq a E).
  - now rewrite IH.
Qed.

Lemma update_first_same p l x : first p l = Some x -> update_first p x l = l.
Proof.
  unfold first. induction l as [|a l IH]; simpl; [reflexivity|].
  destruct (p a); intros H.
  - congruence.
  - now rewrite IH.
Qed.

Lemma update_first_twice p l a b :
  p a = true -> update_first p b (update_first p a l) = update_first p b l.
Proof.
  intros Ha. induction l as [|x l IH]; simpl; [reflexivity|].
  destruct (p x) eqn:E; simpl.
  - now rewrite Ha.
  - now rewrite E, IH.
Qed.

End Tables.


(** * Facts about [Service] *)

Arguments dadd : simpl never.
Arguments dsub : simpl never.
Arguments dmul : simpl never.
Arguments dquot : simpl never.
Arguments deqb : simpl never.
Arguments dltb : simpl never.
Arguments gt0 : simpl never.
Arguments truthy : simpl never.
Arguments dsum : simpl never.
Arguments dec : simpl never.
Arguments of_Z : simpl never.


(** Case analysis on the innermost test of the goal. *)
Ltac split_cond :=
  match goal with
  | |- context [if ?b then _ else _] =>
      lazymatch b with
      | context [if _ then _ else _] => fail
      | context [match _ with Some _ => _ | None => _ end] => fail
      | _ => destruct b eqn:?
      end
  | |- context [match ?o with Some _ => _ | None => _ end] =>
      lazymatch o with
      | context [if _ then _ else _] => fail
      | context [match _ with Some _ => _ | None => _ end] => fail
      | _ => destruct o eqn:?
      end
  end.

Section ServiceFacts.
Import DailyReport Service.
Local Open Scope decimal_scope.

(** Each block is an assignment of one column; where its guard fails the
    column keeps the value it had. *)

Lemma service_fill_declaration_total_eq mr r :
  fill_declaration_total mr r =
  set_declaration_total r
    match mr with
    | Some m =>
        if negb (truthy_opt (declaration_total r))
        then Some (MorningReading.declaration_total m)
        else declaration_total r
    | None => declaration_total r
    end.
Proof.
  unfold fill_declaration_total. destruct mr as [m|]; [|reflexivity].
  now destruct (negb _).
Qed.

Lemma service_fill_availability_capacity_eq mr r :
  fill_availability_capacity mr r =
  set_availability_capacity r
    match mr with
    | Some m =>
        if negb (truthy_opt (availability_capacity r))
        then Some (MorningReading.availability_capacity m)
        else availability_capacity r
    | None => availability_capacity r
    end.
Proof.
  unfold fill_availability_capacity. destruct mr as [m|]; [|reflexivity].
  now destruct (negb _).
Qed.

Lemma service_availability_factor_eq pp r :
  calc_availability_factor pp r =
  Ok (set_availability_factor r
        match availability_capacity r with
        | Some ac =>
            if truthy ac && gt0 (PowerPlant.total_capacity pp)
            then Some (dquot ac (PowerPlant.total_capacity pp) * of_Z 100)
            else availability_factor r
        | None => availability_factor r
        end).
Proof.
  unfold calc_availability_factor.
  destruct (availability_capacity r) as [ac|]; [|reflexivity].
  destruct (truthy ac && gt0 _) eqn:G; [|reflexivity].
  divide. reflexivity.
Qed.

Lemma service_availability_forecast_eq r :
  calc_availability_forecast r =
  set_availability_forecast r
    match declaration_total r with
    | Some dt => if truthy dt then Some (dt * of_Z 24) else availability_forecast r
    | None => availability_forecast r
    end.
Proof.
  unfold calc_availability_forecast.
  destruct (declaration_total r) as [dt|]; [|reflexivity].
  now destruct (truthy dt).
Qed.

Lemma service_dependability_index_eq g r :
  calc_dependability_index g r =
  Ok (set_dependability_index r
        match availability_forecast r with
        | Some af =>
            if truthy af && gt0 af
            then Some (dquot g af * of_Z 100)
            else dependability_index r
        | None => dependability_index r
        end).
Proof.
  unfold calc_dependability_index.
  destruct (availability_forecast r) as [af|]; [|reflexivity].
  destruct (truthy af && gt0 af) eqn:G; [|reflexivity].
  divide. reflexivity.
Qed.

Lemma service_avg_energy_sent_out_eq e r :
  calc_avg_energy_sent_out e r =
  Ok (set_avg_energy_sent_out r (Some (dquot e (of_Z 24)))).
Proof. unfold calc_avg_energy_sent_out. divide. reflexivity. Qed.

Lemma service_gas_utilization_eq g r :
  calc_gas_utilization g r =
  Ok (set_gas_utilization r
        (if gt0 (gas_consumed r)
         then Some (dquot g (gas_consumed r))
         else gas_utilization r)).
Proof.
  unfold calc_gas_utilization.
  destruct (gt0 (gas_consumed r)) eqn:G; [|reflexivity].
  divide. reflexivity.
Qed.

Lemma service_plant_heat_rate_eq r :
  calc_plant_heat_rate r =
  Ok (set_plant_heat_rate r
        match gas_utilization r with
        | Some gu =>
            if truthy gu && gt0 gu
            then Some (dquot (dec 4365 100 * of_Z 1000 * of_Z 24) gu)
            else plant_heat_rate r
        | None => plant_heat_rate r
        end).
Proof.
  unfold calc_plant_heat_rate.
  destruct (gas_utilization r) as [gu|]; [|reflexivity].
  destruct (truthy gu && gt0 gu) eqn:G; [|reflexivity].
  divide. reflexivity.
Qed.

Lemma service_thermal_efficiency_eq r :
  calc_thermal_efficiency r =
  Ok (set_thermal_efficiency r
        match plant_heat_rate r with
        | Some phr =>
            if truthy phr && gt0 phr
            then Some (dquot (of_Z 3600) phr * of_Z 100)
            else thermal_efficiency r
        | None => thermal_efficiency r
        end).
Proof.
  unfold calc_thermal_efficiency.
  destruct (plant_heat_rate r) as [phr|]; [|reflexivity].
  destruct (truthy phr && gt0 phr) eqn:G; [|reflexivity].
  divide. reflexivity.
Qed.

Lemma service_load_factor_eq pp g r :
  calc_load_factor pp g r =
  Ok (set_load_factor r
        (if truthy (PowerPlant.total_capacity pp) && truthy g
         then Some (dquot (dquot g (of_Z 24)) (PowerPlant.total_capacity pp) * of_Z 100)
         else load_factor r)).
Proof.
  unfold calc_load_factor.
  destruct (truthy _ && truthy g) eqn:G; [|reflexivity].
  divide. reflexivity.
Qed.

End ServiceFacts.

Create Rewrite HintDb service_eq.
#[local] Hint Rewrite
  service_fill_declaration_total_eq service_fill_availability_capacity_eq
  service_availability_factor_eq service_availability_forecast_eq
  service_dependability_index_eq service_avg_energy_sent_out_eq
  service_gas_utilization_eq service_plant_heat_rate_eq
  service_thermal_efficiency_eq service_load_factor_eq : service_eq.

Lemma report_ext (r r' : DailyReport.t) :
  DailyReport.id r = DailyReport.id r' ->
  DailyReport.date r = DailyReport.date r' ->
  DailyReport.power_plant_id r = DailyReport.power_plant_id r' ->
  DailyReport.gas_loss r = DailyReport.gas_loss r' ->
  DailyReport.ncc_loss r = DailyReport.ncc_loss r' ->
  DailyReport.internal_loss r = DailyReport.internal_loss r' ->
  DailyReport.gas_consumed r = DailyReport.gas_consumed r' ->
  DailyReport.declaration_total r = DailyReport.declaration_total r' ->
  DailyReport.availability_capacity r = DailyReport.availability_capacity r' ->
  DailyReport.availability_factor r = DailyReport.availability_factor r' ->
  DailyReport.plant_heat_rate r = DailyReport.plant_heat_rate r' ->
  DailyReport.thermal_efficiency r = DailyReport.thermal_efficiency r' ->
  DailyReport.energy_generated r = DailyReport.energy_generated r' ->
  DailyReport.total_energy_exported r = DailyReport.total_energy_exported r' ->
  DailyReport.energy_consumed r = DailyReport.energy_consumed r' ->
  DailyReport.availability_forecast r = DailyReport.availability_forecast r' ->
  DailyReport.dependability_index r = DailyReport.dependability_index r' ->
  DailyReport.avg_energy_sent_out r = DailyReport.avg_energy_sent_out r' ->
  DailyReport.gas_utilization r = DailyReport.gas_utilization r' ->
  DailyReport.load_factor r = DailyReport.load_factor r' ->
  DailyReport.updated_at r = DailyReport.updated_at r' ->
  DailyReport.submission_deadline r = DailyReport.submission_deadline r' ->
  DailyReport.is_late_submission r = DailyReport.is_late_submission r' ->
  DailyReport.last_modified_by_id r = DailyReport.last_modified_by_id r' ->
  r = r'.
Proof.
  destruct r, r'; cbn; intros; subst; reflexivity.
Qed.

Section ServiceEngine.
Import DailyReport Service.
Local Open Scope decimal_scope.

Variable power_plant : PowerPlant.t.
Variable morning_reading : option MorningReading.t.
Variable turbine_stats : list TurbineDailyStats.t.

Lemma service_compute_metrics_total r :
  exists r1, compute_metrics power_plant morning_reading turbine_stats r = Ok r1.
Proof.
  unfold compute_metrics.
  repeat (autorewrite with service_eq; cbn).
  eauto.
Qed.

Lemma service_compute_metrics_idem r r1 :
  compute_metrics power_plant morning_reading turbine_stats r = Ok r1 ->
  compute_metrics power_plant morning_reading turbine_stats r1 = Ok r1.
Proof.
  unfold compute_metrics.
  repeat (autorewrite with service_eq; cbn).
  intros H. injection H as <-.
  repeat (autorewrite with service_eq; cbn).
  f_equal. apply report_ext; cbn; try reflexivity.
  all: repeat split_cond; cbn in *; congruence.
Qed.
End ServiceEngine.


(** Brings a run of [Service.compute_metrics] to the report it returns. *)
Ltac service_nf :=
  unfold Service.compute_metrics; repeat (autorewrite with service_eq; cbn).

Section ServiceRun.
Import DailyReport.

Lemma has_report_id_eq {rid r} : has_report_id rid r = true -> id r = rid.
Proof. unfold has_report_id. apply N.eqb_eq. Qed.

Lemma report_of_id {db rid r} : report_of db rid = Some r -> id r = rid.
Proof. intros H. apply first_holds in H. now apply has_report_id_eq. Qed.

Lemma report_of_commit db rid r r1 :
  report_of db rid = Some r -> id r1 = rid ->
  report_of (commit_report db r1) rid = Some r1.
Proof.
  intros H E. unfold report_of, commit_report. cbn. rewrite E.
  apply first_update_first with (x := r); [exact H|].
  unfold has_report_id. rewrite E. apply N.eqb_refl.
Qed.

Lemma commit_report_same {db rid r} :
  report_of db rid = Some r -> commit_report db r = db.
Proof.
  intros H. unfold commit_report. rewrite (report_of_id H).
  now rewrite (update_first_same _ _ _ H).
Qed.

Lemma service_compute_metrics_post pp mr ts r :
  exists r1, Service.compute_metrics pp mr ts r = Ok r1 /\ service_post pp mr ts r r1.
Proof.
  service_nf. eexists. split; [reflexivity|].
  unfold service_post, same_inputs. cbn. repeat split; reflexivity.
Qed.

Lemma service_compute_metrics_inv {pp mr ts r r1} :
  Service.compute_metrics pp mr ts r = Ok r1 -> service_post pp mr ts r r1.
Proof.
  intros H. destruct (service_compute_metrics_post pp mr ts r) as (r' & E & P).
  rewrite E in H. injection H as <-. exact P.
Qed.

Lemma service_compute_metrics_keeps {pp mr ts r r1} :
  Service.compute_metrics pp mr ts r = Ok r1 ->
  id r1 = id r /\ date r1 = date r /\ power_plant_id r1 = power_plant_id r.
Proof.
  intros H. destruct (service_compute_metrics_inv H) as ((? & ? & ? & _) & _). auto.
Qed.

(** A resolvable call computes the metrics of the report and writes its
    row back. *)
Lemma service_run {db rid r p} :
  report_of db rid = Some r -> plant_of db r = Some p ->
  exists r1,
    Service.compute_metrics p (morning_reading_of db r) (daily_rows db rid) r = Ok r1 /\
    service_post p (morning_reading_of db r) (daily_rows db rid) r r1 /\
    Service.calculate_and_update_all_metrics db rid = Ok (commit_report db r1) /\
    report_of (commit_report db r1) rid = Some r1.
Proof.
  intros Hr Hp.
  destruct (service_compute_metrics_total p (morning_reading_of db r)
              (daily_rows db rid) r) as [r1 H1].
  exists r1. split; [exact H1|].
  split; [exact (service_compute_metrics_inv H1)|].
  destruct (service_compute_metrics_keeps H1) as (Hid & _ & _).
  split.
  - unfold Service.calculate_and_update_all_metrics.
    unfold report_of in Hr. rewrite Hr.
    unfold plant_of in Hp. rewrite Hp.
    unfold morning_reading_of, daily_rows in H1.
    unfold Service.stats_of_report. rewrite H1. reflexivity.
  - apply report_of_commit with (r := r); [exact Hr|].
    rewrite Hid. exact (report_of_id Hr).
Qed.

End ServiceRun.

(** C6.  [Service.calculate_and_update_all_metrics] is idempotent: every
    call returns a session, and a second call on that session returns it
    unchanged, so the eleven derived columns and the two totals of the
    report (and every other row) are exactly those of the first run. *)
Theorem service_engine_idempotent (db : Session) (report_id : uuid) :
  exists db1,
    Service.calculate_and_update_all_metrics db report_id = Ok db1 /\
    Service.calculate_and_update_all_metrics db1 report_id = Ok db1.
Proof.
  destruct (report_of db report_id) as [r|] eqn:Hr.
  2:{ exists db. unfold Service.calculate_and_update_all_metrics.
      unfold report_of in Hr. rewrite Hr. auto. }
  destruct (plant_of db r) as [p|] eqn:Hp.
  2:{ exists db. unfold Service.calculate_and_update_all_metrics.
      unfold report_of in Hr. unfold plant_of in Hp. rewrite Hr, Hp. auto. }
  destruct (service_run Hr Hp) as (r1 & H1 & _ & Hrun & Hr1).
  exists (commit_report db r1). split; [exact Hrun|].
  destruct (service_compute_metrics_keeps H1) as (Hid & Hdate & Hplant).
  assert (Hp1 : plant_of (commit_report db r1) r1 = Some p).
  { unfold plant_of. cbn. rewrite Hplant. exact Hp. }
  destruct (service_run Hr1 Hp1) as (r2 & H2 & _ & Hrun2 & _).
  rewrite Hrun2. f_equal.
  assert (E : r2 = r1).
  { apply service_compute_metrics_idem in H1.
    assert (Hm : morning_reading_of (commit_report db r1) r1 = morning_reading_of db r).
    { unfold morning_reading_of, Service.same_day_reading. cbn.
      now rewrite Hdate, Hplant. }
    rewrite Hm in H2.
    change (daily_rows (commit_report db r1) report_id) with (daily_rows db report_id) in H2.
    congruence. }
  rewrite E. exact (commit_report_same Hr1).
Qed.


(** * Facts about [Calculations] *)

Lemma truthy_dzero : truthy dzero = false.
Proof. vm_compute. reflexivity. Qed.

Section CalculationsFacts.
Import DailyReport Calculations.





Lemma calc_availability_factor_outcome pp r :
  calc_availability_factor pp r
  = match availability_capacity r with
    | Some _ => Raise AttributeError
    | None => Ok r
    end.
Proof. unfold calc_availability_factor. now destruct (availability_capacity r). Qed.

Lemma calc_plant_heat_rate_outcome r :
  calc_plant_heat_rate r
  = match energy_generated r with
    | Some eg =>
        if truthy eg && truthy (gas_consumed r) && gt0 eg
        then Raise TypeError
        else Ok r
    | None => Ok r
    end.
Proof.
  unfold calc_plant_heat_rate. destruct (energy_generated r) as [eg|]; [|reflexivity].
  now destruct (truthy eg && truthy (gas_consumed r) && gt0 eg).
Qed.

(** [compute_metrics] raises on every report: at line 56 when
    [availability_capacity] is set, else at line 62 when the guard of the
    heat rate holds, else at line 86. *)
Lemma calculations_compute_metrics_raises pp r :
  compute_metrics pp r
  = Raise
      match availability_capacity r with
      | Some _ => AttributeError
      | None =>
          match energy_generated r with
          | Some eg =>
              if truthy eg && truthy (gas_consumed r) && gt0 eg
              then TypeError else AttributeError
          | None => AttributeError
          end
      end.
Proof.
  unfold compute_metrics, set_defaults. cbv zeta.
  rewrite calc_availability_factor_outcome.
  unfold calc_energy_consumed.
  destruct (energy_generated r) as [eg|] eqn:Eg;
    destruct (total_energy_exported r) as [tee|] eqn:Et; cbn;
    rewrite ?Eg, ?Et; cbn;
    (destruct (availability_capacity r) as [ac|] eqn:Ea; cbn; [reflexivity|]);
    rewrite calc_plant_heat_rate_outcome; cbn; rewrite ?Eg; cbn.
  all: try (destruct (truthy eg && truthy (gas_consumed r) && gt0 eg); cbn;
            [reflexivity|]).
  all: unfold calc_thermal_efficiency; cbn; rewrite truthy_dzero; cbn.
  all: unfold calc_availability_forecast; cbn; rewrite ?Ea; cbn.
  all: unfold calc_dependability_index; cbn; rewrite ?truthy_dzero, ?Eg; cbn.
  all: unfold calc_avg_energy_sent_out; cbn; rewrite ?Et; cbn.
  all: try (destruct (truthy tee); cbn; [rewrite pdiv_ok by auto with decimal; cbn|]).
  all: unfold calc_gas_utilization; cbn; rewrite ?Eg; cbn.
  all: try (destruct (truthy (gas_consumed r) && gt0 (gas_consumed r)) eqn:G; cbn;
            [apply andb_prop in G; destruct G as [_ G];
             rewrite pdiv_ok by auto with decimal; cbn|]).
  all: reflexivity.
Qed.

End CalculationsFacts.

Section CalculationsRun.
Import DailyReport.

Lemma hourly_exist_iff db rid :
  Nat.ltb 0 (length (hourly_rows db rid)) = false <-> hourly_rows db rid = [].
Proof.
  destruct (hourly_rows db rid); cbn; split; intros; congruence.
Qed.

Lemma unresolved_noop_calculations (db : Session) (report_id : uuid) :
  (report_of db report_id = None \/
   exists r, report_of db report_id = Some r /\ plant_of db r = None) ->
  Calculations.calculate_and_update_all_metrics db report_id = (db, Ok tt).
Proof.
  unfold report_of, plant_of, Calculations.calculate_and_update_all_metrics.
  intros [H | (r & Hr & Hp)].
  - now rewrite H.
  - now rewrite Hr, Hp.
Qed.

(** On a resolvable report [Calculations] raises before its commit, and
    the session is as it was. *)
Lemma calculations_engine_outcome {db rid r p} :
  report_of db rid = Some r -> plant_of db r = Some p ->
  Calculations.calculate_and_update_all_metrics db rid
  = (db, Raise (raised_by_calculations db rid r)).
Proof.
  intros Hr Hp. pose proof (report_of_id Hr) as Hid.
  unfold Calculations.calculate_and_update_all_metrics.
  unfold report_of in Hr. rewrite Hr. unfold plant_of in Hp. rewrite Hp.
  unfold Calculations._update_energy_totals. cbv zeta.
  cbn [id set_energy_generated set_total_energy_exported].
  rewrite Hid.
  change (filter (Calculations.hourly_of_report rid) (turbine_hourly_generations db))
    with (hourly_rows db rid).
  unfold raised_by_calculations.
  destruct (hourly_rows db rid) as [|h hs]; cbn [length Nat.ltb Nat.leb];
    [|reflexivity].
  rewrite calculations_compute_metrics_raises. cbn.
  change (filter (Calculations.stats_of_report rid) (turbine_daily_stats db))
    with (daily_rows db rid).
  reflexivity.
Qed.


End CalculationsRun.


(** * The claims *)

(** Evaluation of an engine on a concrete session. *)
Ltac run_engine :=
  eexists; eexists; split; [vm_compute; reflexivity|];
  split; [vm_compute; reflexivity|].

Lemma unresolved_noop_service (db : Session) (report_id : uuid) :
  (report_of db report_id = None \/
   exists r, report_of db report_id = Some r /\ plant_of db r = None) ->
  Service.calculate_and_update_all_metrics db report_id = Ok db.
Proof.
  unfold report_of, plant_of, Service.calculate_and_update_all_metrics.
  intros [H | (r & Hr & Hp)].
  - now rewrite H.
  - now rewrite Hr, Hp.
Qed.

(** C7.  If the report or its power plant cannot be resolved, both versions
    of [calculate_and_update_all_metrics] return normally with the session
    they were given: nothing is written. *)
Theorem unresolved_is_noop (db : Session) (report_id : uuid) :
  (report_of db report_id = None \/
   exists r, report_of db report_id = Some r /\ plant_of db r = None) ->
  Service.calculate_and_update_all_metrics db report_id = Ok db /\
  Calculations.calculate_and_update_all_metrics db report_id = (db, Ok tt).
Proof.
  unfold report_of, plant_of.
  unfold Service.calculate_and_update_all_metrics,
    Calculations.calculate_and_update_all_metrics.
  intros [H | (r & Hr & Hp)].
  - rewrite H. auto.
  - rewrite Hr, Hp. auto.
Qed.

Lemma unresolved_is_noop_witness :
  (Service.calculate_and_update_all_metrics Scenario.empty 1%N = Ok Scenario.empty /\
   Calculations.calculate_and_update_all_metrics Scenario.empty 1%N
   = (Scenario.empty, Ok tt)) /\
  (Service.calculate_and_update_all_metrics Scenario.orphan 1%N = Ok Scenario.orphan /\
   Calculations.calculate_and_update_all_metrics Scenario.orphan 1%N
   = (Scenario.orphan, Ok tt)).
Proof.
  split.
  - apply (unresolved_is_noop Scenario.empty 1%N). left. reflexivity.
  - apply (unresolved_is_noop Scenario.orphan 1%N). right.
    exists (Scenario.report dzero None None). split; reflexivity.
Defined.





(** C2 (the code departs from the claim).  [Service] assigns a derived
    column only where its guard holds.  At the start of a day (no
    declaration values, no gas figure, zero turbine rows) it leaves seven of
    the eleven derived columns null; and after the gas figure of a computed
    report is set to zero, [gas_utilization] keeps its former value. *)
Theorem service_leaves_columns_unset :
  (exists db1 r1,
     Service.calculate_and_update_all_metrics Scenario.fresh 1%N = Ok db1 /\
     report_of db1 1%N = Some r1 /\
     DailyReport.availability_factor r1 = None /\
     DailyReport.plant_heat_rate r1 = None /\
     DailyReport.thermal_efficiency r1 = None /\
     DailyReport.availability_forecast r1 = None /\
     DailyReport.dependability_index r1 = None /\
     DailyReport.gas_utilization r1 = None /\
     DailyReport.load_factor r1 = None) /\
  (exists db1 r1,
     Service.calculate_and_update_all_metrics Scenario.stale 1%N = Ok db1 /\
     report_of db1 1%N = Some r1 /\
     DailyReport.gas_consumed r1 = dzero /\
     holds (DailyReport.gas_utilization r1) (of_Z 120) = true /\
     holds (DailyReport.plant_heat_rate r1) (of_Z 8730) = true).
Proof.
  split.
  - run_engine. repeat split.
  - run_engine. repeat split.
Qed.

(** C8 (as amended).  [Service] never divides by zero: every call returns
    normally.  The divisions by the plant capacity in [availability_factor],
    by [availability_forecast], by [gas_consumed], by [gas_utilization] and
    by [plant_heat_rate] are skipped unless the divisor is strictly
    positive; the division by the plant capacity in [load_factor] is skipped
    when the capacity is zero. *)
Theorem service_divisions_guarded (db : Session) (report_id : uuid) :
  (exists db1, Service.calculate_and_update_all_metrics db report_id = Ok db1) /\
  (forall pp r,
     gt0 (PowerPlant.total_capacity pp) = false ->
     Service.calc_availability_factor pp r = Ok r) /\
  (forall g r,
     (forall af, DailyReport.availability_forecast r = Some af -> gt0 af = false) ->
     Service.calc_dependability_index g r = Ok r) /\
  (forall g r,
     gt0 (DailyReport.gas_consumed r) = false ->
     Service.calc_gas_utilization g r = Ok r) /\
  (forall r,
     (forall gu, DailyReport.gas_utilization r = Some gu -> gt0 gu = false) ->
     Service.calc_plant_heat_rate r = Ok r) /\
  (forall r,
     (forall phr, DailyReport.plant_heat_rate r = Some phr -> gt0 phr = false) ->
     Service.calc_thermal_efficiency r = Ok r) /\
  (forall pp g r,
     PowerPlant.total_capacity pp = dzero ->
     Service.calc_load_factor pp g r = Ok r).
Proof.
  split.
  { destruct (report_of db report_id) as [r|] eqn:Hr.
    - destruct (plant_of db r) as [p|] eqn:Hp.
      + destruct (service_run Hr Hp) as (r1 & _ & _ & Hrun & _). eauto.
      + exists db. apply unresolved_noop_service. right. eauto.
    - exists db. apply unresolved_noop_service. left. exact Hr. }
  repeat split.
  - intros pp r H. rewrite service_availability_factor_eq.
    destruct (DailyReport.availability_capacity r); [|reflexivity].
    now rewrite H, andb_false_r.
  - intros g r H. rewrite service_dependability_index_eq.
    destruct (DailyReport.availability_forecast r) as [af|]; [|reflexivity].
    now rewrite (H af eq_refl), andb_false_r.
  - intros g r H. rewrite service_gas_utilization_eq. now rewrite H.
  - intros r H. rewrite service_plant_heat_rate_eq.
    destruct (DailyReport.gas_utilization r) as [gu|]; [|reflexivity].
    now rewrite (H gu eq_refl), andb_false_r.
  - intros r H. rewrite service_thermal_efficiency_eq.
    destruct (DailyReport.plant_heat_rate r) as [phr|]; [|reflexivity].
    now rewrite (H phr eq_refl), andb_false_r.
  - intros pp g r H. rewrite service_load_factor_eq. rewrite H. reflexivity.
Qed.

(** C8, as stated, fails: the guard of [load_factor] tests that the plant
    capacity is not zero, not that it is positive.  With a capacity of -50
    and 2400 MWh generated the division is made and the column becomes
    (2400 / 24) / (-50) * 100 = -200. *)
Lemma load_factor_divides_by_negative_capacity :
  gt0 (PowerPlant.total_capacity (Scenario.plant (of_Z (-50)))) = false /\
  (exists r1,
     Service.calc_load_factor (Scenario.plant (of_Z (-50))) (of_Z 2400)
       (Scenario.report (of_Z 10) None None) = Ok r1 /\
     holds (DailyReport.load_factor r1) (of_Z (-200)) = true) /\
  (exists db1 r1,
     Service.calculate_and_update_all_metrics (Scenario.load (of_Z (-50))) 1%N = Ok db1 /\
     report_of db1 1%N = Some r1 /\
     holds (DailyReport.load_factor r1) (of_Z (-200)) = true).
Proof.
  split; [reflexivity|]. split.
  - eexists. split; vm_compute; reflexivity.
  - run_engine. vm_compute. reflexivity.
Qed.


(** C9.  When the report's [declaration_total] (resp.
    [availability_capacity]) is null or zero and a morning reading exists
    for the plant and day of the report, [Service] copies the reading's
    value onto the report and computes [availability_forecast],
    [dependability_index] and [availability_factor] from the copy; two
    sessions that differ in the morning reading only end with different
    derived columns. *)
Theorem morning_reading_is_an_input :
  (forall db report_id r p m,
     report_of db report_id = Some r -> plant_of db r = Some p ->
     morning_reading_of db r = Some m ->
     exists db1 r1,
       Service.calculate_and_update_all_metrics db report_id = Ok db1 /\
       report_of db1 report_id = Some r1 /\
       (truthy_opt (DailyReport.declaration_total r) = false ->
        DailyReport.declaration_total r1 = Some (MorningReading.declaration_total m) /\
        (truthy (MorningReading.declaration_total m) = true ->
         DailyReport.availability_forecast r1
         = Some (MorningReading.declaration_total m * of_Z 24)%decimal /\
         (gt0 (MorningReading.declaration_total m * of_Z 24)%decimal = true ->
          DailyReport.dependability_index r1
          = Some (dquot (daily_generated db report_id)
                    (MorningReading.declaration_total m * of_Z 24)
                  * of_Z 100)%decimal))) /\
       (truthy_opt (DailyReport.availability_capacity r) = false ->
        DailyReport.availability_capacity r1
        = Some (MorningReading.availability_capacity m) /\
        (truthy (MorningReading.availability_capacity m) = true ->
         gt0 (PowerPlant.total_capacity p) = true ->
         DailyReport.availability_factor r1
         = Some (dquot (MorningReading.availability_capacity m)
                   (PowerPlant.total_capacity p) * of_Z 100)%decimal))) /\
  (exists db1 r1 db2 r2,
     Service.calculate_and_update_all_metrics (Scenario.with_morning []) 1%N = Ok db1 /\
     report_of db1 1%N = Some r1 /\
     Service.calculate_and_update_all_metrics
       (Scenario.with_morning [Scenario.morning (of_Z 80) (of_Z 90)]) 1%N = Ok db2 /\
     report_of db2 1%N = Some r2 /\
     DailyReport.availability_factor r1 = None /\
     holds (DailyReport.availability_factor r2) (of_Z 90) = true /\
     DailyReport.availability_forecast r1 = None /\
     holds (DailyReport.availability_forecast r2) (of_Z 1920) = true).
Proof.
  split.
  - intros db report_id r p m Hr Hp Hm.
    destruct (service_run Hr Hp) as (r1 & _ & P & Hrun & Hr1).
    exists (commit_report db r1), r1. split; [exact Hrun|]. split; [exact Hr1|].
    rewrite Hm in P.
    destruct P as (_ & _ & _ & _ & Pd & Pc & Pf & Pa & Pi & _).
    split.
    + intros Hd. rewrite Hd in Pd. cbn in Pd. split; [exact Pd|].
      intros Ht. rewrite Pd, Ht in Pa. split; [exact Pa|].
      intros Hg. rewrite Pa, Hg, (gt0_truthy _ Hg) in Pi. exact Pi.
    + intros Hc. rewrite Hc in Pc. cbn in Pc. split; [exact Pc|].
      intros Ht Hg. rewrite Pc, Ht, Hg in Pf. exact Pf.
  - eexists. eexists. eexists. eexists.
    split; [vm_compute; reflexivity|]. split; [vm_compute; reflexivity|].
    split; [vm_compute; reflexivity|]. split; [vm_compute; reflexivity|].
    repeat split.
Qed.

Lemma morning_reading_is_an_input_witness :
  exists db1 r1,
    Service.calculate_and_update_all_metrics
      (Scenario.with_morning [Scenario.morning (of_Z 80) (of_Z 90)]) 1%N = Ok db1 /\
    report_of db1 1%N = Some r1 /\
    DailyReport.declaration_total r1 = Some (of_Z 80) /\
    DailyReport.availability_capacity r1 = Some (of_Z 90).
Proof.
  destruct (proj1 morning_reading_is_an_input
              (Scenario.with_morning [Scenario.morning (of_Z 80) (of_Z 90)]) 1%N
              (Scenario.report (of_Z 10) None None) (Scenario.plant (of_Z 100))
              (Scenario.morning (of_Z 80) (of_Z 90)) eq_refl eq_refl eq_refl)
    as (db1 & r1 & Hrun & Hr1 & Hd & Hc).
  exists db1, r1. split; [exact Hrun|]. split; [exact Hr1|].
  split; [exact (proj1 (Hd eq_refl)) | exact (proj1 (Hc eq_refl))].
Defined.


(** * The sync of the daily rows from the hourly records *)





(** * The formulas of the two versions *)

Lemma dle_by_test (x y : decimal) : dltb y x = false -> (x <= y)%Qc.
Proof.
  intros H. apply Qcnot_lt_le. intros L. apply dltb_true_iff in L. congruence.
Qed.

(** Decides a closed equation or comparison of decimals. *)
Ltac decimals :=
  match goal with
  | |- _ = Some _ => apply holds_iff; vm_compute; reflexivity
  | |- @eq decimal _ _ => apply deqb_true_iff; vm_compute; reflexivity
  | |- @eq Qc _ _ => apply deqb_true_iff; vm_compute; reflexivity
  | |- (_ <= _)%Qc => apply dle_by_test; vm_compute; reflexivity
  | |- (_ < _)%Qc => apply dltb_true_iff; vm_compute; reflexivity
  | |- @eq bool _ _ => vm_compute; reflexivity
  end.









(** * The update endpoints *)

Section EndpointFacts.
Import DailyReport Endpoints.

Lemma report_of_commit_other db rid x :
  id x <> rid -> report_of (commit_report db x) rid = report_of db rid.
Proof.
  intros Hne. unfold report_of, commit_report. cbn.
  apply first_update_first_other.
  - intros y Hy. apply has_report_id_eq in Hy.
    unfold has_report_id. apply N.eqb_neq. congruence.
  - unfold has_report_id. now apply N.eqb_neq.
Qed.

Lemma track_late_keeps pd r :
  id (track_late pd r) = id r /\
  power_plant_id (track_late pd r) = power_plant_id r /\
  derived_fields (track_late pd r) = derived_fields r.
Proof. unfold track_late. destruct (pd && _); repeat split. Qed.

Lemma touch_keeps u now r :
  id (touch u now r) = id r /\
  power_plant_id (touch u now r) = power_plant_id r /\
  derived_fields (touch u now r) = derived_fields r.
Proof. repeat split. Qed.

Lemma update_basic_fields_keeps rin r :
  id (update_basic_fields rin r) = id r /\
  power_plant_id (update_basic_fields rin r) = power_plant_id r.
Proof.
  unfold update_basic_fields.
  destruct (in_gas_loss rin), (in_ncc_loss rin), (in_internal_loss rin),
    (in_gas_consumed rin), (in_declaration_total rin),
    (in_availability_capacity rin); split; reflexivity.
Qed.

(** The loop over the turbine stats keeps the plants and the row of the
    report. *)
Lemma apply_turbine_stats_keeps report stats : forall db db1 res,
  apply_turbine_stats (id report) report db stats = (db1, res) ->
  power_plants db1 = power_plants db /\
  (forall r, report_of db (id report) = Some r ->
   exists r', report_of db1 (id report) = Some r').
Proof.
  induction stats as [|u stats IH]; intros db db1 res; cbn.
  - intros H. injection H as <- <-. eauto.
  - destruct (first _ (turbines db)).
    2:{ intros H. injection H as <- <-. eauto. }
    intros H. apply IH in H. destruct H as [Hp Hr]. cbn in Hp. split; [exact Hp|].
    intros r Hrep. apply (Hr report).
    apply report_of_commit with (r := r); [|reflexivity].
    exact Hrep.
Qed.

End EndpointFacts.

(** C3 (as amended).  After [update_daily_report] returns normally for a
    report whose plant exists, the report's [energy_generated] and
    [total_energy_exported] equal the sums over its daily-stat rows, the
    hourly records playing no part.  [update_hourly_readings] does not
    recompute: it leaves the eleven derived columns of the report and the
    daily-stat rows as they were. *)
Theorem totals_after_updates (db : Session) (report_id : uuid)
  (current_user : User.t) (now : DateTime) :
  (forall report_in db1 response r p,
     Endpoints.update_daily_report db report_id report_in current_user now
     = (db1, Ok response) ->
     report_of db report_id = Some r -> plant_of db r = Some p ->
     report_of db1 report_id = Some response /\
     DailyReport.energy_generated response = Some (daily_generated db1 report_id) /\
     DailyReport.total_energy_exported response = Some (daily_exported db1 report_id)) /\
  (forall autoflush readings db1 keys,
     Endpoints.update_hourly_readings autoflush db report_id readings current_user now
     = (db1, Ok keys) ->
     exists r r1,
       report_of db report_id = Some r /\
       report_of db1 report_id = Some r1 /\
       derived_fields r1 = derived_fields r /\
       turbine_daily_stats db1 = turbine_daily_stats db).
Proof.
  split.
  - intros rin db1 resp r p H Hr Hp.
    unfold Endpoints.update_daily_report in H.
    unfold report_of in Hr. rewrite Hr in H. fold (report_of db report_id) in Hr.
    destruct (Endpoints.check_permission _ _ _); [|now injection H].
    set (r2 := Endpoints.update_basic_fields rin (Endpoints.track_late _ r)) in H.
    assert (Hid2 : DailyReport.id r2 = report_id /\
                   DailyReport.power_plant_id r2 = DailyReport.power_plant_id r).
    { unfold r2.
      destruct (update_basic_fields_keeps rin
                  (Endpoints.track_late
                     match DailyReport.submission_deadline r with
                     | Some deadline => (deadline <? now)%Z
                     | None => false
                     end r)) as [-> ->].
      destruct (track_late_keeps
                  match DailyReport.submission_deadline r with
                  | Some deadline => (deadline <? now)%Z
                  | None => false
                  end r) as (-> & -> & _).
      split; [exact (report_of_id Hr) | reflexivity]. }
    destruct Hid2 as [Hid2 Hpl2].
    rewrite <- Hid2 in H at 1.
    destruct (Endpoints.apply_turbine_stats (DailyReport.id r2) r2 db _)
      as [db2 [[]|e]] eqn:Hloop; [|now injection H].
    destruct (apply_turbine_stats_keeps _ _ _ _ _ Hloop) as [Hpp Hrow].
    rewrite Hid2 in Hrow. destruct (Hrow r Hr) as [r' Hr'].
    set (r3 := Endpoints.touch current_user now r2) in H.
    assert (Hr3 : report_of (commit_report db2 r3) report_id = Some r3).
    { apply report_of_commit with (r := r'); [exact Hr' | exact Hid2]. }
    assert (Hp3 : plant_of (commit_report db2 r3) r3 = Some p).
    { unfold plant_of. cbn. rewrite Hpl2, Hpp. exact Hp. }
    change (DailyReport.id r3) with (DailyReport.id r2) in H. rewrite Hid2 in H.
    destruct (service_run Hr3 Hp3) as (r4 & _ & P & Hrun & Hr4).
    rewrite Hrun in H. unfold report_of in Hr4. rewrite Hr4 in H.
    cbn in H. injection H as <- <-.
    split; [exact Hr4|].
    destruct P as (_ & Pg & Pe & _). split; [exact Pg | exact Pe].
  - intros autoflush readings db1 keys H.
    unfold Endpoints.update_hourly_readings in H.
    destruct (first (has_report_id report_id) (daily_reports db)) as [r|] eqn:Hr;
      [|now injection H].
    destruct (Endpoints.check_permission _ _ _); [|now injection H].
    destruct (Endpoints.apply_readings _ _ _ _ _ _ _) as [rows|]; [|now injection H].
    injection H as <- _.
    destruct (track_late_keeps
                (Endpoints.midday_after (DailyReport.date r) <? now)%Z r)
      as (Hid & _ & Hd).
    eexists r, _. split; [exact Hr|]. split.
    + apply report_of_commit with (r := r); [exact Hr|].
      cbn. rewrite Hid. exact (report_of_id Hr).
    + split; [|reflexivity]. cbn. exact Hd.
Qed.


Lemma totals_after_updates_witness :
  exists db1 response,
    Endpoints.update_daily_report Scenario.fresh 1%N Scenario.daily_update
      Scenario.operator 3600%Z = (db1, Ok response) /\
    report_of db1 1%N = Some response /\
    DailyReport.energy_generated response = Some (daily_generated db1 1%N) /\
    DailyReport.total_energy_exported response = Some (daily_exported db1 1%N).
Proof.
  eexists. eexists.
  assert (H : Endpoints.update_daily_report Scenario.fresh 1%N Scenario.daily_update
                Scenario.operator 3600%Z = (_, Ok _)) by (vm_compute; reflexivity).
  split; [exact H|].
  exact (proj1 (totals_after_updates Scenario.fresh 1%N Scenario.operator 3600%Z)
           Scenario.daily_update _ _ (Scenario.report dzero None None)
           (Scenario.plant (of_Z 100)) H eq_refl eq_refl).
Defined.

(** C3, as stated, fails.  After the daily rows of a fresh report were
    entered (40 MWh generated in all) and an hourly reading of 50 MWh is
    then stored through [update_hourly_readings], the report has an hourly
    record and its [energy_generated] is still 40: no recomputation ran. *)
Lemma hourly_update_leaves_totals :
  (exists db1 keys r1,
     Endpoints.update_hourly_readings true Scenario.after_daily_update 1%N
       Scenario.hourly_update Scenario.operator 7200%Z = (db1, Ok keys) /\
     report_of db1 1%N = Some r1 /\
     hourly_rows db1 1%N <> [] /\
     hourly_generated db1 1%N = of_Z 50 /\
     DailyReport.energy_generated r1 = Some (of_Z 40) /\
     DailyReport.energy_generated r1 <> Some (hourly_generated db1 1%N)) /\
  (exists db1 keys r1,
     Endpoints.update_hourly_readings false Scenario.after_daily_update 1%N
       Scenario.hourly_update Scenario.operator 7200%Z = (db1, Ok keys) /\
     report_of db1 1%N = Some r1 /\
     hourly_rows db1 1%N <> [] /\
     hourly_generated db1 1%N = of_Z 50 /\
     DailyReport.energy_generated r1 = Some (of_Z 40) /\
     DailyReport.energy_generated r1 <> Some (hourly_generated db1 1%N)).
Proof.
  split.
  all: eexists; eexists; eexists.
  all: split; [vm_compute; reflexivity|].
  all: split; [vm_compute; reflexivity|].
  all: split; [vm_compute; discriminate|].
  all: split; [decimals|].
  all: split; [decimals|].
  all: intros H; apply holds_iff in H; vm_compute in H; discriminate.
Qed.

(** * Further facts about the tables *)

Lemma update_first_length {A} (p : A -> bool) (new : A) (l : list A) :
  length (update_first p new l) = length l.
Proof.
  induction l as [|a l IH]; cbn; [reflexivity|].
  destruct (p a); cbn; congruence.
Qed.

(** * Further properties of the engines *)

(** [Service] writes the row of the report and nothing else: the other
    tables, the number of reports and the rows of the other reports are as
    they were. *)
Theorem service_writes_one_row (db : Session) (report_id : uuid) :
  exists db1,
    Service.calculate_and_update_all_metrics db report_id = Ok db1 /\
    power_plants db1 = power_plants db /\
    morning_readings db1 = morning_readings db /\
    turbine_daily_stats db1 = turbine_daily_stats db /\
    turbine_hourly_generations db1 = turbine_hourly_generations db /\
    turbines db1 = turbines db /\
    length (daily_reports db1) = length (daily_reports db) /\
    forall other, other <> report_id -> report_of db1 other = report_of db other.
Proof.
  destruct (report_of db report_id) as [r|] eqn:Hr.
  2:{ exists db. split; [apply unresolved_noop_service; now left|]. repeat split. }
  destruct (plant_of db r) as [p|] eqn:Hp.
  2:{ exists db. split; [apply unresolved_noop_service; right; eauto|]. repeat split. }
  destruct (service_run Hr Hp) as (r1 & H1 & _ & Hrun & _).
  exists (commit_report db r1). split; [exact Hrun|].
  destruct (service_compute_metrics_keeps H1) as (Hid & _).
  repeat split.
  - cbn. apply update_first_length.
  - intros other Hne. apply report_of_commit_other.
    rewrite Hid, (report_of_id Hr). congruence.
Qed.

(** On every resolvable report [Service] assigns four columns
    unconditionally: the two totals, [energy_consumed] = generated -
    exported (which may be negative) and [avg_energy_sent_out] =
    exported / 24. *)
Theorem service_unconditional_columns (db : Session) (report_id : uuid)
  (r : DailyReport.t) (p : PowerPlant.t) :
  report_of db report_id = Some r -> plant_of db r = Some p ->
  exists db1 r1,
    Service.calculate_and_update_all_metrics db report_id = Ok db1 /\
    report_of db1 report_id = Some r1 /\
    DailyReport.energy_generated r1 = Some (daily_generated db report_id) /\
    DailyReport.total_energy_exported r1 = Some (daily_exported db report_id) /\
    DailyReport.energy_consumed r1
    = Some (daily_generated db report_id - daily_exported db report_id)%decimal /\
    DailyReport.avg_energy_sent_out r1
    = Some (dquot (daily_exported db report_id) (of_Z 24)).
Proof.
  intros Hr Hp. destruct (service_run Hr Hp) as (r1 & _ & P & Hrun & Hr1).
  exists (commit_report db r1), r1. split; [exact Hrun|]. split; [exact Hr1|].
  destruct P as (_ & Pg & Pe & Pc & _ & _ & _ & _ & _ & Pa & _). auto.
Qed.

Lemma service_unconditional_columns_witness :
  exists db1 r1,
    Service.calculate_and_update_all_metrics (Scenario.two_turbines (of_Z 45)) 1%N
    = Ok db1 /\
    report_of db1 1%N = Some r1 /\
    DailyReport.energy_consumed r1
    = Some (daily_generated (Scenario.two_turbines (of_Z 45)) 1%N
            - daily_exported (Scenario.two_turbines (of_Z 45)) 1%N)%decimal /\
    holds (DailyReport.energy_consumed r1) (of_Z (-13)) = true.
Proof.
  destruct (service_unconditional_columns (Scenario.two_turbines (of_Z 45)) 1%N
              (Scenario.report (of_Z 10) None None) (Scenario.plant (of_Z 100))
              eq_refl eq_refl)
    as (db1 & r1 & Hrun & Hr1 & _ & _ & Hc & _).
  exists db1, r1. split; [exact Hrun|]. split; [exact Hr1|]. split; [exact Hc|].
  rewrite Hc. vm_compute. reflexivity.
Defined.

(** [Calculations.calculate_and_update_all_metrics] never commits.  It
    returns normally only when the report or its plant cannot be resolved;
    on a resolvable report it raises, at the first of: the read of the
    hourly [energy_exported] when the report has an hourly record (line
    117), the read of [installed_capacity] when the report has an
    [availability_capacity] (line 56), the product of [gas_consumed] and
    35.314 when the energy generated is positive and the gas figure is not
    zero (line 62), the read of [installed_capacity] for the load factor
    (line 86).  The session is as it was in every case. *)
Theorem calculations_engine_never_commits (db : Session) (report_id : uuid) :
  match report_of db report_id with
  | None =>
      Calculations.calculate_and_update_all_metrics db report_id = (db, Ok tt)
  | Some r =>
      match plant_of db r with
      | None =>
          Calculations.calculate_and_update_all_metrics db report_id = (db, Ok tt)
      | Some _ =>
          Calculations.calculate_and_update_all_metrics db report_id
          = (db, Raise (raised_by_calculations db report_id r))
      end
  end.
Proof.
  destruct (report_of db report_id) as [r|] eqn:Hr.
  - destruct (plant_of db r) as [p|] eqn:Hp.
    + exact (calculations_engine_outcome Hr Hp).
    + apply unresolved_noop_calculations. right. eauto.
  - apply unresolved_noop_calculations. now left.
Qed.


(** * Further properties of the update endpoints *)

Section HourlyEndpointFacts.
Import Endpoints.
Variable autoflush : bool.

Lemma check_permission_spec u plant past :
  check_permission u plant past
  = if permitted u plant past then Ok tt else Raise (HTTPException HTTP_403_FORBIDDEN).
Proof.
  unfold check_permission, permitted.
  destruct (UserRole.eqb _ _); cbn; [reflexivity|].
  destruct (User.power_plant_id u) as [q|]; cbn; [|reflexivity].
  destruct (Z.eqb q plant); cbn; [|reflexivity].
  now destruct past.
Qed.

(** The loop stores the readings iff every one names a turbine of the
    plant; otherwise it raises 404. *)
Lemma apply_readings_outcome rid plant db committed readings : forall pending,
  if forallb (fun x => turbine_known db plant (hr_turbine_id x)) readings
  then exists rows,
         apply_readings autoflush rid plant db committed pending readings = Ok rows
  else apply_readings autoflush rid plant db committed pending readings
       = Raise (HTTPException HTTP_404_NOT_FOUND).
Proof.
  induction readings as [|x readings IH]; intros pending; cbn.
  - eauto.
  - unfold apply_reading, turbine_known.
    destruct (first (turbine_of_plant (hr_turbine_id x) plant) (turbines db)); cbn;
      [|reflexivity].
    destruct (first _ (if autoflush then pending else committed)); cbn; apply IH.
Qed.

(** A turn of the loop leaves the records of the other reports alone. *)
Lemma apply_reading_foreign rid plant db committed pending x rows :
  apply_reading autoflush rid plant db committed pending x = Ok rows ->
  filter (fun h => negb (N.eqb (TurbineHourlyGeneration.daily_report_id h) rid)) rows
  = filter (fun h => negb (N.eqb (TurbineHourlyGeneration.daily_report_id h) rid)) pending.
Proof.
  unfold apply_reading. destruct (first _ (turbines db)); [|discriminate].
  destruct (first _ (if autoflush then pending else committed)) as [e|] eqn:E;
    intros H; injection H as <-.
  - apply first_holds in E. unfold reading_at in E.
    apply andb_prop in E. destruct E as [E _]. apply andb_prop in E.
    destruct E as [E _]. apply N.eqb_eq in E.
    induction pending as [|a l IH]; cbn; [reflexivity|].
    destruct (reading_at rid (hr_turbine_id x) (hr_hour x) a) eqn:K; cbn.
    + unfold reading_at in K. apply andb_prop in K. destruct K as [K _].
      apply andb_prop in K. destruct K as [K _]. rewrite K. cbn.
      rewrite E, N.eqb_refl. reflexivity.
    + rewrite IH. reflexivity.
  - rewrite filter_app. cbn. rewrite N.eqb_refl. cbn. apply app_nil_r.
Qed.

Lemma apply_readings_foreign rid plant db committed readings : forall pending rows,
  apply_readings autoflush rid plant db committed pending readings = Ok rows ->
  filter (fun h => negb (N.eqb (TurbineHourlyGeneration.daily_report_id h) rid)) rows
  = filter (fun h => negb (N.eqb (TurbineHourlyGeneration.daily_report_id h) rid)) pending.
Proof.
  induction readings as [|x readings IH]; intros pending rows; cbn.
  - intros H. now injection H as <-.
  - destruct (apply_reading autoflush rid plant db committed pending x) as [p1|] eqn:E;
      cbn; [|discriminate].
    intros H. rewrite (IH _ _ H). exact (apply_reading_foreign _ _ _ _ _ _ _ E).
Qed.

(** The late flag is raised, never lowered. *)
Lemma track_late_flag pd r :
  DailyReport.is_late_submission (track_late pd r)
  = (DailyReport.is_late_submission r || pd).
Proof.
  unfold track_late.
  destruct (DailyReport.is_late_submission r) eqn:E; destruct pd; cbn;
    rewrite ?E; reflexivity.
Qed.

End HourlyEndpointFacts.

(** [update_hourly_readings] is all or nothing.  It stores the readings
    exactly when the report exists, the user is an editor or a user of the
    report's plant before midday of the next day, and every reading names a
    turbine of that plant; it answers 404, 403 and 404 otherwise, and then
    the session is as it was. *)
Theorem hourly_update_outcome autoflush (db : Session) (report_id : uuid)
  (readings : list Endpoints.HourlyReadingUpdate) (current_user : User.t)
  (now : DateTime) :
  match report_of db report_id with
  | None =>
      Endpoints.update_hourly_readings autoflush db report_id readings current_user now
      = (db, Raise (HTTPException 404))
  | Some r =>
      if negb (permitted current_user (DailyReport.power_plant_id r)
                 (past_hourly_deadline r now))
      then Endpoints.update_hourly_readings autoflush db report_id readings
             current_user now
           = (db, Raise (HTTPException 403))
      else if forallb
                (fun x => turbine_known db (DailyReport.power_plant_id r)
                            (Endpoints.hr_turbine_id x)) readings
      then exists db1,
             Endpoints.update_hourly_readings autoflush db report_id readings
               current_user now
             = (db1, Ok (map (fun x => (Endpoints.hr_turbine_id x, Endpoints.hr_hour x))
                           readings))
      else Endpoints.update_hourly_readings autoflush db report_id readings
             current_user now
           = (db, Raise (HTTPException 404))
  end.
Proof.
  unfold Endpoints.update_hourly_readings, report_of.
  destruct (first (has_report_id report_id) (daily_reports db)) as [r|]; [|reflexivity].
  rewrite check_permission_spec. fold (past_hourly_deadline r now).
  destruct (permitted current_user (DailyReport.power_plant_id r)
              (past_hourly_deadline r now)); cbn [negb]; [|reflexivity].
  assert (Hpl : DailyReport.power_plant_id
                  (Endpoints.track_late (past_hourly_deadline r now) r)
                = DailyReport.power_plant_id r).
  { now destruct (track_late_keeps (past_hourly_deadline r now) r) as (_ & -> & _). }
  rewrite Hpl.
  pose proof (apply_readings_outcome autoflush report_id (DailyReport.power_plant_id r)
                db (turbine_hourly_generations db) readings
                (turbine_hourly_generations db)) as H.
  destruct (forallb _ readings).
  - destruct H as [rows ->]. eauto.
  - rewrite H. reflexivity.
Qed.

Lemma track_late_eq pd r :
  Endpoints.track_late pd r
  = DailyReport.set_is_late_submission r (DailyReport.is_late_submission r || pd).
Proof.
  unfold Endpoints.track_late.
  destruct (DailyReport.is_late_submission r) eqn:E; destruct pd; cbn;
    try reflexivity.
  all: transitivity (DailyReport.set_is_late_submission r
                       (DailyReport.is_late_submission r));
    [reflexivity | now rewrite E].
Qed.

(** A successful [update_hourly_readings] writes the hourly records of the
    report and the audit columns of its row, nothing else: the other tables,
    the hourly records of other reports and the other reports are as they
    were; the row is stamped with the user and the time, and it is marked
    late exactly when it was late already or the deadline has passed; every
    other column of the row (the identifying columns, the measurements, the
    declaration values, the eleven derived columns and the submission
    deadline) is the one it had. *)
Theorem hourly_update_frame autoflush (db : Session) (report_id : uuid)
  (readings : list Endpoints.HourlyReadingUpdate) (current_user : User.t)
  (now : DateTime) (db1 : Session) (keys : list (Z * Z)) :
  Endpoints.update_hourly_readings autoflush db report_id readings current_user now
  = (db1, Ok keys) ->
  exists r r1,
    report_of db report_id = Some r /\
    report_of db1 report_id = Some r1 /\
    DailyReport.last_modified_by_id r1 = Some (User.id current_user) /\
    DailyReport.updated_at r1 = Some now /\
    DailyReport.is_late_submission r1
    = (DailyReport.is_late_submission r || past_hourly_deadline r now) /\
    power_plants db1 = power_plants db /\
    morning_readings db1 = morning_readings db /\
    turbine_daily_stats db1 = turbine_daily_stats db /\
    turbines db1 = turbines db /\
    foreign_hourly_rows db1 report_id = foreign_hourly_rows db report_id /\
    (forall other, other <> report_id -> report_of db1 other = report_of db other) /\
    r1 = DailyReport.set_updated_at
           (DailyReport.set_last_modified_by_id
              (DailyReport.set_is_late_submission r
                 (DailyReport.is_late_submission r || past_hourly_deadline r now))
              (Some (User.id current_user)))
           (Some now) /\
    DailyReport.id r1 = DailyReport.id r /\
    DailyReport.date r1 = DailyReport.date r /\
    DailyReport.power_plant_id r1 = DailyReport.power_plant_id r /\
    DailyReport.gas_loss r1 = DailyReport.gas_loss r /\
    DailyReport.ncc_loss r1 = DailyReport.ncc_loss r /\
    DailyReport.internal_loss r1 = DailyReport.internal_loss r /\
    DailyReport.gas_consumed r1 = DailyReport.gas_consumed r /\
    DailyReport.declaration_total r1 = DailyReport.declaration_total r /\
    DailyReport.availability_capacity r1 = DailyReport.availability_capacity r /\
    derived_fields r1 = derived_fields r /\
    DailyReport.submission_deadline r1 = DailyReport.submission_deadline r.
Proof.
  unfold Endpoints.update_hourly_readings.
  destruct (first (has_report_id report_id) (daily_reports db)) as [r|] eqn:Hr;
    [|discriminate].
  destruct (Endpoints.check_permission _ _ _); [|discriminate].
  destruct (Endpoints.apply_readings _ _ _ _ _ _ _) as [rows|] eqn:Hloop; [|discriminate].
  intros H. injection H as <- _.
  fold (past_hourly_deadline r now).
  destruct (track_late_keeps (past_hourly_deadline r now) r) as (Hid & _ & _).
  exists r. eexists. split; [exact Hr|]. split.
  { apply report_of_commit with (r := r); [exact Hr|].
    cbn. rewrite Hid. exact (report_of_id Hr). }
  split; [reflexivity|]. split; [reflexivity|].
  split.
  { cbn. apply track_late_flag. }
  split; [reflexivity|]. split; [reflexivity|]. split; [reflexivity|].
  split; [reflexivity|].
  split.
  { unfold foreign_hourly_rows. cbn.
    exact (apply_readings_foreign autoflush _ _ _ _ _ _ _ Hloop). }
  split.
  { intros other Hne.
    etransitivity; [apply report_of_commit_other|reflexivity].
    cbn. rewrite Hid, (report_of_id Hr). congruence. }
  unfold Endpoints.touch. rewrite track_late_eq.
  repeat split.
Qed.

Lemma hourly_update_frame_witness :
  exists db1 keys r1,
    Endpoints.update_hourly_readings true Scenario.after_daily_update 1%N
      Scenario.hourly_update Scenario.editor 200000%Z = (db1, Ok keys) /\
    report_of db1 1%N = Some r1 /\
    DailyReport.is_late_submission r1 = true.
Proof.
  eexists. eexists.
  assert (H : Endpoints.update_hourly_readings true Scenario.after_daily_update 1%N
                Scenario.hourly_update Scenario.editor 200000%Z = (_, Ok _))
    by (vm_compute; reflexivity).
  destruct (hourly_update_frame true Scenario.after_daily_update 1%N
              Scenario.hourly_update Scenario.editor 200000%Z _ _ H)
    as (r & r1 & Hr & Hr1 & _ & _ & Hl & _).
  exists r1. split; [exact H|]. split; [exact Hr1|].
  rewrite Hl. vm_compute in Hr. injection Hr as <-. reflexivity.
Defined.

(** ** What the hourly update stores *)

Lemma first_app {A} (p : A -> bool) (l l' : list A) :
  first p (l ++ l') = match first p l with Some x => Some x | None => first p l' end.
Proof.
  unfold first. induction l as [|a l IH]; cbn; [reflexivity|].
  now destruct (p a).
Qed.

Section HourlyRoundTrip.
Import Endpoints.
Variable autoflush : bool.
Variable report_id : uuid.
Variable plant_id : Z.
Variable db : Session.
Variable committed : list TurbineHourlyGeneration.t.

Let key (x : HourlyReadingUpdate) : Z * Z := (hr_turbine_id x, hr_hour x).






End HourlyRoundTrip.



(** ** [update_daily_report] *)

(** Every call of [Service] returns; it writes the row of the report at
    most, and keeps the columns it does not compute. *)
Lemma service_outcome (db : Session) (report_id : uuid) :
  exists db1,
    Service.calculate_and_update_all_metrics db report_id = Ok db1 /\
    power_plants db1 = power_plants db /\
    morning_readings db1 = morning_readings db /\
    turbine_daily_stats db1 = turbine_daily_stats db /\
    turbine_hourly_generations db1 = turbine_hourly_generations db /\
    turbines db1 = turbines db /\
    (forall other, other <> report_id -> report_of db1 other = report_of db other) /\
    (forall r, report_of db report_id = Some r ->
     exists r1, report_of db1 report_id = Some r1 /\ same_inputs r r1).
Proof.
  assert (Hrefl : forall r, same_inputs r r) by (intros r; repeat split).
  destruct (report_of db report_id) as [r|] eqn:Hr.
  2:{ exists db. split; [apply unresolved_noop_service; now left|].
      repeat split. intros r H. discriminate. }
  destruct (plant_of db r) as [p|] eqn:Hp.
  2:{ exists db. split; [apply unresolved_noop_service; right; eauto|].
      repeat split. intros r0 H. injection H as <-. eauto. }
  destruct (service_run Hr Hp) as (r1 & H1 & P & Hrun & Hr1).
  exists (commit_report db r1). split; [exact Hrun|].
  destruct (service_compute_metrics_keeps H1) as (Hid & _).
  repeat split.
  - intros other Hne. apply report_of_commit_other.
    rewrite Hid, (report_of_id Hr). congruence.
  - intros r0 H. injection H as <-. exists r1. split; [exact Hr1|]. apply P.
Qed.

Section DailyEndpointFacts.
Import DailyReport Endpoints.

Lemma update_basic_fields_derived rin r :
  derived_fields (update_basic_fields rin r) = derived_fields r /\
  is_late_submission (update_basic_fields rin r) = is_late_submission r.
Proof.
  unfold update_basic_fields.
  destruct (in_gas_loss rin), (in_ncc_loss rin), (in_internal_loss rin),
    (in_gas_consumed rin), (in_declaration_total rin),
    (in_availability_capacity rin); split; reflexivity.
Qed.



(** A written row belongs to the report. *)
Lemma stats_at_report rid t s :
  stats_at rid t s = true -> TurbineDailyStats.daily_report_id s = rid.
Proof. unfold stats_at. intros H. apply andb_prop in H. now apply N.eqb_eq. Qed.

Lemma update_first_foreign rid t new l :
  TurbineDailyStats.daily_report_id new = rid ->
  filter (fun s => negb (N.eqb (TurbineDailyStats.daily_report_id s) rid))
    (update_first (stats_at rid t) new l)
  = filter (fun s => negb (N.eqb (TurbineDailyStats.daily_report_id s) rid)) l.
Proof.
  intros Hn. induction l as [|a l IH]; cbn; [reflexivity|].
  destruct (stats_at rid t a) eqn:K; cbn.
  - rewrite Hn, (stats_at_report _ _ _ K), N.eqb_refl. reflexivity.
  - now rewrite IH.
Qed.

(** The loop over the turbine stats: it ends normally iff every entry names
    a turbine of the plant, and it writes the daily rows of the report and
    the row of the report only. *)
Lemma apply_turbine_stats_spec rid report stats : forall db r,
  id report = rid -> report_of db rid = Some r ->
  exists db1,
    apply_turbine_stats rid report db stats
    = (db1, if forallb (fun x => turbine_known db (power_plant_id report)
                                    (ts_turbine_id x)) stats
            then Ok tt else Raise (HTTPException HTTP_404_NOT_FOUND)) /\
    power_plants db1 = power_plants db /\
    morning_readings db1 = morning_readings db /\
    turbine_hourly_generations db1 = turbine_hourly_generations db /\
    turbines db1 = turbines db /\
    foreign_daily_rows db1 rid = foreign_daily_rows db rid /\
    (forall other, other <> rid -> report_of db1 other = report_of db other) /\
    (report_of db1 rid = Some r \/ report_of db1 rid = Some report) /\
    (db1 = db \/ report_of db1 rid = Some report).
Proof.
  induction stats as [|u stats IH]; intros db r Hid Hr; cbn.
  - exists db. repeat split; auto.
  - unfold turbine_known at 1.
    destruct (first _ (turbines db)) as [tb|]; cbn.
    2:{ exists db. repeat split; auto. }
    match goal with
    | |- context [apply_turbine_stats rid report ?d stats] => set (db' := d)
    end.
    assert (Hr' : report_of db' rid = Some report).
    { apply report_of_commit with (r := r); [exact Hr | exact Hid]. }
    destruct (IH db' report Hid Hr')
      as (db1 & Hrun & Hp & Hm & Hh & Ht & Hf & Ho & Hrow & _).
    exists db1. split; [exact Hrun|].
    split; [exact Hp|]. split; [exact Hm|]. split; [exact Hh|]. split; [exact Ht|].
    split; [|split; [|split]].
    + rewrite Hf. unfold foreign_daily_rows, db'. cbn.
      destruct (first (stats_at rid (ts_turbine_id u)) (turbine_daily_stats db))
        as [s|] eqn:E.
      * apply update_first_foreign. cbn.
        exact (stats_at_report _ _ _ (first_holds _ _ _ E)).
      * rewrite filter_app. cbn. rewrite N.eqb_refl. cbn. apply app_nil_r.
    + intros other Hne. rewrite (Ho other Hne). unfold db'.
      etransitivity; [apply report_of_commit_other|reflexivity]. congruence.
    + right. destruct Hrow as [H | H]; exact H.
    + right. destruct Hrow as [H | H]; exact H.
Qed.




End DailyEndpointFacts.

Section DailyUpdateRun.
Import DailyReport Endpoints.

(** The report the endpoint works on after its checks. *)
Lemma edited_report_keeps rin pd r :
  id (update_basic_fields rin (track_late pd r)) = id r /\
  power_plant_id (update_basic_fields rin (track_late pd r)) = power_plant_id r /\
  derived_fields (update_basic_fields rin (track_late pd r)) = derived_fields r.
Proof.
  destruct (update_basic_fields_keeps rin (track_late pd r)) as [-> ->].
  destruct (update_basic_fields_derived rin (track_late pd r)) as [-> _].
  destruct (track_late_keeps pd r) as (-> & -> & ->). auto.
Qed.

(** The steps of a call that passes the checks: the loop, then the commit
    of the report, the engine and the refresh. *)
Lemma update_daily_report_run db rid rin u now r :
  report_of db rid = Some r ->
  permitted u (power_plant_id r) (past_report_deadline r now) = true ->
  let r2 := update_basic_fields rin (track_late (past_report_deadline r now) r) in
  let r3 := touch u now r2 in
  let stats := or_else (in_turbine_stats rin) [] in
  let known := forallb (fun x => turbine_known db (power_plant_id r) (ts_turbine_id x))
                 stats in
  exists db2,
    apply_turbine_stats rid r2 db stats
    = (db2, if known then Ok tt else Raise (HTTPException HTTP_404_NOT_FOUND)) /\
    (power_plants db2 = power_plants db /\
     morning_readings db2 = morning_readings db /\
     turbine_hourly_generations db2 = turbine_hourly_generations db /\
     turbines db2 = turbines db /\
     foreign_daily_rows db2 rid = foreign_daily_rows db rid /\
     (forall other, other <> rid -> report_of db2 other = report_of db other)) /\
    (report_of db2 rid = Some r \/ report_of db2 rid = Some r2) /\
    report_of (commit_report db2 r3) rid = Some r3 /\
    update_daily_report db rid rin u now
    = (if known
       then match Service.calculate_and_update_all_metrics (commit_report db2 r3) rid with
            | Ok db1 => (db1, Ok (or_else (report_of db1 rid) r3))
            | Raise e => (commit_report db2 r3, Raise e)
            end
       else (db2, Raise (HTTPException HTTP_404_NOT_FOUND))).
Proof.
  intros Hr Hperm r2 r3 stats known.
  destruct (edited_report_keeps rin (past_report_deadline r now) r) as (Hid & Hpl & _).
  fold r2 in Hid, Hpl. rewrite (report_of_id Hr) in Hid.
  destruct (apply_turbine_stats_spec rid r2 stats db r Hid Hr)
    as (db2 & Hrun & Hp & Hm & Hh & Ht & Hf & Ho & Hrow & _).
  rewrite Hpl in Hrun. fold known in Hrun.
  exists db2. split; [exact Hrun|]. split; [auto 10|]. split; [exact Hrow|].
  split.
  { destruct Hrow as [Hrow | Hrow];
      eapply report_of_commit; try exact Hrow; exact Hid. }
  unfold update_daily_report.
  unfold report_of in Hr. rewrite Hr.
  rewrite check_permission_spec. fold (past_report_deadline r now). rewrite Hperm.
  fold r2. fold stats. rewrite Hrun.
  destruct known; [|reflexivity].
  fold r3. change (id r3) with (id r2). rewrite Hid. reflexivity.
Qed.

End DailyUpdateRun.

(** [update_daily_report] answers 404 for a missing report and 403 for a
    user who may not write (not an editor and either of another plant or
    past the submission deadline), leaving the session as it was.  Past the
    checks it succeeds exactly when every entry of [turbine_stats] names a
    turbine of the plant, and the response is then the stored row of the
    report; otherwise it answers 404. *)
Theorem daily_update_outcome (db : Session) (report_id : uuid)
  (report_in : Endpoints.DailyReportUpdate) (current_user : User.t) (now : DateTime) :
  match report_of db report_id with
  | None =>
      Endpoints.update_daily_report db report_id report_in current_user now
      = (db, Raise (HTTPException 404))
  | Some r =>
      if negb (permitted current_user (DailyReport.power_plant_id r)
                 (past_report_deadline r now))
      then Endpoints.update_daily_report db report_id report_in current_user now
           = (db, Raise (HTTPException 403))
      else if forallb
                (fun x => turbine_known db (DailyReport.power_plant_id r)
                            (Endpoints.ts_turbine_id x))
                (Endpoints.or_else (Endpoints.in_turbine_stats report_in) [])
      then exists db1 response,
             Endpoints.update_daily_report db report_id report_in current_user now
             = (db1, Ok response) /\
             report_of db1 report_id = Some response
      else exists db1,
             Endpoints.update_daily_report db report_id report_in current_user now
             = (db1, Raise (HTTPException 404))
  end.
Proof.
  destruct (report_of db report_id) as [r|] eqn:Hr.
  2:{ unfold Endpoints.update_daily_report. unfold report_of in Hr. now rewrite Hr. }
  destruct (permitted current_user (DailyReport.power_plant_id r)
              (past_report_deadline r now)) eqn:Hperm; cbn [negb].
  2:{ unfold Endpoints.update_daily_report. unfold report_of in Hr. rewrite Hr.
      rewrite check_permission_spec. fold (past_report_deadline r now).
      now rewrite Hperm. }
  destruct (update_daily_report_run db report_id report_in current_user now r Hr Hperm)
    as (db2 & _ & _ & _ & Hr3 & Hrun).
  rewrite Hrun.
  destruct (forallb _ _); [|eauto].
  match goal with
  | |- context [commit_report db2 ?x] => set (r3 := x) in *
  end.
  destruct (service_outcome (commit_report db2 r3) report_id)
    as (db1 & Hs & _ & _ & _ & _ & _ & _ & Hrow1).
  destruct (Hrow1 r3 Hr3) as (r4 & Hr4 & _).
  rewrite Hs, Hr4. cbn. eauto.
Qed.

(** A failed [update_daily_report] is not all or nothing.  It answers 403
    or 404; on 403 and on a missing report the session is as it was, but
    an entry of [turbine_stats] that names an unknown turbine stops the
    call after the entries before it were committed.  In every case the
    eleven derived columns of the report are the ones it had (nothing is
    recomputed), and the other tables and the rows of the other reports
    are untouched. *)
Theorem daily_update_failure (db : Session) (report_id : uuid)
  (report_in : Endpoints.DailyReportUpdate) (current_user : User.t) (now : DateTime)
  (db1 : Session) (e : exn) :
  Endpoints.update_daily_report db report_id report_in current_user now
  = (db1, Raise e) ->
  (e = HTTPException 403 \/ e = HTTPException 404) /\
  (e = HTTPException 403 -> db1 = db) /\
  (report_of db report_id = None -> db1 = db) /\
  power_plants db1 = power_plants db /\
  morning_readings db1 = morning_readings db /\
  turbine_hourly_generations db1 = turbine_hourly_generations db /\
  turbines db1 = turbines db /\
  foreign_daily_rows db1 report_id = foreign_daily_rows db report_id /\
  (forall other, other <> report_id -> report_of db1 other = report_of db other) /\
  (forall r, report_of db report_id = Some r ->
   exists r1, report_of db1 report_id = Some r1 /\
              derived_fields r1 = derived_fields r).
Proof.
  intros H.
  destruct (report_of db report_id) as [r|] eqn:Hr.
  2:{ unfold Endpoints.update_daily_report in H. unfold report_of in Hr.
      rewrite Hr in H. injection H as <- <-.
      repeat split; auto. intros r Hr0. discriminate. }
  destruct (permitted current_user (DailyReport.power_plant_id r)
              (past_report_deadline r now)) eqn:Hperm.
  2:{ unfold Endpoints.update_daily_report in H.
      pose proof Hr as Hr'. unfold report_of in Hr'.
      rewrite Hr' in H. rewrite check_permission_spec in H.
      fold (past_report_deadline r now) in H. rewrite Hperm in H.
      injection H as <- <-.
      split; [now left|]. repeat split; auto.
      intros r0 Hr0. injection Hr0 as <-. exists r. auto. }
  destruct (update_daily_report_run db report_id report_in current_user now r Hr Hperm)
    as (db2 & _ & Hframe & Hrow & Hr3 & Hrun).
  rewrite Hrun in H. clear Hrun.
  destruct (forallb _ _).
  { match type of H with
    | context [commit_report db2 ?x] => set (r3 := x) in *
    end.
    destruct (service_outcome (commit_report db2 r3) report_id) as (db' & Hs & _).
    rewrite Hs in H. discriminate. }
  injection H as <- <-.
  destruct Hframe as (Hp & Hm & Hh & Ht & Hf & Ho).
  split; [now right|]. split; [discriminate|]. split; [discriminate|].
  repeat split; auto.
  intros r0 Hr0. injection Hr0 as <-.
  destruct Hrow as [Hrow | Hrow]; rewrite Hrow; eexists; split; try reflexivity.
  apply edited_report_keeps.
Qed.

Lemma daily_update_failure_witness :
  exists db1 r r1,
    Endpoints.update_daily_report Scenario.after_daily_update 1%N
      Requests.unknown_turbine Scenario.operator 7200%Z
    = (db1, Raise (HTTPException 404)) /\
    report_of Scenario.after_daily_update 1%N = Some r /\
    report_of db1 1%N = Some r1 /\
    derived_fields r1 = derived_fields r /\
    holds (DailyReport.energy_generated r1) (of_Z 40) = true /\
    deqb (daily_generated db1 1%N) (of_Z 130) = true.
Proof.
  assert (H : exists db1,
             Endpoints.update_daily_report Scenario.after_daily_update 1%N
               Requests.unknown_turbine Scenario.operator 7200%Z
             = (db1, Raise (HTTPException 404)) /\
             match report_of db1 1%N with
             | Some r1 => holds (DailyReport.energy_generated r1) (of_Z 40)
             | None => false
             end = true /\
             deqb (daily_generated db1 1%N) (of_Z 130) = true).
  { eexists. split; [vm_compute; reflexivity|]. split; vm_compute; reflexivity. }
  destruct H as (db1 & H & Hg & Hd).
  destruct (report_of Scenario.after_daily_update 1%N) as [r|] eqn:Hr;
    [|vm_compute in Hr; discriminate].
  destruct (daily_update_failure _ _ _ _ _ _ _ H)
    as (_ & _ & _ & _ & _ & _ & _ & _ & _ & Hrow).
  destruct (Hrow r Hr) as (r1 & Hr1 & Hder).
  exists db1, r, r1. split; [exact H|]. split; [reflexivity|].
  split; [exact Hr1|]. split; [exact Hder|].
  rewrite Hr1 in Hg. auto.
Defined.

Section DailyUpdateSuccess.
Import DailyReport Endpoints.


End DailyUpdateSuccess.





(** * Ordered queries *)

Section OrderBy.
Context {A : Type} (leb : A -> A -> bool).

Lemma insert_by_perm x l : Permutation (insert_by leb x l) (x :: l).
Proof.
  induction l as [|y l IH]; cbn; [reflexivity|].
  destruct (leb x y); [reflexivity|].
  rewrite IH. apply perm_swap.
Qed.

Lemma order_by_perm l : Permutation (order_by leb l) l.
Proof.
  induction l as [|x l IH]; cbn; [reflexivity|].
  rewrite insert_by_perm. now constructor.
Qed.

Lemma order_by_in x l : In x (order_by leb l) <-> In x l.
Proof.
  split; apply Permutation_in; [|symmetry]; apply order_by_perm.
Qed.

Hypothesis leb_total : forall a b, leb a b = true \/ leb b a = true.
Hypothesis leb_trans : forall a b c, leb a b = true -> leb b c = true -> leb a c = true.

Lemma insert_by_sorted x l :
  StronglySorted (fun a b => leb a b = true) l ->
  StronglySorted (fun a b => leb a b = true) (insert_by leb x l).
Proof.
  induction 1 as [|y l Hs IH Hall]; cbn.
  - constructor; constructor.
  - destruct (leb x y) eqn:E.
    + constructor; [now constructor|]. constructor; [exact E|].
      eapply Forall_impl; [|exact Hall]. intros z Hz. cbn in Hz. eauto.
    + constructor; [exact IH|].
      eapply Permutation_Forall; [symmetry; apply insert_by_perm|].
      constructor; [|exact Hall].
      destruct (leb_total x y) as [K | K]; [congruence | exact K].
Qed.

Lemma order_by_sorted l : StronglySorted (fun a b => leb a b = true) (order_by leb l).
Proof.
  induction l as [|x l IH]; cbn; [constructor|]. now apply insert_by_sorted.
Qed.

End OrderBy.

Lemma StronglySorted_weaken {A} (R R' : A -> A -> Prop) (l : list A) :
  (forall a b, R a b -> R' a b) -> StronglySorted R l -> StronglySorted R' l.
Proof.
  intros HR. induction 1 as [|x l Hs IH Hall]; constructor; [exact IH|].
  eapply Forall_impl; [|exact Hall]. intros b. apply HR.
Qed.

Lemma by_turbine_and_hour_total a b :
  HourlyReadings.by_turbine_and_hour a b = true \/
  HourlyReadings.by_turbine_and_hour b a = true.
Proof.
  unfold HourlyReadings.by_turbine_and_hour.
  rewrite !orb_true_iff, !andb_true_iff, !Z.ltb_lt, !Z.eqb_eq, !Z.leb_le. lia.
Qed.

Lemma by_turbine_and_hour_trans a b c :
  HourlyReadings.by_turbine_and_hour a b = true ->
  HourlyReadings.by_turbine_and_hour b c = true ->
  HourlyReadings.by_turbine_and_hour a c = true.
Proof.
  unfold HourlyReadings.by_turbine_and_hour.
  rewrite !orb_true_iff, !andb_true_iff, !Z.ltb_lt, !Z.eqb_eq, !Z.leb_le. lia.
Qed.

(** [get_hourly_readings] answers 404 exactly when the report is missing.
    Otherwise it returns the hourly records of the report (of the one
    turbine, when a turbine is given): each of them as often as it is
    stored and no other record, in ascending order of (turbine, hour). *)
Theorem get_hourly_readings_lists_records (db : Session) (report_id : uuid)
  (turbine_id : option Z) :
  match report_of db report_id with
  | None =>
      HourlyReadings.get_hourly_readings db report_id turbine_id
      = Raise (HTTPException 404)
  | Some _ =>
      exists readings,
        HourlyReadings.get_hourly_readings db report_id turbine_id = Ok readings /\
        Permutation readings
          (filter (fun h => match turbine_id with
                            | Some t => Z.eqb (TurbineHourlyGeneration.turbine_id h) t
                            | None => true
                            end)
             (hourly_rows db report_id)) /\
        StronglySorted
          (fun a b =>
             (TurbineHourlyGeneration.turbine_id a < TurbineHourlyGeneration.turbine_id b)%Z \/
             (TurbineHourlyGeneration.turbine_id a = TurbineHourlyGeneration.turbine_id b /\
              (TurbineHourlyGeneration.hour a <= TurbineHourlyGeneration.hour b)%Z))
          readings
  end.
Proof.
  unfold HourlyReadings.get_hourly_readings, report_of.
  destruct (first (has_report_id report_id) (daily_reports db)) as [r|]; [|reflexivity].
  eexists. split; [reflexivity|]. split.
  - rewrite order_by_perm. fold (hourly_rows db report_id).
    destruct turbine_id as [t|]; [reflexivity|].
    induction (hourly_rows db report_id) as [|h l IH]; cbn; [reflexivity|].
    now constructor.
  - eapply StronglySorted_weaken;
      [|apply order_by_sorted;
        [apply by_turbine_and_hour_total | apply by_turbine_and_hour_trans]].
    intros a b H. unfold HourlyReadings.by_turbine_and_hour in H.
    rewrite orb_true_iff, andb_true_iff, Z.ltb_lt, Z.eqb_eq, Z.leb_le in H. exact H.
Qed.

(** * Writing and reading the hourly records *)




(** * The read path *)

Section ReadPath.
Import DailyReport DailyReports.

Lemma zero_if_none_some o : exists v, zero_if_none o = Some v.
Proof. destruct o; cbn; eauto. Qed.

Lemma some_zero_if_none o : exists v, Some (zero_if_none o) = Some (Some v).
Proof. destruct o; cbn; eauto. Qed.

Lemma get_decimal_value_id o : ServiceQueries.get_decimal_value o = o.
Proof. now destruct o. Qed.

Lemma dict_set_same {V} (d : Dict V) key v :
  dict_get d key = Some v -> dict_set d key v = d.
Proof.
  induction d as [|[k w] d IH]; cbn; [discriminate|].
  destruct (String.eqb k key); intros H.
  - now injection H as ->.
  - now rewrite IH.
Qed.

Lemma fill_key_present d key o :
  dict_get d key = Some o -> fill_key d key = dict_set d key (zero_if_none o).
Proof.
  unfold fill_key. intros H. rewrite H.
  destruct o; [symmetry; now apply dict_set_same | reflexivity].
Qed.

(** The loop over [required_keys] on the dictionary of
    [get_calculations_by_id]. *)
Lemma fill_required_calculations (o1 o2 o3 o4 o5 o6 o7 o8 o9 o10 o11 : option decimal) :
  fill_required
    [ ("availability_factor"%string, o1); ("plant_heat_rate"%string, o2);
      ("thermal_efficiency"%string, o3); ("energy_generated"%string, o4);
      ("energy_exported"%string, o5); ("energy_consumed"%string, o6);
      ("availability_forecast"%string, o7); ("dependability_index"%string, o8);
      ("avg_energy_sent_out"%string, o9); ("gas_utilization"%string, o10);
      ("load_factor"%string, o11) ]
  = [ ("availability_factor"%string, zero_if_none o1);
      ("plant_heat_rate"%string, zero_if_none o2);
      ("thermal_efficiency"%string, zero_if_none o3);
      ("energy_generated"%string, zero_if_none o4);
      ("energy_exported"%string, zero_if_none o5);
      ("energy_consumed"%string, zero_if_none o6);
      ("availability_forecast"%string, zero_if_none o7);
      ("dependability_index"%string, zero_if_none o8);
      ("avg_energy_sent_out"%string, zero_if_none o9);
      ("gas_utilization"%string, zero_if_none o10);
      ("load_factor"%string, zero_if_none o11) ].
Proof.
  unfold fill_required, required_keys. cbn [fold_left].
  repeat match goal with
         | |- context [fill_key ((?k0, ?v0) :: ?rest) ?key] =>
             rewrite (fill_key_present ((k0, v0) :: rest) key _ eq_refl);
             cbn [dict_set String.eqb Ascii.eqb Bool.eqb]
         end.
  reflexivity.
Qed.

Lemma first_some_of {A} (p q : A -> bool) (l : list A) (x : A) :
  first p l = Some x -> q x = true -> exists y, first q l = Some y.
Proof.
  intros H Hq. apply find_some in H. destruct H as [Hin _].
  unfold first. destruct (find q l) as [y|] eqn:E; [eauto|].
  pose proof (find_none _ _ E x Hin). congruence.
Qed.

End ReadPath.

(** [read_daily_report_by_plant_and_date] answers 404 exactly when the
    plant has no report for the date.  Otherwise the dictionary of the
    calculations has the eleven required keys, in their order, and no null
    value: each holds the stored column, 0.0 where that is null.  Of the
    derived columns at the top level of the response ten are patched in the
    same way (the stored value, 0.0 where it is null), but
    [total_energy_exported] is passed on as stored, as are the other
    columns of the report; the lists are the daily rows and the hourly
    records of the report. *)
Theorem read_report_never_null (db : Session) (plant_id : Z) (report_date : Date) :
  match report_on db plant_id report_date with
  | None =>
      DailyReports.read_daily_report_by_plant_and_date db plant_id report_date
      = Raise (HTTPException 404)
  | Some r =>
      exists response stored,
        DailyReports.read_daily_report_by_plant_and_date db plant_id report_date
        = Ok response /\
        report_of db (DailyReport.id r) = Some stored /\
        DailyReports.calculations response
        = [ ("availability_factor"%string,
             DailyReports.zero_if_none (DailyReport.availability_factor stored));
            ("plant_heat_rate"%string,
             DailyReports.zero_if_none (DailyReport.plant_heat_rate stored));
            ("thermal_efficiency"%string,
             DailyReports.zero_if_none (DailyReport.thermal_efficiency stored));
            ("energy_generated"%string,
             DailyReports.zero_if_none (DailyReport.energy_generated stored));
            ("energy_exported"%string,
             DailyReports.zero_if_none (DailyReport.total_energy_exported stored));
            ("energy_consumed"%string,
             DailyReports.zero_if_none (DailyReport.energy_consumed stored));
            ("availability_forecast"%string,
             DailyReports.zero_if_none (DailyReport.availability_forecast stored));
            ("dependability_index"%string,
             DailyReports.zero_if_none (DailyReport.dependability_index stored));
            ("avg_energy_sent_out"%string,
             DailyReports.zero_if_none (DailyReport.avg_energy_sent_out stored));
            ("gas_utilization"%string,
             DailyReports.zero_if_none (DailyReport.gas_utilization stored));
            ("load_factor"%string,
             DailyReports.zero_if_none (DailyReport.load_factor stored)) ] /\
        (forall key, In key DailyReports.required_keys ->
           exists v, dict_get (DailyReports.calculations response) key = Some (Some v)) /\
        Forall (fun column => exists v, column = Some v)
          [ DailyReport.availability_factor (DailyReports.report_dict response);
            DailyReport.plant_heat_rate (DailyReports.report_dict response);
            DailyReport.thermal_efficiency (DailyReports.report_dict response);
            DailyReport.energy_generated (DailyReports.report_dict response);
            DailyReport.energy_consumed (DailyReports.report_dict response);
            DailyReport.availability_forecast (DailyReports.report_dict response);
            DailyReport.dependability_index (DailyReports.report_dict response);
            DailyReport.avg_energy_sent_out (DailyReports.report_dict response);
            DailyReport.gas_utilization (DailyReports.report_dict response);
            DailyReport.load_factor (DailyReports.report_dict response) ] /\
        DailyReport.total_energy_exported (DailyReports.report_dict response)
        = DailyReport.total_energy_exported r /\
        DailyReport.availability_factor (DailyReports.report_dict response)
        = DailyReports.zero_if_none (DailyReport.availability_factor r) /\
        DailyReport.plant_heat_rate (DailyReports.report_dict response)
        = DailyReports.zero_if_none (DailyReport.plant_heat_rate r) /\
        DailyReport.thermal_efficiency (DailyReports.report_dict response)
        = DailyReports.zero_if_none (DailyReport.thermal_efficiency r) /\
        DailyReport.energy_generated (DailyReports.report_dict response)
        = DailyReports.zero_if_none (DailyReport.energy_generated r) /\
        DailyReport.energy_consumed (DailyReports.report_dict response)
        = DailyReports.zero_if_none (DailyReport.energy_consumed r) /\
        DailyReport.availability_forecast (DailyReports.report_dict response)
        = DailyReports.zero_if_none (DailyReport.availability_forecast r) /\
        DailyReport.dependability_index (DailyReports.report_dict response)
        = DailyReports.zero_if_none (DailyReport.dependability_index r) /\
        DailyReport.avg_energy_sent_out (DailyReports.report_dict response)
        = DailyReports.zero_if_none (DailyReport.avg_energy_sent_out r) /\
        DailyReport.gas_utilization (DailyReports.report_dict response)
        = DailyReports.zero_if_none (DailyReport.gas_utilization r) /\
        DailyReport.load_factor (DailyReports.report_dict response)
        = DailyReports.zero_if_none (DailyReport.load_factor r) /\
        same_inputs r (DailyReports.report_dict response) /\
        DailyReport.declaration_total (DailyReports.report_dict response)
        = DailyReport.declaration_total r /\
        DailyReport.availability_capacity (DailyReports.report_dict response)
        = DailyReport.availability_capacity r /\
        DailyReports.turbine_stats response = daily_rows db (DailyReport.id r) /\
        Permutation (DailyReports.hourly_readings response)
          (hourly_rows db (DailyReport.id r))
  end.
Proof.
  unfold report_on, DailyReports.read_daily_report_by_plant_and_date.
  destruct (first _ (daily_reports db)) as [r|] eqn:Hr; [|reflexivity].
  destruct (first_some_of _ (has_report_id (DailyReport.id r)) _ _ Hr (N.eqb_refl _))
    as [stored Hs].
  eexists. exists stored. split; [reflexivity|]. split; [exact Hs|].
  assert (Hc : DailyReports.fill_required
                 (ServiceQueries.get_calculations_by_id db (DailyReport.id r))
               = [ ("availability_factor"%string,
                    DailyReports.zero_if_none (DailyReport.availability_factor stored));
                   ("plant_heat_rate"%string,
                    DailyReports.zero_if_none (DailyReport.plant_heat_rate stored));
                   ("thermal_efficiency"%string,
                    DailyReports.zero_if_none (DailyReport.thermal_efficiency stored));
                   ("energy_generated"%string,
                    DailyReports.zero_if_none (DailyReport.energy_generated stored));
                   ("energy_exported"%string,
                    DailyReports.zero_if_none (DailyReport.total_energy_exported stored));
                   ("energy_consumed"%string,
                    DailyReports.zero_if_none (DailyReport.energy_consumed stored));
                   ("availability_forecast"%string,
                    DailyReports.zero_if_none (DailyReport.availability_forecast stored));
                   ("dependability_index"%string,
                    DailyReports.zero_if_none (DailyReport.dependability_index stored));
                   ("avg_energy_sent_out"%string,
                    DailyReports.zero_if_none (DailyReport.avg_energy_sent_out stored));
                   ("gas_utilization"%string,
                    DailyReports.zero_if_none (DailyReport.gas_utilization stored));
                   ("load_factor"%string,
                    DailyReports.zero_if_none (DailyReport.load_factor stored)) ]).
  { unfold ServiceQueries.get_calculations_by_id. rewrite Hs.
    rewrite fill_required_calculations.
    rewrite !get_decimal_value_id. reflexivity. }
  cbn [DailyReports.calculations DailyReports.report_dict]. rewrite Hc.
  split; [reflexivity|]. split.
  - intros key Hin. unfold DailyReports.required_keys in Hin.
    repeat (destruct Hin as [<- | Hin]; [cbn; apply some_zero_if_none|]).
    destruct Hin.
  - split; [repeat (constructor; [apply zero_if_none_some|]); constructor|].
    split; [reflexivity|].
    repeat (split; [reflexivity|]).
    split; [unfold same_inputs; cbn; repeat split|].
    split; [reflexivity|]. split; [reflexivity|]. split; [reflexivity|].
    apply order_by_perm.
Qed.

(** * The metric queries *)

Section MetricQueries.
Import DailyReport ServiceQueries.

Lemma valid_metric_iff name :
  existsb (String.eqb name) valid_metrics = true <-> In name valid_metrics.
Proof.
  rewrite existsb_exists. split.
  - intros (x & Hx & E). apply String.eqb_eq in E. now subst.
  - intros H. exists name. split; [exact H | apply String.eqb_refl].
Qed.

(** The special case for [energy_exported] is dead code: no valid name
    reaches it. *)
Lemma valid_metric_value name r :
  In name valid_metrics -> metric_value r name = getattr r name.
Proof.
  unfold valid_metrics, metric_value. intros H.
  repeat (destruct H as [<- | H]; [reflexivity|]). destruct H.
Qed.

Lemma flat_map_sorted {A B} (R : A -> A -> Prop) (R' : B -> B -> Prop)
  (f : A -> list B) (l : list A) :
  (forall a, StronglySorted R' (f a)) ->
  (forall a b x y, R a b -> In x (f a) -> In y (f b) -> R' x y) ->
  StronglySorted R l -> StronglySorted R' (flat_map f l).
Proof.
  intros Hf HR. induction 1 as [|a l Hs IH Hall]; cbn; [constructor|].
  pose proof (Hf a) as Ha. revert Ha.
  assert (Hcross : forall x, In x (f a) -> Forall (R' x) (flat_map f l)).
  { intros x Hx. apply Forall_forall. intros y Hy.
    apply in_flat_map in Hy. destruct Hy as (b & Hb & Hy).
    rewrite Forall_forall in Hall. eauto. }
  induction (f a) as [|x xs IHx]; intros Ha; cbn; [exact IH|].
  inversion Ha as [|? ? Hxs Hx]; subst.
  constructor.
  - apply IHx; [|exact Hxs]. intros z Hz. apply Hcross. now right.
  - apply Forall_app. split; [exact Hx|]. apply Hcross. now left.
Qed.

End MetricQueries.

(** [get_metric_over_time] returns nothing for a name that is not one of
    the ten of [valid_metrics]; [energy_exported], the key under which
    [get_calculations_by_id] reports the export total, is not one of them.
    For a valid name the entries are exactly the (date, value) pairs of the
    plant's reports in the date range whose column is not null (a report
    with a null column is left out, not shown as 0), in ascending order of
    the date. *)
Theorem metric_over_time_entries (db : Session) (plant_id : Z)
  (metric_name : String.string) (start_date end_date : Date) :
  (In metric_name ServiceQueries.valid_metrics ->
   (forall d v,
      In (d, v) (ServiceQueries.get_metric_over_time db plant_id metric_name
                   start_date end_date) <->
      exists r, In r (daily_reports db) /\
                DailyReport.power_plant_id r = plant_id /\
                (start_date <= DailyReport.date r <= end_date)%Z /\
                DailyReport.date r = d /\
                ServiceQueries.getattr r metric_name = Some v) /\
   StronglySorted (fun a b => (fst a <= fst b)%Z)
     (ServiceQueries.get_metric_over_time db plant_id metric_name start_date end_date)) /\
  (~ In metric_name ServiceQueries.valid_metrics ->
   ServiceQueries.get_metric_over_time db plant_id metric_name start_date end_date = []) /\
  ServiceQueries.get_metric_over_time db plant_id "energy_exported"%string start_date end_date
  = [].
Proof.
  split; [|split; [|reflexivity]].
  - intros Hv. unfold ServiceQueries.get_metric_over_time.
    rewrite (proj2 (valid_metric_iff metric_name) Hv). cbn [negb]. split.
    + intros d v. rewrite in_flat_map. split.
      * intros (r & Hr & Hin). apply order_by_in in Hr. apply filter_In in Hr.
        destruct Hr as [Hmem Hrange]. unfold ServiceQueries.in_date_range in Hrange.
        rewrite !andb_true_iff, Z.eqb_eq, !Z.leb_le in Hrange.
        rewrite (valid_metric_value _ r Hv) in Hin.
        destruct (ServiceQueries.getattr r metric_name) as [w|] eqn:E; [|destruct Hin].
        destruct Hin as [Hin | []]. injection Hin as <- <-.
        exists r. repeat split; tauto.
      * intros (r & Hmem & Hp & Hrange & Hd & Hg). exists r. split.
        -- apply order_by_in. apply filter_In. split; [exact Hmem|].
           unfold ServiceQueries.in_date_range.
           rewrite !andb_true_iff, Z.eqb_eq, !Z.leb_le. tauto.
        -- rewrite (valid_metric_value _ r Hv), Hg, Hd. now left.
    + apply flat_map_sorted with (R := fun a b => ServiceQueries.by_date a b = true).
      * intros a. destruct (ServiceQueries.metric_value a metric_name);
          repeat constructor.
      * intros a b x y Hab Hx Hy. unfold ServiceQueries.by_date in Hab.
        apply Z.leb_le in Hab.
        destruct (ServiceQueries.metric_value a metric_name); [|destruct Hx].
        destruct (ServiceQueries.metric_value b metric_name); [|destruct Hy].
        destruct Hx as [<- | []], Hy as [<- | []]. exact Hab.
      * apply order_by_sorted.
        -- intros a b. unfold ServiceQueries.by_date. rewrite !Z.leb_le. lia.
        -- intros a b c. unfold ServiceQueries.by_date. rewrite !Z.leb_le. lia.
  - intros Hn. unfold ServiceQueries.get_metric_over_time.
    destruct (existsb _ _) eqn:E; [|reflexivity].
    apply valid_metric_iff in E. contradiction.
Qed.

Lemma metric_over_time_entries_witness :
  In "energy_generated"%string ServiceQueries.valid_metrics /\
  In (0%Z, of_Z 40)
    (ServiceQueries.get_metric_over_time Scenario.after_daily_update 1%Z
       "energy_generated"%string 0%Z 6%Z).
Proof.
  assert (Hv : In "energy_generated"%string ServiceQueries.valid_metrics)
    by (cbn; tauto).
  split; [exact Hv|].
  apply (proj1 (proj1 (metric_over_time_entries Scenario.after_daily_update 1%Z
                         "energy_generated"%string 0%Z 6%Z) Hv)).
  destruct (report_of Scenario.after_daily_update 1%N) as [r|] eqn:Hr;
    [|vm_compute in Hr; discriminate].
  exists r. split; [exact (proj1 (find_some _ _ Hr))|].
  assert (Hc : andb (Z.eqb (DailyReport.power_plant_id r) 1%Z)
                 (andb (Z.eqb (DailyReport.date r) 0%Z)
                    (holds (ServiceQueries.getattr r "energy_generated"%string) (of_Z 40)))
               = true).
  { revert Hr. vm_compute. intros Hr. injection Hr as <-. reflexivity. }
  rewrite !andb_true_iff, !Z.eqb_eq in Hc. destruct Hc as (Hp & Hd & Hg).
  split; [exact Hp|]. split; [lia|]. split; [exact Hd|].
  apply holds_iff in Hg. exact Hg.
Defined.

(** * [create_daily_report] *)

Section Creation.
Import DailyReport DailyReports.

Lemma first_ext {A} (p q : A -> bool) (l : list A) :
  (forall x, p x = q x) -> first p l = first q l.
Proof.
  intros H. unfold first. induction l as [|a l IH]; cbn; [reflexivity|].
  now rewrite H, IH.
Qed.

Lemma report_on_create db d plant :
  first (on_date_and_plant d plant) (daily_reports db) = report_on db plant d.
Proof.
  unfold report_on. apply first_ext. intros r.
  unfold on_date_and_plant, ServiceQueries.of_plant_and_date. apply andb_comm.
Qed.

Lemma may_create_test u plant :
  negb (UserRole.eqb (User.role u) UserRole.EDITOR)
  && negb (UserRole.eqb (User.role u) UserRole.OPERATOR)
  && negb (match User.power_plant_id u with
           | Some p => Z.eqb p plant
           | None => false
           end)
  = negb (may_create u plant).
Proof.
  unfold may_create.
  destruct (UserRole.eqb _ UserRole.EDITOR), (UserRole.eqb _ UserRole.OPERATOR),
    (match User.power_plant_id u with Some p => Z.eqb p plant | None => false end);
    reflexivity.
Qed.

Lemma update_first_app_last {A} (q : A -> bool) (l : list A) (x y : A) :
  first q l = None -> q x = true -> update_first q y (l ++ [x]) = l ++ [y].
Proof.
  unfold first. induction l as [|a l IH]; cbn; intros H Hx.
  - now rewrite Hx.
  - destruct (q a); [discriminate|]. now rewrite IH.
Qed.

Lemma initial_rows_of_report new_id stats ts :
  filter (fun s => N.eqb (TurbineDailyStats.daily_report_id s) new_id)
    (map (initial_row new_id stats) ts)
  = map (initial_row new_id stats) ts.
Proof.
  induction ts as [|t ts IH]; cbn; [reflexivity|].
  assert (E : TurbineDailyStats.daily_report_id (initial_row new_id stats t) = new_id).
  { unfold initial_row. now destruct (user_provided_stats stats (Turbine.id t)). }
  rewrite E, N.eqb_refl, IH. reflexivity.
Qed.

Lemma initial_rows_foreign new_id stats ts :
  filter (fun s => negb (N.eqb (TurbineDailyStats.daily_report_id s) new_id))
    (map (initial_row new_id stats) ts) = [].
Proof.
  induction ts as [|t ts IH]; cbn; [reflexivity|].
  assert (E : TurbineDailyStats.daily_report_id (initial_row new_id stats t) = new_id).
  { unfold initial_row. now destruct (user_provided_stats stats (Turbine.id t)). }
  rewrite E, N.eqb_refl, IH. reflexivity.
Qed.

(** The creation of a report that does not exist yet: the session it
    commits and the report it returns. *)
Lemma create_daily_report_new new_id db report_in u p :
  may_create u (c_power_plant_id report_in) = true ->
  first (has_plant_id (c_power_plant_id report_in)) (power_plants db) = Some p ->
  report_on db (c_power_plant_id report_in) (c_date report_in) = None ->
  report_of db new_id = None ->
  daily_rows db new_id = [] ->
  let rows :=
    map (initial_row new_id (Endpoints.or_else (c_initial_turbine_stats report_in) []))
      (turbines_of_plant db (c_power_plant_id report_in)) in
  exists response,
    create_daily_report new_id db report_in u
    = ({| daily_reports := daily_reports db ++ [response];
          power_plants := power_plants db;
          morning_readings := morning_readings db;
          turbine_daily_stats := turbine_daily_stats db ++ rows;
          turbine_hourly_generations := turbine_hourly_generations db;
          turbines := turbines db |}, Ok response) /\
    service_post p
      (first (Service.same_day_reading (new_report new_id report_in u))
         (morning_readings db))
      rows (new_report new_id report_in u) response.
Proof.
  intros Hmay Hp Hnone Hfresh Hrows rows.
  unfold create_daily_report.
  rewrite may_create_test, Hmay. cbn [negb]. rewrite Hp.
  rewrite report_on_create, Hnone. cbv zeta.
  set (new := new_report new_id report_in u).
  change (id new) with new_id.
  fold (turbines_of_plant db (c_power_plant_id report_in)). fold rows.
  match goal with
  | |- context [Service.calculate_and_update_all_metrics ?d new_id] => set (db' := d)
  end.
  assert (Hr : report_of db' new_id = Some new).
  { unfold report_of, db'. cbn. rewrite first_app.
    unfold report_of in Hfresh. rewrite Hfresh. cbn.
    unfold has_report_id. cbn. now rewrite N.eqb_refl. }
  assert (Hpl : plant_of db' new = Some p).
  { unfold plant_of, db'. cbn. exact Hp. }
  destruct (service_run Hr Hpl) as (r1 & H1 & P & Hrun & Hr1).
  rewrite Hrun. unfold report_of in Hr1. rewrite Hr1. cbn [Endpoints.or_else].
  exists r1. split.
  - f_equal. unfold commit_report, with_daily_reports, db'. cbn.
    destruct (service_compute_metrics_keeps H1) as (Hid & _).
    change (id new) with new_id in Hid. rewrite Hid.
    rewrite update_first_app_last; [reflexivity | exact Hfresh |].
    unfold has_report_id. cbn. apply N.eqb_refl.
  - assert (Hd : daily_rows db' new_id = rows).
    { unfold daily_rows, db'. cbn. rewrite filter_app.
      unfold daily_rows in Hrows. rewrite Hrows. cbn.
      apply initial_rows_of_report. }
    rewrite Hd in P. exact P.
Qed.

(** The queries on the session a creation commits. *)
Lemma created_session_lookup new_id db report_in u response rows :
  report_on db (c_power_plant_id report_in) (c_date report_in) = None ->
  report_of db new_id = None ->
  daily_rows db new_id = [] ->
  same_inputs (new_report new_id report_in u) response ->
  rows = map (initial_row new_id (Endpoints.or_else (c_initial_turbine_stats report_in) []))
           (turbines_of_plant db (c_power_plant_id report_in)) ->
  let db1 :=
    {| daily_reports := daily_reports db ++ [response];
       power_plants := power_plants db;
       morning_readings := morning_readings db;
       turbine_daily_stats := turbine_daily_stats db ++ rows;
       turbine_hourly_generations := turbine_hourly_generations db;
       turbines := turbines db |} in
  report_of db1 new_id = Some response /\
  report_on db1 (c_power_plant_id report_in) (c_date report_in) = Some response /\
  daily_rows db1 new_id = rows.
Proof.
  intros Hnone Hfresh Hrows (Iid & Idate & Iplant & _) -> db1.
  split; [|split].
  - unfold report_of. cbn. rewrite first_app.
    unfold report_of in Hfresh. rewrite Hfresh. cbn.
    unfold has_report_id. rewrite Iid. cbn. now rewrite N.eqb_refl.
  - unfold report_on. cbn. rewrite first_app.
    unfold report_on in Hnone. rewrite Hnone. cbn.
    unfold ServiceQueries.of_plant_and_date. rewrite Idate, Iplant. cbn.
    now rewrite !Z.eqb_refl.
  - unfold daily_rows. cbn. rewrite filter_app.
    unfold daily_rows in Hrows. rewrite Hrows. cbn.
    apply initial_rows_of_report.
Qed.

End Creation.

(** [create_daily_report] answers 403 only to a user who is neither
    editor nor operator and is not a user of the plant (an operator passes
    for every plant, his own or not), and 404 when the plant does not
    exist; a report that exists for the date and plant is returned as it
    is.  In these three cases the session is unchanged.  Otherwise the
    call creates the report and succeeds. *)
Theorem create_outcome (new_id : uuid) (db : Session)
  (report_in : DailyReports.InitialDailyReportCreate) (current_user : User.t) :
  if negb (may_create current_user (DailyReports.c_power_plant_id report_in))
  then DailyReports.create_daily_report new_id db report_in current_user
       = (db, Raise (HTTPException 403))
  else
    match first (has_plant_id (DailyReports.c_power_plant_id report_in))
            (power_plants db) with
    | None =>
        DailyReports.create_daily_report new_id db report_in current_user
        = (db, Raise (HTTPException 404))
    | Some _ =>
        match report_on db (DailyReports.c_power_plant_id report_in)
                (DailyReports.c_date report_in) with
        | Some existing_report =>
            DailyReports.create_daily_report new_id db report_in current_user
            = (db, Ok existing_report)
        | None =>
            exists db1 response,
              DailyReports.create_daily_report new_id db report_in current_user
              = (db1, Ok response)
        end
    end.
Proof.
  unfold DailyReports.create_daily_report.
  rewrite may_create_test.
  destruct (negb (may_create current_user _)); [reflexivity|].
  destruct (first (has_plant_id _) (power_plants db)) as [p|]; [|reflexivity].
  rewrite report_on_create.
  destruct (report_on db _ _) as [existing|]; [reflexivity|].
  cbv zeta.
  match goal with
  | |- context [Service.calculate_and_update_all_metrics ?d ?i] =>
      destruct (service_outcome d i) as (db1 & -> & _)
  end.
  eauto.
Qed.



(** [create_daily_report] is idempotent per (plant, date): once a report
    was created, a further call for the same plant and date, by any user
    who may create, with any values and any new id, returns that report
    and leaves the session unchanged. *)
Theorem create_twice (new_id : uuid) (db : Session)
  (report_in : DailyReports.InitialDailyReportCreate) (current_user : User.t)
  (p : PowerPlant.t) :
  may_create current_user (DailyReports.c_power_plant_id report_in) = true ->
  first (has_plant_id (DailyReports.c_power_plant_id report_in)) (power_plants db)
  = Some p ->
  report_on db (DailyReports.c_power_plant_id report_in) (DailyReports.c_date report_in)
  = None ->
  report_of db new_id = None ->
  daily_rows db new_id = [] ->
  exists db1 response,
    DailyReports.create_daily_report new_id db report_in current_user
    = (db1, Ok response) /\
    forall other_id again other_user,
      DailyReports.c_power_plant_id again = DailyReports.c_power_plant_id report_in ->
      DailyReports.c_date again = DailyReports.c_date report_in ->
      may_create other_user (DailyReports.c_power_plant_id report_in) = true ->
      DailyReports.create_daily_report other_id db1 again other_user
      = (db1, Ok response).
Proof.
  intros Hmay Hp Hnone Hfresh Hrows.
  destruct (create_daily_report_new new_id db report_in current_user p
              Hmay Hp Hnone Hfresh Hrows) as (response & Hrun & P).
  eexists. exists response. split; [exact Hrun|].
  intros other_id again other_user Eplant Edate Hmay'.
  unfold DailyReports.create_daily_report.
  rewrite may_create_test, Eplant, Edate, Hmay'. cbn [negb power_plants].
  rewrite Hp. rewrite report_on_create.
  destruct P as ((_ & Idate & Iplant & _) & _).
  unfold report_on. cbn [daily_reports]. rewrite first_app.
  unfold report_on in Hnone. rewrite Hnone. cbn.
  unfold ServiceQueries.of_plant_and_date. rewrite Idate, Iplant. cbn.
  now rewrite !Z.eqb_refl.
Qed.

Lemma create_twice_witness :
  exists db1 response,
    DailyReports.create_daily_report 1%N DayStart.session DayStart.request
      Scenario.operator = (db1, Ok response) /\
    DailyReports.create_daily_report 2%N db1 DayStart.request Scenario.editor
    = (db1, Ok response).
Proof.
  destruct (create_twice 1%N DayStart.session DayStart.request Scenario.operator
              (Scenario.plant (of_Z 100)) eq_refl eq_refl eq_refl eq_refl eq_refl)
    as (db1 & response & Hrun & Hagain).
  exists db1, response. split; [exact Hrun|].
  apply Hagain; reflexivity.
Defined.

(** Create, then read: for a (plant, date) without a report, the queries
    on the committed session find what was created.  The detail endpoint
    returns the daily rows of the plant's turbines as created, and it and
    [get_calculations] report the totals over these rows under
    [energy_generated] and [energy_exported]. *)
Theorem create_then_read (new_id : uuid) (db : Session)
  (report_in : DailyReports.InitialDailyReportCreate) (current_user : User.t)
  (p : PowerPlant.t) :
  may_create current_user (DailyReports.c_power_plant_id report_in) = true ->
  first (has_plant_id (DailyReports.c_power_plant_id report_in)) (power_plants db)
  = Some p ->
  report_on db (DailyReports.c_power_plant_id report_in) (DailyReports.c_date report_in)
  = None ->
  report_of db new_id = None ->
  daily_rows db new_id = [] ->
  let rows :=
    map (DailyReports.initial_row new_id
           (Endpoints.or_else (DailyReports.c_initial_turbine_stats report_in) []))
      (turbines_of_plant db (DailyReports.c_power_plant_id report_in)) in
  exists db1 response details,
    DailyReports.create_daily_report new_id db report_in current_user
    = (db1, Ok response) /\
    DailyReports.read_daily_report_by_plant_and_date db1
      (DailyReports.c_power_plant_id report_in) (DailyReports.c_date report_in)
    = Ok details /\
    DailyReports.turbine_stats details = rows /\
    DailyReports.hourly_readings details
    = order_by HourlyReadings.by_turbine_and_hour (hourly_rows db new_id) /\
    dict_get (DailyReports.calculations details) "energy_generated"%string
    = Some (Some (dsum (map TurbineDailyStats.energy_generated rows))) /\
    dict_get (DailyReports.calculations details) "energy_exported"%string
    = Some (Some (dsum (map TurbineDailyStats.energy_exported rows))) /\
    dict_get (ServiceQueries.get_calculations db1
                (DailyReports.c_power_plant_id report_in)
                (DailyReports.c_date report_in)) "energy_generated"%string
    = Some (Some (dsum (map TurbineDailyStats.energy_generated rows))) /\
    dict_get (ServiceQueries.get_calculations db1
                (DailyReports.c_power_plant_id report_in)
                (DailyReports.c_date report_in)) "energy_exported"%string
    = Some (Some (dsum (map TurbineDailyStats.energy_exported rows))).
Proof.
  intros Hmay Hp Hnone Hfresh Hrows rows.
  destruct (create_daily_report_new new_id db report_in current_user p
              Hmay Hp Hnone Hfresh Hrows) as (response & Hrun & P).
  fold rows in Hrun, P.
  destruct P as (I & Pg & Pe & _).
  destruct (created_session_lookup new_id db report_in current_user response rows
              Hnone Hfresh Hrows I eq_refl) as (Hof & Hon & Hd).
  cbv zeta in Hof, Hon, Hd.
  pose proof I as (Iid & _). change (DailyReport.id response = new_id) in Iid.
  eexists. exists response. eexists. split; [exact Hrun|].
  unfold DailyReports.read_daily_report_by_plant_and_date,
    ServiceQueries.get_calculations.
  unfold report_on in Hon. rewrite Hon. rewrite Iid.
  unfold ServiceQueries.get_calculations_by_id.
  unfold report_of in Hof. rewrite Hof.
  rewrite fill_required_calculations, !get_decimal_value_id, Pg, Pe.
  split; [reflexivity|]. cbn [DailyReports.turbine_stats DailyReports.hourly_readings
                               DailyReports.calculations].
  split; [exact Hd|]. split; [reflexivity|].
  repeat split; reflexivity.
Qed.

Lemma create_then_read_witness :
  exists db1 response details,
    DailyReports.create_daily_report 1%N DayStart.session DayStart.request
      Scenario.operator = (db1, Ok response) /\
    DailyReports.read_daily_report_by_plant_and_date db1 1%Z 0%Z = Ok details /\
    List.length (DailyReports.turbine_stats details) = 2%nat /\
    dict_get (DailyReports.calculations details) "energy_exported"%string
    = Some (Some (dsum [of_Z 20; dzero])).
Proof.
  destruct (create_then_read 1%N DayStart.session DayStart.request Scenario.operator
              (Scenario.plant (of_Z 100)) eq_refl eq_refl eq_refl eq_refl eq_refl)
    as (db1 & response & details & Hrun & Hread & Hts & _ & _ & He & _).
  exists db1, response, details. split; [exact Hrun|]. split; [exact Hread|].
  split; [rewrite Hts; reflexivity | exact He].
Defined.
